(** * Kron photometry: a shallow embedding of [src/KronPhotometry.cc]

    The definitions follow the source file top to bottom: the two
    footprint functors ([FootprintFlux], [FootprintFindMoment]), the
    aperture ([KronAperture], with [determine] and [measure]), the free
    functions [photometer] and [calculatePsfKronRadius], and the
    measurement algorithm [KronFlux] ([_applyAperture], [_apply],
    [_applyForced], [_fallbackRadius]) with the aperture of a forced
    measurement, and [getPsfFactor].  The properties come next, then runs
    of the algorithm on a strip of five pixels, and the file ends with
    further properties of the same functions and their runs.

    Modelling conventions.
    - A C++ [double] is a real number of the Standard Library ([R]); the
      comparisons of the source are the boolean tests [Rltb], [Rleb],
      [Rgtb] and [Rneqb] below.  Rounding, infinities and NaN are outside
      the model; the one variable the source initialises to a quiet NaN
      and may record as such ([radiusForRadius]) is an [option R], [None]
      being the NaN.  The narrowing of the recorded radii to [float] is
      not modelled.
    - A thrown exception is a value: every fallible function returns a
      [result]; the functions that write to the source record pass the
      record explicitly and return it together with the outcome, so that
      the flags written before a [throw] are still visible afterwards.  A
      [catch] clause is a test on the class of the exception; [throw;]
      throws the exception of the handler again as it is, and [throw e;]
      on a reference to the base class throws a copy of the base class
      ([sliced]).
    - The classes of other packages ([afw] ellipses, boxes, images,
      footprints, PSFs, the sinc photometry) are not part of the source
      file: their data is modelled by records, and the operations with
      real content (the pixels an ellipse covers, the convolution, the
      sinc aperture flux, the shape of a PSF) are parameters.  The
      traversal of a footprint by a functor, and the check of the footprint
      against the image that comes before it, are modelled from the
      specification. *)

From Stdlib Require Import Reals ZArith List Sorted String Bool Lra Lia.
Import ListNotations.
Open Scope R_scope.

(** ** Comparisons of doubles *)

Definition Rltb (x y : R) : bool := if Rlt_dec x y then true else false.
Definition Rleb (x y : R) : bool := if Rle_dec x y then true else false.
Definition Rgtb (x y : R) : bool := Rltb y x.
Definition Rneqb (x y : R) : bool := if Req_dec_T x y then false else true.

(** [::hypot] of the C library. *)
Definition hypot (x y : R) : R := sqrt (x * x + y * y).

(** [int(x)] for a double [x]: truncation towards zero. *)
Definition truncZ (x : R) : Z :=
  if Rle_dec 0 x then Int_part x else (- Int_part (- x))%Z.

(** [std::numeric_limits<double>::epsilon()]. *)
Definition epsilon : R := / 2 ^ 52.

(** ** Exceptions ([lsst::pex::exceptions]) *)

Inductive ExcKind : Type :=
| LogicError | DomainError | InvalidParameterError | LengthError
| OutOfRangeError | RuntimeError | RangeError | OverflowError
| UnderflowError | NotFoundError | MemoryError | IoError | TypeError
| TimeoutError
| BadKronException   (* LSST_EXCEPTION_TYPE(BadKronException, RuntimeError, ...) *)
| BaseException.     (* [pex::exceptions::Exception] itself, the base of the classes above *)

Definition ExcKind_eqb (k1 k2 : ExcKind) : bool :=
  match k1, k2 with
  | LogicError, LogicError | DomainError, DomainError
  | InvalidParameterError, InvalidParameterError | LengthError, LengthError
  | OutOfRangeError, OutOfRangeError | RuntimeError, RuntimeError
  | RangeError, RangeError | OverflowError, OverflowError
  | UnderflowError, UnderflowError | NotFoundError, NotFoundError
  | MemoryError, MemoryError | IoError, IoError | TypeError, TypeError
  | TimeoutError, TimeoutError | BadKronException, BadKronException
  | BaseException, BaseException => true
  | _, _ => false
  end.

(** An exception carries its class and the messages attached so far, the
    original one first. *)
Record Exception : Type := mkException { kind : ExcKind; what : list string }.

Definition LSST_EXCEPT (k : ExcKind) (msg : string) : Exception :=
  {| kind := k; what := [msg] |}.

Definition LSST_EXCEPT_ADD (e : Exception) (msg : string) : Exception :=
  {| kind := kind e; what := what e ++ [msg] |}.

(** [throw e;] for a reference [e] of static type
    [pex::exceptions::Exception&]: the object thrown is a copy made at the
    static type, an exception of the base class with the messages of [e];
    the class of [e] is lost.  ([throw;] throws the exception of the
    handler again as it is, and [throw e;] for a reference to a class
    without subclasses keeps the class.) *)
Definition sliced (e : Exception) : Exception :=
  {| kind := BaseException; what := what e |}.

Inductive result (A : Type) : Type :=
| Ok (a : A)
| Throw (e : Exception).
Arguments Ok {A} a.
Arguments Throw {A} e.

(** ** Geometry ([afw::geom]) *)

Record Point2D : Type := mkPoint2D { getX : R; getY : R }.

(** Modelled from the spec: [afw::geom::ellipses::Axes], an ellipse core
    with semi-major axis [a], semi-minor axis [b] and position angle
    [theta]; [scale] is the uniform rescaling that keeps axis ratio and
    orientation, and the determinant radius is [sqrt (a * b)]. *)
Record Axes : Type := mkAxes { getA : R; getB : R; getTheta : R }.

Definition scale (ax : Axes) (factor : R) : Axes :=
  {| getA := getA ax * factor; getB := getB ax * factor; getTheta := getTheta ax |}.

Definition getDeterminantRadius (ax : Axes) : R := sqrt (getA ax * getB ax).

Record Ellipse : Type := mkEllipse { getCore : Axes; getCenter : Point2D }.

(** Modelled from the spec: [afw::geom::Box2I], an integer box stored as
    its minimum corner and its dimensions; the empty box has dimensions
    zero at the origin. *)
Record Box2I : Type := mkBox2I { getMinX : Z; getMinY : Z; getWidth : Z; getHeight : Z }.

Definition getMaxX (b : Box2I) : Z := (getMinX b + getWidth b - 1)%Z.
Definition getMaxY (b : Box2I) : Z := (getMinY b + getHeight b - 1)%Z.
Definition emptyBox : Box2I := mkBox2I 0 0 0 0.
Definition isEmpty (b : Box2I) : bool := (getWidth b <=? 0)%Z || (getHeight b <=? 0)%Z.

Definition boxOfCorners (x0 y0 x1 y1 : Z) : Box2I :=
  mkBox2I x0 y0 (x1 - x0 + 1) (y1 - y0 + 1).

(** [Box2I::clip]: shrink [b] to its intersection with [other]. *)
Definition clip (b other : Box2I) : Box2I :=
  if isEmpty b then b
  else if isEmpty other then emptyBox
  else
    let x0 := Z.max (getMinX b) (getMinX other) in
    let y0 := Z.max (getMinY b) (getMinY other) in
    let x1 := Z.min (getMaxX b) (getMaxX other) in
    let y1 := Z.min (getMaxY b) (getMaxY other) in
    if (x1 <? x0)%Z || (y1 <? y0)%Z then emptyBox
    else boxOfCorners x0 y0 x1 y1.

(** [afw::geom::ROOT2]; [afw::geom::PI] is [PI] of the Standard Library. *)
Definition ROOT2 : R := sqrt 2.

(** ** Images and footprints ([afw::image], [afw::detection]) *)

(** A masked image is its bounding box in parent coordinates and its
    image and variance planes, read at parent coordinates. *)
Record MaskedImage : Type := mkMaskedImage {
  imageBBox : Box2I;
  imageAt : Z -> Z -> R;
  varianceAt : Z -> Z -> R
}.

Definition getX0 (m : MaskedImage) : Z := getMinX (imageBBox m).
Definition getY0 (m : MaskedImage) : Z := getMinY (imageBBox m).
Definition getImageWidth (m : MaskedImage) : Z := getWidth (imageBBox m).
Definition getImageHeight (m : MaskedImage) : Z := getHeight (imageBBox m).

(** The view [ImageT(image, bbox, PARENT, false)]: same planes, smaller box. *)
Definition subImageView (m : MaskedImage) (bbox : Box2I) : MaskedImage :=
  {| imageBBox := bbox; imageAt := imageAt m; varianceAt := varianceAt m |}.

(** The same image with every intensity multiplied by [c]; none of the
    source, it states how the solver depends on the scale of the
    intensities. *)
Definition scaleIntensity (c : R) (m : MaskedImage) : MaskedImage :=
  mkMaskedImage (imageBBox m) (fun x y => c * imageAt m x y) (varianceAt m).

(** A footprint is its bounding box and the pixels it covers, in the
    order in which its spans are traversed. *)
Record Footprint : Type := mkFootprint { getBBox : Box2I; getPixels : list (Z * Z) }.

(** The separable Gaussian kernel of [determine]. *)
Record SeparableKernel : Type := mkKernel { kWidth : Z; kHeight : Z; kSigma : R }.

(** Modelled from the spec: [Kernel::growBBox], the region grown by the
    kernel's support (half the kernel size on every side). *)
Definition growBBox (k : SeparableKernel) (b : Box2I) : Box2I :=
  mkBox2I (getMinX b - (kWidth k - 1) / 2) (getMinY b - (kHeight k - 1) / 2)
          (getWidth b + kWidth k - 1) (getHeight b + kHeight k - 1).

(** Sum of the values of [f] over a list of pixels. *)
Definition pixelSum (f : Z -> Z -> R) (ps : list (Z * Z)) : R :=
  fold_right Rplus 0 (map (fun p => f (fst p) (snd p)) ps).

(** [Box2I::contains(Box2I)]: an empty box lies within every box. *)
Definition contains (outer inner : Box2I) : bool :=
  isEmpty inner ||
  ((getMinX outer <=? getMinX inner)%Z && (getMinY outer <=? getMinY inner)%Z &&
   (getMaxX inner <=? getMaxX outer)%Z && (getMaxY inner <=? getMaxY outer)%Z).

(** Modelled from the spec: the check [FootprintFunctor::apply] makes of
    the footprint before it visits a pixel.  A footprint whose bounding box
    exceeds the extent of the image is not traversed: the length error
    that [_applyAperture] catches ("We hit the edge of the image") is
    raised.  The text of its message is not in the source file. *)
Definition checkFootprint (mimage : MaskedImage) (foot : Footprint) : result unit :=
  if contains (imageBBox mimage) (getBBox foot) then Ok tt
  else Throw (LSST_EXCEPT LengthError "Footprint doesn't fit in image").

(** ** [FootprintFlux]: flux and variance summed over a footprint *)

Module FootprintFlux.

Record t : Type := mk { _sum : R; _sumVar : R }.

  (** The constructor. *)
Definition make : t := {| _sum := 0; _sumVar := 0 |}.

Definition reset (f : t) : t := {| _sum := 0; _sumVar := 0 |}.
Definition reset_foot (f : t) (foot : Footprint) : t := f.

  (** [operator()], called for each pixel. *)
Definition call (mimage : MaskedImage) (f : t) (x y : Z) : t :=
    let ival := imageAt mimage x y in
    let vval := varianceAt mimage x y in
    {| _sum := _sum f + ival; _sumVar := _sumVar f + vval |}.

  (** Modelled from the spec: the traversal of [FootprintFunctor::apply],
      which resets the functor and calls it on every pixel the footprint
      covers. *)
Definition traverse (mimage : MaskedImage) (f : t) (foot : Footprint) : t :=
    fold_left (fun f p => call mimage f (fst p) (snd p)) (getPixels foot)
              (reset_foot (reset f) foot).

  (** Modelled from the spec: [FootprintFunctor::apply], the check of the
      footprint against the image and then the traversal. *)
Definition apply (mimage : MaskedImage) (f : t) (foot : Footprint) : result t :=
    match checkFootprint mimage foot with
    | Throw e => Throw e
    | Ok _ => Ok (traverse mimage f foot)
    end.

Definition getSum (f : t) : R := _sum f.
Definition getSumVar (f : t) : R := _sumVar f.

End FootprintFlux.

(** ** [FootprintFindMoment]: first elliptical moment over a footprint *)

Module FootprintFindMoment.

Record t : Type := mk {
    _xcen : R; _ycen : R;
    _ab : R;
    _cosTheta : R; _sinTheta : R;
    _sum : R; _sumR : R;
    _imageX0 : Z; _imageY0 : Z
  }.

Definition make (mimage : MaskedImage) (center : Point2D) (ab theta : R) : t :=
    {| _xcen := getX center; _ycen := getY center;
       _ab := ab;
       _cosTheta := cos theta; _sinTheta := sin theta;
       _sum := 0; _sumR := 0;
       _imageX0 := getX0 mimage; _imageY0 := getY0 mimage |}.

Definition setSums (f : t) (s sR : R) : t :=
    {| _xcen := _xcen f; _ycen := _ycen f; _ab := _ab f;
       _cosTheta := _cosTheta f; _sinTheta := _sinTheta f;
       _sum := s; _sumR := sR;
       _imageX0 := _imageX0 f; _imageY0 := _imageY0 f |}.

Definition reset (f : t) : t := f.

  (** The footprint's bounding box must lie inside the image. *)
Definition fits (mimage : MaskedImage) (f : t) (foot : Footprint) : bool :=
    let bbox := getBBox foot in
    let x0 := getMinX bbox in let y0 := getMinY bbox in
    let x1 := getMaxX bbox in let y1 := getMaxY bbox in
    negb ((x0 <? _imageX0 f)%Z || (y0 <? _imageY0 f)%Z ||
          (x1 >=? _imageX0 f + getImageWidth mimage)%Z ||
          (y1 >=? _imageY0 f + getImageHeight mimage)%Z).

Definition reset_foot (mimage : MaskedImage) (f : t) (foot : Footprint) : result t :=
    let f := setSums f 0 0 in
    if negb (fits mimage f foot) then
      Throw (LSST_EXCEPT OutOfRangeError "Footprint %d,%d--%d,%d doesn't fit in image %d,%d--%d,%d")
    else Ok f.

  (** The elliptical radius given to the pixel [(x, y)]. *)
Definition radiusAt (f : t) (x y : Z) : R :=
    let dx := IZR x - _xcen f in
    let dy := IZR y - _ycen f in
    let du := dx * _cosTheta f + dy * _sinTheta f in
    let dv := - dx * _sinTheta f + dy * _cosTheta f in
    let r := hypot du (dv * _ab f) in
    if Rltb (hypot dx dy) 0.5 then
      let eR := 0.38259771140356325 in
      hypot r (eR * (1 + hypot dx dy / ROOT2))
    else r.

  (** [operator()], called for each pixel. *)
Definition call (mimage : MaskedImage) (f : t) (x y : Z) : t :=
    let r := radiusAt f x y in
    let ival := imageAt mimage x y in
    setSums f (_sum f + ival) (_sumR f + r * ival).

  (** Modelled from the spec: [FootprintFunctor::apply], which resets the
      functor and calls it on every pixel the footprint covers.  A
      footprint that passes the check of [reset_foot] lies within the image,
      so that the check of the base class ([checkFootprint]) cannot fail
      after it. *)
Definition apply (mimage : MaskedImage) (f : t) (foot : Footprint) : result t :=
    match reset_foot mimage (reset f) foot with
    | Throw e => Throw e
    | Ok f0 => Ok (fold_left (fun f p => call mimage f (fst p) (snd p)) (getPixels foot) f0)
    end.

Definition getIr (f : t) : R := _sumR f / _sum f.

Definition getGood (f : t) : bool := Rgtb (_sum f) 0 && Rgtb (_sumR f) 0.

End FootprintFindMoment.

(** The elliptical radius of the pixel [(x, y)] in the words of the
    specification, for a centre [(x0, y0)], an axis ratio [ab] and an
    orientation [theta]; compared with [FootprintFindMoment.radiusAt] below. *)
Definition spec_ellipticalRadius (x0 y0 ab theta : R) (x y : Z) : R :=
  let dx := IZR x - x0 in
  let dy := IZR y - y0 in
  let u := dx * cos theta + dy * sin theta in
  let v := - dx * sin theta + dy * cos theta in
  let r := hypot u (v * ab) in
  if Rlt_dec (hypot dx dy) (1 / 2) then
    hypot r (38259771140356325 / 10 ^ 17 * (1 + hypot dx dy / sqrt 2))
  else r.

(** ** Configuration, PSF, exposure and source record *)

(** Modelled from the spec: [KronFluxControl], declared in
    [photometryKron.h]; the fields are those the source file reads. *)
Record KronFluxControl : Type := mkKronFluxControl {
  fixed : bool;
  nSigmaForRadius : R;
  nIterForRadius : Z;
  nRadiusForFlux : R;
  maxSincRadius : R;
  minimumRadius : R;
  enforceMinimumRadius : bool;
  useFootprintRadius : bool;
  smoothingSigma : R
}.

(** A PSF, as far as this file uses it: its shape at a point and its
    shape at the default position. *)
Record Psf : Type := mkPsf {
  computeShape : Point2D -> Axes;
  computeShapeDefault : Axes
}.

Record Exposure : Type := mkExposure {
  getMaskedImage : MaskedImage;
  getPsf : option Psf
}.

Module SourceRecord.

  (** The fields read from the record, then the fields of the Kron
      algorithm ([getKeys()] and the keys of [KronFlux]).  A value field
      that holds NaN, or was never written, is [None]. *)
Record t : Type := mk {
    getId : Z;
    getX : R;
    getY : R;
    getShape : Axes;
    getShapeFlag : bool;
    getFootprintShape : Axes;
    flag : bool;
    meas : option R;
    err : option R;
    radius : option R;
    radiusForRadius : option R;
    edge : bool;
    badRadius : bool;
    smallRadius : bool;
    usedMinimumRadius : bool;
    usedPsfRadius : bool;
    psfRadius : option R;
    badShape : bool
  }.

Definition set_flag (v : bool) (s : t) : t :=
    mk (getId s) (getX s) (getY s) (getShape s) (getShapeFlag s) (getFootprintShape s)
       v (meas s) (err s) (radius s) (radiusForRadius s) (edge s) (badRadius s)
       (smallRadius s) (usedMinimumRadius s) (usedPsfRadius s) (psfRadius s) (badShape s).
Definition set_meas (v : option R) (s : t) : t :=
    mk (getId s) (getX s) (getY s) (getShape s) (getShapeFlag s) (getFootprintShape s)
       (flag s) v (err s) (radius s) (radiusForRadius s) (edge s) (badRadius s)
       (smallRadius s) (usedMinimumRadius s) (usedPsfRadius s) (psfRadius s) (badShape s).
Definition set_err (v : option R) (s : t) : t :=
    mk (getId s) (getX s) (getY s) (getShape s) (getShapeFlag s) (getFootprintShape s)
       (flag s) (meas s) v (radius s) (radiusForRadius s) (edge s) (badRadius s)
       (smallRadius s) (usedMinimumRadius s) (usedPsfRadius s) (psfRadius s) (badShape s).
Definition set_radius (v : option R) (s : t) : t :=
    mk (getId s) (getX s) (getY s) (getShape s) (getShapeFlag s) (getFootprintShape s)
       (flag s) (meas s) (err s) v (radiusForRadius s) (edge s) (badRadius s)
       (smallRadius s) (usedMinimumRadius s) (usedPsfRadius s) (psfRadius s) (badShape s).
Definition set_radiusForRadius (v : option R) (s : t) : t :=
    mk (getId s) (getX s) (getY s) (getShape s) (getShapeFlag s) (getFootprintShape s)
       (flag s) (meas s) (err s) (radius s) v (edge s) (badRadius s)
       (smallRadius s) (usedMinimumRadius s) (usedPsfRadius s) (psfRadius s) (badShape s).
Definition set_edge (v : bool) (s : t) : t :=
    mk (getId s) (getX s) (getY s) (getShape s) (getShapeFlag s) (getFootprintShape s)
       (flag s) (meas s) (err s) (radius s) (radiusForRadius s) v (badRadius s)
       (smallRadius s) (usedMinimumRadius s) (usedPsfRadius s) (psfRadius s) (badShape s).
Definition set_badRadius (v : bool) (s : t) : t :=
    mk (getId s) (getX s) (getY s) (getShape s) (getShapeFlag s) (getFootprintShape s)
       (flag s) (meas s) (err s) (radius s) (radiusForRadius s) (edge s) v
       (smallRadius s) (usedMinimumRadius s) (usedPsfRadius s) (psfRadius s) (badShape s).
Definition set_smallRadius (v : bool) (s : t) : t :=
    mk (getId s) (getX s) (getY s) (getShape s) (getShapeFlag s) (getFootprintShape s)
       (flag s) (meas s) (err s) (radius s) (radiusForRadius s) (edge s) (badRadius s)
       v (usedMinimumRadius s) (usedPsfRadius s) (psfRadius s) (badShape s).
Definition set_usedMinimumRadius (v : bool) (s : t) : t :=
    mk (getId s) (getX s) (getY s) (getShape s) (getShapeFlag s) (getFootprintShape s)
       (flag s) (meas s) (err s) (radius s) (radiusForRadius s) (edge s) (badRadius s)
       (smallRadius s) v (usedPsfRadius s) (psfRadius s) (badShape s).
Definition set_usedPsfRadius (v : bool) (s : t) : t :=
    mk (getId s) (getX s) (getY s) (getShape s) (getShapeFlag s) (getFootprintShape s)
       (flag s) (meas s) (err s) (radius s) (radiusForRadius s) (edge s) (badRadius s)
       (smallRadius s) (usedMinimumRadius s) v (psfRadius s) (badShape s).
Definition set_psfRadius (v : option R) (s : t) : t :=
    mk (getId s) (getX s) (getY s) (getShape s) (getShapeFlag s) (getFootprintShape s)
       (flag s) (meas s) (err s) (radius s) (radiusForRadius s) (edge s) (badRadius s)
       (smallRadius s) (usedMinimumRadius s) (usedPsfRadius s) v (badShape s).
Definition set_badShape (v : bool) (s : t) : t :=
    mk (getId s) (getX s) (getY s) (getShape s) (getShapeFlag s) (getFootprintShape s)
       (flag s) (meas s) (err s) (radius s) (radiusForRadius s) (edge s) (badRadius s)
       (smallRadius s) (usedMinimumRadius s) (usedPsfRadius s) (psfRadius s) v.

End SourceRecord.

(** ** Computations that write to the source record and may throw *)

Definition Meas (A : Type) : Type := SourceRecord.t -> SourceRecord.t * result A.

Definition ret {A : Type} (a : A) : Meas A := fun s => (s, Ok a).

Definition bind {A B : Type} (m : Meas A) (k : A -> Meas B) : Meas B :=
  fun s => match m s with
           | (s', Ok a) => k a s'
           | (s', Throw e) => (s', Throw e)
           end.

Definition throw {A : Type} (e : Exception) : Meas A := fun s => (s, Throw e).

(** [source.set(key, v)] for a setter of [SourceRecord]. *)
Definition set (f : SourceRecord.t -> SourceRecord.t) : Meas unit :=
  fun s => (f s, Ok tt).

(** Read the record. *)
Definition getSource : Meas SourceRecord.t := fun s => (s, Ok s).

Declare Scope meas_scope.
Delimit Scope meas_scope with meas.
Notation "x <- m ;; k" := (bind m (fun x => k))
  (at level 61, m at next level, right associativity) : meas_scope.
Notation "m ;; k" := (bind m (fun _ => k))
  (at level 61, right associativity) : meas_scope.

(** ** [KronAperture] *)

Record KronAperture : Type := mkKronAperture { _center : Point2D; _axes : Axes }.

Definition getAxes (ap : KronAperture) : Axes := _axes ap.
Definition getApertureCenter (ap : KronAperture) : Point2D := _center ap.

(** [aperture.getAxes().scale(s)], through the non-const accessor. *)
Definition scaleAxes (ap : KronAperture) (s : R) : KronAperture :=
  {| _center := _center ap; _axes := scale (_axes ap) s |}.

(** [explicit KronAperture(SourceRecord const & source)]. *)
Definition KronAperture_ofSource (source : SourceRecord.t) : KronAperture :=
  {| _center := mkPoint2D (SourceRecord.getX source) (SourceRecord.getY source);
     _axes := SourceRecord.getShape source |}.

(** [calculatePsfKronRadius]: for a Gaussian N(0, sigma^2) the Kron radius
    is sqrt(pi/2)*sigma. *)
Definition calculatePsfKronRadius (psf : Psf) (center : Point2D) (smoothingSigma : R) : R :=
  let radius := getDeterminantRadius (computeShape psf center) in
  sqrt (PI / 2) * hypot radius (Rmax 0 smoothingSigma).

Section Collaborators.

(** [afw::detection::Footprint(ellipse, region)]: the pixels an ellipse covers. *)
Variable Footprint_ofEllipse : Ellipse -> Box2I -> Footprint.

(** [afw::math::convolve(out, in, kernel, convCtrl)]: the planes written to
    [out], or the exception raised. *)
Variable convolve : MaskedImage -> SeparableKernel -> bool -> bool -> result MaskedImage.

(** [algorithms::photometry::calculateSincApertureFlux]. *)
Variable calculateSincApertureFlux : MaskedImage -> Ellipse -> result (R * R).

(** What one pass of the loop of [determine] decides. *)
Inductive Step : Type :=
| Break (axes : Axes)
| Raise (e : Exception)
| Continue (axes : Axes) (radius0 : R).

(** The image the moment is measured on in one pass: the part of the
    image under the footprint, grown by the kernel and convolved with it
    when smoothing is asked for. *)
Definition momentWindow (image : MaskedImage) (smoothImage : bool) (kernel : SeparableKernel)
    (doNormalize doCopyEdge : bool) (foot : Footprint) : result MaskedImage :=
  let bbox := if negb smoothImage then getBBox foot else growBBox kernel (getBBox foot) in
  let bbox := clip bbox (imageBBox image) in
  let subImage := subImageView image bbox in
  if smoothImage then
    match convolve (subImageView image bbox) kernel doNormalize doCopyEdge with
    | Ok out => Ok (mkMaskedImage bbox (imageAt out) (varianceAt out))
    | Throw e => Throw e
    end
  else Ok subImage.

(** The body of the loop of [determine] at index [i]; the second component
    is the value written to [*radiusForRadius]. *)
Definition determine_body (image : MaskedImage) (center : Point2D) (ctrl : KronFluxControl)
    (smoothImage : bool) (kernel : SeparableKernel) (doNormalize doCopyEdge : bool)
    (i : Z) (axes : Axes) (radius0 : R) : Step * R :=
  let axes := scale axes (nSigmaForRadius ctrl) in
  let radiusForRadius := getDeterminantRadius axes in
  let foot := Footprint_ofEllipse (mkEllipse axes center) emptyBox in
  match momentWindow image smoothImage kernel doNormalize doCopyEdge foot with
  | Throw e => (Raise e, radiusForRadius)
  | Ok subImage =>
    let iRFunctor := FootprintFindMoment.make subImage center (getA axes / getB axes) (getTheta axes) in
    match FootprintFindMoment.apply subImage iRFunctor foot with
    | Throw e =>
      if ExcKind_eqb (kind e) OutOfRangeError then
        (* the message is added to [e], and [e] is dropped at the [break] *)
        let e := if (i =? 0)%Z then LSST_EXCEPT_ADD e "Determining Kron aperture" else e in
        (Break axes, radiusForRadius)        (* use the radius we have *)
      else (Raise e, radiusForRadius)
    | Ok iRFunctor =>
      if negb (FootprintFindMoment.getGood iRFunctor) then
        (Raise (LSST_EXCEPT BadKronException "Bad integral defining Kron radius"), radiusForRadius)
      else
        let radius := FootprintFindMoment.getIr iRFunctor * sqrt (getB axes / getA axes) in
        if Rleb radius radius0 then (Break axes, radiusForRadius)
        else
          let radius0 := radius in
          (Continue (scale axes (radius / getDeterminantRadius axes)) radius0, radiusForRadius)
    end
  end.

(** The loop [for (int i = 0; i < ctrl.nIterForRadius; ++i)], with [n]
    passes left. *)
Fixpoint determine_loop (image : MaskedImage) (center : Point2D) (ctrl : KronFluxControl)
    (smoothImage : bool) (kernel : SeparableKernel) (doNormalize doCopyEdge : bool)
    (n : nat) (i : Z) (axes : Axes) (radius0 : R) (radiusForRadius : option R)
    : result Axes * option R :=
  match n with
  | O => (Ok axes, radiusForRadius)
  | S n' =>
    match determine_body image center ctrl smoothImage kernel doNormalize doCopyEdge i axes radius0 with
    | (Break axes, rfr) => (Ok axes, Some rfr)
    | (Raise e, rfr) => (Throw e, Some rfr)
    | (Continue axes radius0, rfr) =>
      determine_loop image center ctrl smoothImage kernel doNormalize doCopyEdge
                     n' (i + 1)%Z axes radius0 (Some rfr)
    end
  end.

(** The states the loop adopts, in order: the trial ellipse rescaled to
    the new estimate, and the estimate, after each pass that continues.
    Same recursion as [determine_loop], keeping what that one passes on. *)
Fixpoint adoptedStates (image : MaskedImage) (center : Point2D) (ctrl : KronFluxControl)
    (smoothImage : bool) (kernel : SeparableKernel) (doNormalize doCopyEdge : bool)
    (n : nat) (i : Z) (axes : Axes) (radius0 : R) : list (Axes * R) :=
  match n with
  | O => []
  | S n' =>
    match determine_body image center ctrl smoothImage kernel doNormalize doCopyEdge i axes radius0 with
    | (Continue axes radius0, _) =>
      (axes, radius0)
        :: adoptedStates image center ctrl smoothImage kernel doNormalize doCopyEdge
                         n' (i + 1)%Z axes radius0
    | _ => []
    end
  end.

(** [KronAperture::determine]; the second component is [*radiusForRadius]
    when the function returns or throws. *)
Definition determine (image : MaskedImage) (axes : Axes) (center : Point2D)
    (ctrl : KronFluxControl) (radiusForRadius : option R) : result KronAperture * option R :=
  let sigma := smoothingSigma ctrl in
  let smoothImage := Rgtb sigma 0 in
  let kSize := if smoothImage then (2 * truncZ (2 * sigma) + 1)%Z else 1%Z in
  let gaussFunc := if smoothImage then sigma else 100 in
  let kernel := mkKernel kSize kSize gaussFunc in
  let doNormalize := true in
  let doCopyEdge := false in
  let radius0 := getDeterminantRadius axes in
  match determine_loop image center ctrl smoothImage kernel doNormalize doCopyEdge
                       (Z.to_nat (nIterForRadius ctrl)) 0%Z axes radius0 radiusForRadius with
  | (Ok axes, rfr) => (Ok (mkKronAperture center axes), rfr)
  | (Throw e, rfr) => (Throw e, rfr)
  end.

(** The states adopted by the loop in the run of [determine] on the same
    arguments. *)
Definition determine_adopted (image : MaskedImage) (axes : Axes) (center : Point2D)
    (ctrl : KronFluxControl) : list (Axes * R) :=
  let sigma := smoothingSigma ctrl in
  let smoothImage := Rgtb sigma 0 in
  let kSize := if smoothImage then (2 * truncZ (2 * sigma) + 1)%Z else 1%Z in
  let gaussFunc := if smoothImage then sigma else 100 in
  let kernel := mkKernel kSize kSize gaussFunc in
  adoptedStates image center ctrl smoothImage kernel true false
                (Z.to_nat (nIterForRadius ctrl)) 0%Z axes (getDeterminantRadius axes).

(** [photometer]: photometer an image with a particular aperture. *)
Definition photometer (image : MaskedImage) (aperture : Ellipse) (maxSincRadius : R)
    : result (R * R) :=
  let axes := getCore aperture in
  if Rgtb (getB axes) maxSincRadius then
    let fluxFunctor := FootprintFlux.make in
    let foot := Footprint_ofEllipse aperture (imageBBox image) in
    match FootprintFlux.apply image fluxFunctor foot with
    | Throw e => Throw e                (* not in the [try] block below *)
    | Ok fluxFunctor =>
      Ok (FootprintFlux.getSum fluxFunctor, sqrt (FootprintFlux.getSumVar fluxFunctor))
    end
  else
    match calculateSincApertureFlux image aperture with
    | Ok r => Ok r
    | Throw e =>
      if ExcKind_eqb (kind e) LengthError then
        Throw (LSST_EXCEPT_ADD e
          "Measuring Kron flux for object at (%.3f, %.3f); aperture radius %g,%g theta %g")
      else Throw e
    end.

(** [KronAperture::measure], a [const] method: the aperture after the call
    and the result. *)
Definition measure (self : KronAperture) (image : MaskedImage)
    (nRadiusForFlux maxSincRadius : R) : KronAperture * result (R * R) :=
  let axes := getAxes self in               (* copy of ellipse core, so we can scale *)
  let axes := scale axes nRadiusForFlux in
  let ellip := mkEllipse axes (getApertureCenter self) in
  (self, photometer image ellip maxSincRadius).

(** ** [KronFlux]: the measurement algorithm

    The methods take the control object of the algorithm ([getControl()])
    as their first argument. *)

Local Open Scope meas_scope.

(** [KronFlux::_applyAperture]; the aperture is received by reference, and
    is returned as it stands when the method returns or throws. *)
Definition _applyAperture (ctrl : KronFluxControl) (source : SourceRecord.t)
    (exposure : Exposure) (aperture : KronAperture)
    : (SourceRecord.t * KronAperture) * result unit :=
  let rad := getDeterminantRadius (getAxes aperture) in
  if Rltb rad epsilon then
    let source := SourceRecord.set_badRadius true source in
    ((source, aperture),
     Throw (LSST_EXCEPT UnderflowError "Kron radius is < epsilon for source %ld"))
  else
    match measure aperture (getMaskedImage exposure) (nRadiusForFlux ctrl) (maxSincRadius ctrl) with
    | (aperture, Throw e) =>
      if ExcKind_eqb (kind e) LengthError then
        (* We hit the edge of the image; there's no reasonable fallback or recovery *)
        let source := SourceRecord.set_flag true source in
        let source := SourceRecord.set_edge true source in
        ((source, aperture), Throw e)
      else ((source, aperture), Throw e)
    | (aperture, Ok result) =>
      let source := SourceRecord.set_meas (Some (fst result)) source in
      let source := SourceRecord.set_err (Some (snd result)) source in
      let source :=
        SourceRecord.set_radius (Some (getDeterminantRadius (getAxes aperture))) source in
      ((source, aperture), Ok tt)
    end.

(** [KronFlux::_fallbackRadius]: provide a [KronAperture] for when the
    regular aperture fails, or throw the exception again. *)
Definition _fallbackRadius (ctrl : KronFluxControl) (R_K_psf : R) (exc : Exception)
    : Meas KronAperture :=
  set (SourceRecord.set_badRadius true) ;;
  newRadius <-
    (if Rgtb (minimumRadius ctrl) 0 then
       set (SourceRecord.set_usedMinimumRadius true) ;;
       ret (minimumRadius ctrl)
     else if Rgtb R_K_psf 0 then
       set (SourceRecord.set_usedPsfRadius true) ;;
       ret R_K_psf
     else
       (* [exc] is a [pex::exceptions::Exception&] *)
       throw (sliced (LSST_EXCEPT_ADD exc
                        "Bad Kron aperture, no minimum radius specified, and no PSF"))) ;;
  source <- getSource ;;
  let aperture := KronAperture_ofSource source in
  ret (scaleAxes aperture (newRadius / getDeterminantRadius (getAxes aperture))).

(** The shape of the desired aperture, and whether the shape of the source
    was bad (first part of [_apply]). *)
Definition selectShape (exposure : Exposure) : Meas (Axes * bool) :=
  source <- getSource ;;
  if negb (SourceRecord.getShapeFlag source) then
    ret (SourceRecord.getShape source, false)
  else
    match getPsf exposure with
    | None => throw (LSST_EXCEPT RuntimeError "Bad shape and no PSF")
    | Some psf =>
      set (SourceRecord.set_badShape true) ;;
      ret (computeShapeDefault psf, true)
    end.

(** The widening of the shape by the footprint ([ctrl.useFootprintRadius]). *)
Definition widenByFootprint (ctrl : KronFluxControl) (source : SourceRecord.t) (axes : Axes)
    : Axes :=
  if useFootprintRadius ctrl then
    let footprintAxes := scale (SourceRecord.getFootprintShape source) (sqrt 2) in
    let radius0 := getDeterminantRadius axes in
    let footRadius := getDeterminantRadius footprintAxes in
    if Rgtb footRadius (radius0 * nSigmaForRadius ctrl) then
      let radius0 := footRadius / nSigmaForRadius ctrl in
      scale axes (radius0 / getDeterminantRadius axes)
    else axes
  else axes.

(** The aperture, [radiusForRadius] and [bad] after the solver or its
    handlers (the [if (ctrl.fixed) ... else try ... catch] of [_apply]). *)
Definition obtainAperture (ctrl : KronFluxControl) (exposure : Exposure) (center : Point2D)
    (axes : Axes) (R_K_psf : R) (bad : bool) : Meas (KronAperture * option R * bool) :=
  let radiusForRadius : option R := None in
  if fixed ctrl then
    source <- getSource ;;
    ret (KronAperture_ofSource source, radiusForRadius, bad)
  else
    match determine (getMaskedImage exposure) axes center ctrl radiusForRadius with
    | (Ok aperture, radiusForRadius) => ret (aperture, radiusForRadius, bad)
    | (Throw e, radiusForRadius) =>
      if ExcKind_eqb (kind e) OutOfRangeError then
        (* We hit the edge of the image: no reasonable fallback or recovery possible *)
        set (SourceRecord.set_edge true) ;;
        set (SourceRecord.set_flag true) ;;
        throw e
      else if ExcKind_eqb (kind e) BadKronException then
        (* Not setting bad=true because we only failed due to low S/N *)
        aperture <- _fallbackRadius ctrl R_K_psf e ;;
        ret (aperture, radiusForRadius, bad)
      else
        aperture <- _fallbackRadius ctrl R_K_psf e ;;
        ret (aperture, radiusForRadius, true)
    end.

(** Enforce constraints on minimum radius ([ctrl.enforceMinimumRadius]). *)
Definition enforceMinimum (ctrl : KronFluxControl) (exposure : Exposure) (R_K_psf : R)
    (aperture : KronAperture) : Meas KronAperture :=
  let rad := getDeterminantRadius (getAxes aperture) in
  if enforceMinimumRadius ctrl then
    newRadius <-
      (if Rgtb (minimumRadius ctrl) 0 then
         if Rltb rad (minimumRadius ctrl) then
           set (SourceRecord.set_usedMinimumRadius true) ;;
           ret (minimumRadius ctrl)
         else ret rad
       else
         match getPsf exposure with
         | None => throw (LSST_EXCEPT RuntimeError "No minimum radius and no PSF provided")
         | Some _ =>
           if Rltb rad R_K_psf then
             set (SourceRecord.set_usedPsfRadius true) ;;
             ret R_K_psf
           else ret rad
         end) ;;
    if Rneqb newRadius rad then
      let aperture := scaleAxes aperture (newRadius / rad) in
      set (SourceRecord.set_smallRadius true) ;;     (* guilty after all *)
      ret aperture
    else ret aperture
  else ret aperture.

(** [KronFlux::_apply]: the direct measurement. *)
Definition _apply (ctrl : KronFluxControl) (source : SourceRecord.t) (exposure : Exposure)
    (center : Point2D) : SourceRecord.t * result unit :=
  (set (SourceRecord.set_flag true) ;;       (* bad unless we get all the way to success *)
   set (SourceRecord.set_badRadius false) ;;
   set (SourceRecord.set_smallRadius false) ;;
   set (SourceRecord.set_badShape false) ;;
   set (SourceRecord.set_usedMinimumRadius false) ;;
   set (SourceRecord.set_usedPsfRadius false) ;;
   let R_K_psf :=
     match getPsf exposure with
     | Some psf => calculatePsfKronRadius psf center (smoothingSigma ctrl)
     | None => -1
     end in
   shape <- selectShape exposure ;;
   let bad := snd shape in
   source0 <- getSource ;;
   let axes := widenByFootprint ctrl source0 (fst shape) in
   found <- obtainAperture ctrl exposure center axes R_K_psf bad ;;
   let aperture := fst (fst found) in
   let radiusForRadius := snd (fst found) in
   let bad := snd found in
   aperture <- enforceMinimum ctrl exposure R_K_psf aperture ;;
   (fun source =>
      match _applyAperture ctrl source exposure aperture with
      | ((source, _), r) => (source, r)
      end) ;;
   set (SourceRecord.set_radiusForRadius radiusForRadius) ;;
   set (SourceRecord.set_psfRadius (Some R_K_psf)) ;;
   set (SourceRecord.set_flag bad)) source.

End Collaborators.

(** The two floor flags agree with the sign of the configured minimum. *)
Definition floorFlagsConsistent (ctrl : KronFluxControl) (s : SourceRecord.t) : Prop :=
  (SourceRecord.usedMinimumRadius s = true -> minimumRadius ctrl > 0) /\
  (SourceRecord.usedPsfRadius s = true -> minimumRadius ctrl <= 0).

(** The solver threw an exception for which [_apply] raises [bad]. *)
Definition solverFailedBadly (r : result KronAperture * option R) : Prop :=
  exists e, fst r = Throw e /\ kind e <> OutOfRangeError /\ kind e <> BadKronException.

(** The two flags of the fallback, once set, stay set. *)
Definition fallbackFlagged (s : SourceRecord.t) : Prop :=
  SourceRecord.usedPsfRadius s = true /\ SourceRecord.badRadius s = true.

(** From [s] to [s'] a failure flag that was set is still set and none of
    the values of the measurement has been written. *)
Definition failureKept (s s' : SourceRecord.t) : Prop :=
  (SourceRecord.flag s = true -> SourceRecord.flag s' = true) /\
  SourceRecord.meas s' = SourceRecord.meas s /\
  SourceRecord.err s' = SourceRecord.err s /\
  SourceRecord.radius s' = SourceRecord.radius s /\
  SourceRecord.radiusForRadius s' = SourceRecord.radiusForRadius s /\
  SourceRecord.psfRadius s' = SourceRecord.psfRadius s.

(** ** Forced photometry and the PSF factor

    The rest of the source file: the aperture built from a reference
    measurement ([KronAperture(reference, refToMeas, radius)],
    [_getKronAxes], [transform]), [KronFlux::_applyForced] and
    [getPsfFactor]. *)

(** Modelled from the spec: [afw::geom::LinearTransform] and
    [afw::geom::AffineTransform], a two by two matrix and a matrix with a
    translation, and the image of a point under the latter. *)
Record LinearTransform : Type := mkLinearTransform { mXX : R; mXY : R; mYX : R; mYY : R }.

Record AffineTransform : Type := mkAffineTransform {
  getLinear : LinearTransform;
  getTranslationX : R;
  getTranslationY : R
}.

Definition applyAffine (t : AffineTransform) (p : Point2D) : Point2D :=
  mkPoint2D (mXX (getLinear t) * getX p + mXY (getLinear t) * getY p + getTranslationX t)
            (mYX (getLinear t) * getX p + mYY (getLinear t) * getY p + getTranslationY t).

Definition identityLinear : LinearTransform := mkLinearTransform 1 0 0 1.
Definition identityAffine : AffineTransform := mkAffineTransform identityLinear 0 0.

(** [reference.getCentroid()]: the point [(getX(), getY())]. *)
Definition getCentroid (s : SourceRecord.t) : Point2D :=
  mkPoint2D (SourceRecord.getX s) (SourceRecord.getY s).

Section Forced.

(** [afw::geom::ellipses::Axes::transform(LinearTransform)]: the image of
    an ellipse core under a linear map. *)
Variable Axes_transform : Axes -> LinearTransform -> Axes.

Variable Footprint_ofEllipse : Ellipse -> Box2I -> Footprint.
Variable calculateSincApertureFlux : MaskedImage -> Ellipse -> result (R * R).

(** [psf->computeImage(center)]: the image of the PSF, or the exception
    raised. *)
Variable computeImage : Psf -> Point2D -> result MaskedImage.

(** [KronAperture::_getKronAxes]: determine Kron axes from a reference image. *)
Definition _getKronAxes (shape : Axes) (transformation : LinearTransform) (radius : R) : Axes :=
  let axes := shape in
  let axes := scale axes (radius / getDeterminantRadius axes) in
  Axes_transform axes transformation.

(** [KronAperture(reference, refToMeas, radius)]. *)
Definition KronAperture_ofReference (reference : SourceRecord.t) (refToMeas : AffineTransform)
    (radius : R) : KronAperture :=
  {| _center := applyAffine refToMeas (getCentroid reference);
     _axes := _getKronAxes (SourceRecord.getShape reference) (getLinear refToMeas) radius |}.

(** [KronAperture::transform]: transform a Kron aperture to a different frame. *)
Definition transform (self : KronAperture) (trans : AffineTransform) : KronAperture :=
  let center := applyAffine trans (getApertureCenter self) in
  let axes := Axes_transform (getAxes self) (getLinear trans) in
  mkKronAperture center axes.

(** [KronFlux::_applyForced].  [radius] is the number held by the radius
    field of the reference record, which the method reads first; a field
    holding NaN is outside the model. *)
Definition _applyForced (ctrl : KronFluxControl) (source : SourceRecord.t)
    (exposure : Exposure) (center : Point2D) (reference : SourceRecord.t)
    (refToMeas : AffineTransform) (radius : R) : SourceRecord.t * result unit :=
  let source := SourceRecord.set_flag true source in   (* bad unless we get to the end *)
  let aperture := KronAperture_ofReference reference refToMeas radius in
  match _applyAperture Footprint_ofEllipse calculateSincApertureFlux ctrl source exposure
                       aperture with
  | ((source, _), Throw e) => (source, Throw e)
  | ((source, _), Ok _) =>
    let source :=
      match getPsf exposure with
      | Some psf =>
        SourceRecord.set_psfRadius
          (Some (calculatePsfKronRadius psf center (smoothingSigma ctrl))) source
      | None => source
      end in
    (SourceRecord.set_flag false source, Ok tt)
  end.

(** The postage stamp of [getPsfFactor]: the image of the PSF with a
    margin of [pad] pixels of zero intensity on every side, its origin at
    [(0, 0)]. *)
Definition paddedStamp (pad : Z) (psfImageNoPad : MaskedImage) : MaskedImage :=
  let w := getImageWidth psfImageNoPad in
  let h := getImageHeight psfImageNoPad in
  mkMaskedImage
    (mkBox2I 0 0 (w + 2 * pad) (h + 2 * pad))
    (fun x y =>
       if (pad <=? x)%Z && (x <? pad + w)%Z && (pad <=? y)%Z && (y <? pad + h)%Z
       then imageAt psfImageNoPad (getX0 psfImageNoPad + (x - pad))
                                  (getY0 psfImageNoPad + (y - pad))
       else 0)
    (fun _ _ => 0).

(** The aperture of [getPsfFactor]: a circle of radius [R_K] about the
    pixel [(int(0.5*(width - 1)), int(0.5*(height - 1)))] of the stamp. *)
Definition stampAperture (psfImage : MaskedImage) (R_K : R) : Ellipse :=
  let psfXCen := truncZ (0.5 * IZR (getImageWidth psfImage - 1)) in
  let psfYCen := truncZ (0.5 * IZR (getImageHeight psfImage - 1)) in
  mkEllipse (mkAxes R_K R_K 0) (mkPoint2D (IZR psfXCen) (IZR psfYCen)).

(** [getPsfFactor]: apply the algorithm to the PSF model.  Of the
    statements of the [try] block only [computeImage] is taken to throw:
    the allocation of the padded image and the copy into its middle are
    not. *)
Definition getPsfFactor (psf : option Psf) (center : Point2D) (R_K maxSincRadius : R)
    : result R :=
  match psf with
  | None => Ok 1
  | Some psf =>
    let pad := 5%Z in
    match computeImage psf center with
    | Throw e =>               (* caught as a [pex::exceptions::Exception &] *)
      Throw (sliced (LSST_EXCEPT_ADD e "Computing PSF at (%.3f, %.3f)"))
    | Ok psfImageNoPad =>
      let psfImage := paddedStamp pad psfImageNoPad in
      let aperture := stampAperture psfImage R_K in
      match photometer Footprint_ofEllipse calculateSincApertureFlux psfImage aperture
                       maxSincRadius with
      | Ok r => Ok (fst r)
      | Throw e => Throw e
      end
    end
  end.

End Forced.

(** ** Concrete inputs

    A strip of five pixels in one row, the footprint of an ellipse taken
    along that row, and the records of a source at the middle pixel; they
    are the inputs of the runs at the end of the file. *)

(** The pixels of the row of the centre that lie within the semi-major
    axis of the ellipse. *)
Definition rowFootprint (e : Ellipse) (region : Box2I) : Footprint :=
  let cx := Int_part (getX (getCenter e)) in
  let cy := Int_part (getY (getCenter e)) in
  let k := Int_part (getA (getCore e)) in
  mkFootprint (mkBox2I (cx - k) cy (2 * k + 1) 1)
              (map (fun d => ((cx - k + Z.of_nat d)%Z, cy)) (seq 0 (Z.to_nat (2 * k + 1)))).

(** A convolution that is never asked for, and one that fails at the edge. *)
Definition plainConvolve (m : MaskedImage) (k : SeparableKernel) (doNormalize doCopyEdge : bool)
    : result MaskedImage := Ok m.
Definition edgeConvolve (m : MaskedImage) (k : SeparableKernel) (doNormalize doCopyEdge : bool)
    : result MaskedImage :=
  Throw (LSST_EXCEPT OutOfRangeError "Convolution region off the image").

(** A sinc photometry that finds every aperture off the image. *)
Definition edgeSinc (m : MaskedImage) (aperture : Ellipse) : result (R * R) :=
  Throw (LSST_EXCEPT LengthError "Aperture does not fit the image").

(** The strip, with intensities given along the row and unit variance. *)
Definition strip (intensity : Z -> R) : MaskedImage :=
  mkMaskedImage (mkBox2I 0 0 5 1) (fun x _ => intensity x) (fun _ _ => 1).

(** Two bright pixels at the ends of the strip; and no light at all. *)
Definition twoPeaks (x : Z) : R := if (x =? 0)%Z || (x =? 4)%Z then 1 else 0.
Definition dark (x : Z) : R := 0.

Definition unitAxes : Axes := mkAxes 1 1 0.
Definition middle : Point2D := mkPoint2D 2 0.
Definition unitPsf : Psf := mkPsf (fun _ => unitAxes) unitAxes.
(** A PSF whose shape at a point has no extent. *)
Definition flatPsf : Psf := mkPsf (fun _ => mkAxes 0 0 0) unitAxes.

(** A source at the middle of the strip with a unit shape. *)
Definition sourceAtMiddle (shapeFlag : bool) : SourceRecord.t :=
  SourceRecord.mk 1 2 0 unitAxes shapeFlag unitAxes
                  false None None None None false false false false false None false.

(** Growth factor two, two passes, flux in the aperture itself, no sinc
    photometry, no minimum radius, no smoothing. *)
Definition plainCtrl : KronFluxControl :=
  mkKronFluxControl false 2 2 1 0 0 false false 0.
(** The same with the flux measured in a quarter of the aperture. *)
Definition quarterCtrl : KronFluxControl :=
  mkKronFluxControl false 2 2 (1 / 4) 0 0 false false 0.
(** The same with the flux measured in two and a half times the aperture. *)
Definition wideCtrl : KronFluxControl :=
  mkKronFluxControl false 2 2 (5 / 2) 0 0 false false 0.
(** The aperture read from the source, and a minimum radius enforced
    though none is configured. *)
Definition noFloorCtrl : KronFluxControl :=
  mkKronFluxControl true 2 2 1 0 0 true false 0.
(** The same as [plainCtrl] with a smoothing of one pixel. *)
Definition smoothCtrl : KronFluxControl :=
  mkKronFluxControl false 2 2 1 0 0 false false 1.
(** The same as [plainCtrl] with a minimum radius of three, enforced. *)
Definition floorCtrl : KronFluxControl :=
  mkKronFluxControl false 2 2 1 0 3 true false 0.
(** The same as [plainCtrl] with sinc photometry up to a radius of ten. *)
Definition sincCtrl : KronFluxControl :=
  mkKronFluxControl false 2 2 1 10 0 false false 0.
(** The same as [plainCtrl] with no pass of the solver. *)
Definition idleCtrl : KronFluxControl :=
  mkKronFluxControl false 2 0 1 0 0 false false 0.
(** The same as [plainCtrl] with the shape widened by the footprint. *)
Definition footprintCtrl : KronFluxControl :=
  mkKronFluxControl false 2 2 1 0 0 false true 0.

(** An [Axes::transform] for measurements in the frame of the reference:
    the ellipse as it is. *)
Definition keepAxes (axes : Axes) (t : LinearTransform) : Axes := axes.

(** * Properties *)

(** ** Comparisons, square roots and rescaling *)

Lemma Rltb_true (x y : R) : Rltb x y = true <-> x < y.
Proof. unfold Rltb; destruct (Rlt_dec x y); split; (easy || lra). Qed.

Lemma Rltb_false (x y : R) : Rltb x y = false <-> y <= x.
Proof. unfold Rltb; destruct (Rlt_dec x y); split; (easy || lra). Qed.

Lemma Rleb_true (x y : R) : Rleb x y = true <-> x <= y.
Proof. unfold Rleb; destruct (Rle_dec x y); split; (easy || lra). Qed.

Lemma Rleb_false (x y : R) : Rleb x y = false <-> y < x.
Proof. unfold Rleb; destruct (Rle_dec x y); split; (easy || lra). Qed.

Lemma Rgtb_true (x y : R) : Rgtb x y = true <-> x > y.
Proof. unfold Rgtb; rewrite Rltb_true; lra. Qed.

Lemma Rgtb_false (x y : R) : Rgtb x y = false <-> x <= y.
Proof. unfold Rgtb; rewrite Rltb_false; lra. Qed.

Lemma Rneqb_true (x y : R) : Rneqb x y = true <-> x <> y.
Proof. unfold Rneqb; destruct (Req_dec_T x y); split; (easy || lra). Qed.

Lemma Rneqb_false (x y : R) : Rneqb x y = false <-> x = y.
Proof. unfold Rneqb; destruct (Req_dec_T x y); split; (easy || lra). Qed.

Lemma ExcKind_eqb_eq (k1 k2 : ExcKind) : ExcKind_eqb k1 k2 = true <-> k1 = k2.
Proof. destruct k1, k2; simpl; split; (easy || discriminate). Qed.


Lemma hypot_0_r (x : R) : 0 <= x -> hypot x 0 = x.
Proof.
  intros Hx; unfold hypot.
  replace (x * x + 0 * 0) with (x * x) by ring.
  now apply sqrt_square.
Qed.

Lemma getDeterminantRadius_nonneg (ax : Axes) : 0 <= getDeterminantRadius ax.
Proof. apply sqrt_pos. Qed.

(** A uniform rescaling multiplies the determinant radius by the factor. *)
Lemma getDeterminantRadius_scale (ax : Axes) (s : R) :
  0 <= s -> getDeterminantRadius (scale ax s) = getDeterminantRadius ax * s.
Proof.
  intros Hs; unfold getDeterminantRadius, scale; simpl.
  replace (getA ax * s * (getB ax * s)) with (getA ax * getB ax * (s * s)) by ring.
  destruct (Rle_dec 0 (getA ax * getB ax)) as [Hab | Hab].
  - rewrite sqrt_mult_alt by assumption. now rewrite sqrt_square.
  - assert (Hneg : getA ax * getB ax < 0) by lra.
    rewrite (sqrt_neg_0 (getA ax * getB ax)) by lra.
    rewrite sqrt_neg_0; [ring |].
    assert (0 <= s * s) by nra. nra.
Qed.

(** Rescaling by [r / radius] sets the determinant radius to [r]. *)
Lemma getDeterminantRadius_rescale (ax : Axes) (r : R) :
  0 < getDeterminantRadius ax -> 0 <= r ->
  getDeterminantRadius (scale ax (r / getDeterminantRadius ax)) = r.
Proof.
  intros Hd Hr. rewrite getDeterminantRadius_scale.
  - field. lra.
  - apply Rmult_le_pos; [assumption |]. left. now apply Rinv_0_lt_compat.
Qed.

(** ** The moment functor *)

Lemma pixelSum_cons (f : Z -> Z -> R) (p : Z * Z) (ps : list (Z * Z)) :
  pixelSum f (p :: ps) = f (fst p) (snd p) + pixelSum f ps.
Proof. reflexivity. Qed.

(** The radius the functor gives a pixel is the radius of the specification. *)
Lemma radiusAt_spec (mimage : MaskedImage) (center : Point2D) (ab theta : R) (x y : Z) :
  FootprintFindMoment.radiusAt (FootprintFindMoment.make mimage center ab theta) x y
  = spec_ellipticalRadius (getX center) (getY center) ab theta x y.
Proof.
  unfold FootprintFindMoment.radiusAt, spec_ellipticalRadius, FootprintFindMoment.make, ROOT2.
  cbn [FootprintFindMoment._xcen FootprintFindMoment._ycen FootprintFindMoment._ab
       FootprintFindMoment._cosTheta FootprintFindMoment._sinTheta].
  unfold Rltb.
  destruct (Rlt_dec _ 0.5) as [H | H]; destruct (Rlt_dec _ (1 / 2)) as [H' | H'];
    try reflexivity; try lra.
  f_equal. f_equal. lra.
Qed.

(** Visiting a list of pixels adds their intensities, and their
    intensities weighted by radius, to the running sums. *)
Lemma FootprintFindMoment_visit (mimage : MaskedImage) (ps : list (Z * Z))
    (f : FootprintFindMoment.t) :
  fold_left (fun f p => FootprintFindMoment.call mimage f (fst p) (snd p)) ps f
  = FootprintFindMoment.setSums f
      (FootprintFindMoment._sum f + pixelSum (imageAt mimage) ps)
      (FootprintFindMoment._sumR f
       + pixelSum (fun x y => FootprintFindMoment.radiusAt f x y * imageAt mimage x y) ps).
Proof.
  revert f; induction ps as [| p ps IH]; intros f.
  - simpl. unfold pixelSum; simpl. destruct f; unfold FootprintFindMoment.setSums; simpl.
    f_equal; ring.
  - simpl fold_left. rewrite IH. rewrite !pixelSum_cons.
    unfold FootprintFindMoment.call.
    unfold FootprintFindMoment.setSums at 1 2 3; simpl.
    unfold FootprintFindMoment.setSums; simpl. f_equal; try ring.
    assert (E : forall x y,
      FootprintFindMoment.radiusAt
        {| FootprintFindMoment._xcen := FootprintFindMoment._xcen f;
           FootprintFindMoment._ycen := FootprintFindMoment._ycen f;
           FootprintFindMoment._ab := FootprintFindMoment._ab f;
           FootprintFindMoment._cosTheta := FootprintFindMoment._cosTheta f;
           FootprintFindMoment._sinTheta := FootprintFindMoment._sinTheta f;
           FootprintFindMoment._sum := FootprintFindMoment._sum f + imageAt mimage (fst p) (snd p);
           FootprintFindMoment._sumR :=
             FootprintFindMoment._sumR f
             + FootprintFindMoment.radiusAt f (fst p) (snd p) * imageAt mimage (fst p) (snd p);
           FootprintFindMoment._imageX0 := FootprintFindMoment._imageX0 f;
           FootprintFindMoment._imageY0 := FootprintFindMoment._imageY0 f |} x y
      = FootprintFindMoment.radiusAt f x y) by reflexivity.
    unfold pixelSum. erewrite map_ext; [| intros a; rewrite E; reflexivity].
    ring.
Qed.

(** The functor either rejects the footprint or returns the two sums. *)
Lemma FootprintFindMoment_apply_cases (mimage : MaskedImage) (center : Point2D)
    (ab theta : R) (foot : Footprint) :
  let f0 := FootprintFindMoment.make mimage center ab theta in
  let r := spec_ellipticalRadius (getX center) (getY center) ab theta in
  (FootprintFindMoment.fits mimage f0 foot = false /\
   exists e, FootprintFindMoment.apply mimage f0 foot = Throw e /\ kind e = OutOfRangeError)
  \/
  (FootprintFindMoment.fits mimage f0 foot = true /\
   FootprintFindMoment.apply mimage f0 foot
   = Ok (FootprintFindMoment.setSums f0
           (pixelSum (imageAt mimage) (getPixels foot))
           (pixelSum (fun x y => r x y * imageAt mimage x y) (getPixels foot)))).
Proof.
  intros f0 r.
  unfold FootprintFindMoment.apply, FootprintFindMoment.reset_foot, FootprintFindMoment.reset.
  assert (Hfit : FootprintFindMoment.fits mimage (FootprintFindMoment.setSums f0 0 0) foot
                 = FootprintFindMoment.fits mimage f0 foot) by reflexivity.
  rewrite Hfit.
  destruct (FootprintFindMoment.fits mimage f0 foot) eqn:F; simpl negb; cbv iota.
  - right. split; [reflexivity |].
    rewrite FootprintFindMoment_visit. f_equal.
    unfold FootprintFindMoment.setSums; simpl. f_equal; try ring.
    rewrite Rplus_0_l. unfold pixelSum. f_equal. apply map_ext. intros a.
    subst r f0. now rewrite <- radiusAt_spec with (mimage := mimage).
  - left. split; [reflexivity |]. eexists; split; reflexivity.
Qed.

(** A footprint that passes the check of [reset(foot)] passes the check of
    the base class: the moment functor has no [LengthError] to throw. *)
Lemma FootprintFindMoment_fits_check (mimage : MaskedImage) (center : Point2D)
    (ab theta : R) (foot : Footprint) :
  FootprintFindMoment.fits mimage (FootprintFindMoment.make mimage center ab theta) foot = true ->
  checkFootprint mimage foot = Ok tt.
Proof.
  unfold FootprintFindMoment.fits, FootprintFindMoment.make, checkFootprint, contains,
    getX0, getY0, getImageWidth, getImageHeight, getMaxX, getMaxY.
  cbn [FootprintFindMoment._imageX0 FootprintFindMoment._imageY0].
  rewrite negb_true_iff, !orb_false_iff, !Z.geb_leb, !Z.ltb_ge, !Z.leb_gt.
  intros (((H1 & H2) & H3) & H4).
  replace (_ || _) with true; [reflexivity |].
  symmetry. apply orb_true_iff. right. rewrite !andb_true_iff, !Z.leb_le. lia.
Qed.

(** C6.  When [FootprintFindMoment] has been applied to a footprint, every
    pixel [(x, y)] was given the elliptical radius of the specification
    (the offset rotated by [theta], [r = hypot u (v * ab)], replaced within
    half a pixel of the centre by
    [hypot r (e * (1 + hypot dx dy / sqrt 2))]); the functor holds the sum
    of the intensities and the sum of the intensities weighted by that
    radius; [getIr] is their quotient; and [getGood] holds exactly when
    both sums are positive. *)
Theorem FootprintFindMoment_first_moment (mimage : MaskedImage) (center : Point2D)
    (ab theta : R) (foot : Footprint) (f : FootprintFindMoment.t) :
  FootprintFindMoment.apply mimage (FootprintFindMoment.make mimage center ab theta) foot = Ok f ->
  let r := spec_ellipticalRadius (getX center) (getY center) ab theta in
  let sumI := pixelSum (imageAt mimage) (getPixels foot) in
  let sumRI := pixelSum (fun x y => r x y * imageAt mimage x y) (getPixels foot) in
  (forall x y,
     FootprintFindMoment.radiusAt (FootprintFindMoment.make mimage center ab theta) x y = r x y) /\
  FootprintFindMoment._sum f = sumI /\
  FootprintFindMoment._sumR f = sumRI /\
  FootprintFindMoment.getIr f = sumRI / sumI /\
  (FootprintFindMoment.getGood f = true <-> sumI > 0 /\ sumRI > 0).
Proof.
  intros Happ r sumI sumRI.
  destruct (FootprintFindMoment_apply_cases mimage center ab theta foot)
    as [[_ [e [He _]]] | [_ Hok]].
  - rewrite He in Happ. discriminate.
  - rewrite Hok in Happ. injection Happ as <-.
    split; [intros x y; apply radiusAt_spec |].
    split; [reflexivity |]. split; [reflexivity |]. split; [reflexivity |].
    unfold FootprintFindMoment.getGood. rewrite andb_true_iff, !Rgtb_true. reflexivity.
Qed.

(** A three by three image of unit intensity, measured over its central
    pixel about the centre of that pixel. *)
Lemma FootprintFindMoment_first_moment_witness :
  let mimage := mkMaskedImage (mkBox2I 0 0 3 3) (fun _ _ => 1) (fun _ _ => 1) in
  let center := mkPoint2D 1 1 in
  let foot := mkFootprint (mkBox2I 1 1 1 1) [(1, 1)%Z] in
  exists f,
    FootprintFindMoment.apply mimage (FootprintFindMoment.make mimage center 1 0) foot = Ok f /\
    FootprintFindMoment._sum f = pixelSum (imageAt mimage) (getPixels foot) /\
    (FootprintFindMoment.getGood f = true <->
     pixelSum (imageAt mimage) (getPixels foot) > 0 /\
     pixelSum (fun x y => spec_ellipticalRadius 1 1 1 0 x y * imageAt mimage x y)
              (getPixels foot) > 0).
Proof.
  intros mimage center foot.
  eexists. split; [reflexivity |].
  pose proof (FootprintFindMoment_first_moment mimage center 1 0 foot _ eq_refl) as H.
  cbv zeta in H. destruct H as (_ & Hs & _ & _ & Hg).
  split; [exact Hs | exact Hg].
Defined.

(** ** The flux functor and [photometer] *)

Lemma FootprintFlux_visit (mimage : MaskedImage) (ps : list (Z * Z)) (f : FootprintFlux.t) :
  fold_left (fun f p => FootprintFlux.call mimage f (fst p) (snd p)) ps f
  = FootprintFlux.mk (FootprintFlux._sum f + pixelSum (imageAt mimage) ps)
                     (FootprintFlux._sumVar f + pixelSum (varianceAt mimage) ps).
Proof.
  revert f; induction ps as [| p ps IH]; intros f.
  - unfold pixelSum; simpl. destruct f; simpl. f_equal; ring.
  - simpl fold_left. rewrite IH. rewrite !pixelSum_cons.
    unfold FootprintFlux.call; simpl. f_equal; ring.
Qed.

Lemma FootprintFlux_traverse_sums (mimage : MaskedImage) (f : FootprintFlux.t)
    (foot : Footprint) :
  FootprintFlux.traverse mimage f foot
  = FootprintFlux.mk (pixelSum (imageAt mimage) (getPixels foot))
                     (pixelSum (varianceAt mimage) (getPixels foot)).
Proof.
  unfold FootprintFlux.traverse. rewrite FootprintFlux_visit.
  unfold FootprintFlux.reset_foot, FootprintFlux.reset; simpl. f_equal; ring.
Qed.

(** [apply] returns the sums over the footprint when the bounding box of
    the footprint lies within the image, and throws the [LengthError] of
    the check when it does not. *)
Lemma FootprintFlux_apply_cases (mimage : MaskedImage) (f : FootprintFlux.t)
    (foot : Footprint) :
  (contains (imageBBox mimage) (getBBox foot) = true /\
   FootprintFlux.apply mimage f foot
   = Ok (FootprintFlux.mk (pixelSum (imageAt mimage) (getPixels foot))
                          (pixelSum (varianceAt mimage) (getPixels foot))))
  \/
  (contains (imageBBox mimage) (getBBox foot) = false /\
   FootprintFlux.apply mimage f foot
   = Throw (LSST_EXCEPT LengthError "Footprint doesn't fit in image")).
Proof.
  unfold FootprintFlux.apply, checkFootprint.
  destruct (contains (imageBBox mimage) (getBBox foot)).
  - left. split; [reflexivity |]. now rewrite FootprintFlux_traverse_sums.
  - right. split; reflexivity.
Qed.

Section Properties.

Variable Footprint_ofEllipse : Ellipse -> Box2I -> Footprint.
Variable convolve : MaskedImage -> SeparableKernel -> bool -> bool -> result MaskedImage.
Variable calculateSincApertureFlux : MaskedImage -> Ellipse -> result (R * R).

Local Abbreviation photometer_ := (photometer Footprint_ofEllipse calculateSincApertureFlux).
Local Abbreviation measure_ := (measure Footprint_ofEllipse calculateSincApertureFlux).
Local Abbreviation determine_ := (determine Footprint_ofEllipse convolve).
Local Abbreviation determine_body_ := (determine_body Footprint_ofEllipse convolve).
Local Abbreviation determine_loop_ := (determine_loop Footprint_ofEllipse convolve).
Local Abbreviation _applyAperture_ :=
  (_applyAperture Footprint_ofEllipse calculateSincApertureFlux).
Local Abbreviation obtainAperture_ := (obtainAperture Footprint_ofEllipse convolve).
Local Abbreviation _apply_ := (_apply Footprint_ofEllipse convolve calculateSincApertureFlux).

(** The summation path of [photometer] on a footprint within the image. *)
Lemma photometer_sum_path (mimage : MaskedImage) (aperture : Ellipse) (maxSincRadius : R) :
  let foot := Footprint_ofEllipse aperture (imageBBox mimage) in
  getB (getCore aperture) > maxSincRadius ->
  contains (imageBBox mimage) (getBBox foot) = true ->
  photometer_ mimage aperture maxSincRadius
  = Ok (pixelSum (imageAt mimage) (getPixels foot),
        sqrt (pixelSum (varianceAt mimage) (getPixels foot))).
Proof.
  intros foot HB Hin. unfold photometer. rewrite (proj2 (Rgtb_true _ _) HB).
  destruct (FootprintFlux_apply_cases mimage FootprintFlux.make foot)
    as [[_ Happ] | [Hout _]]; [| fold foot in Hin; congruence].
  fold foot. rewrite Happ. reflexivity.
Qed.

(** C5, amended.  [photometer] on an aperture whose semi-minor axis is
    strictly greater than [maxSincRadius] takes the footprint of the
    ellipse: when the bounding box of the footprint lies within the image
    it returns the sum of the pixel intensities over the footprint and the
    square root of the sum of the pixel variances over it; when it does
    not, the traversal of the footprint throws a [LengthError], which
    [photometer] lets through as it is, with no context added.  On any
    other aperture it returns what the sinc integration returns, and throws
    what that throws, a [LengthError] with the context of the measurement
    added to its messages. *)
Theorem photometer_dispatch (mimage : MaskedImage) (aperture : Ellipse) (maxSincRadius : R) :
  let foot := Footprint_ofEllipse aperture (imageBBox mimage) in
  let pixels := getPixels foot in
  (getB (getCore aperture) > maxSincRadius /\
   contains (imageBBox mimage) (getBBox foot) = true /\
   photometer_ mimage aperture maxSincRadius
   = Ok (pixelSum (imageAt mimage) pixels, sqrt (pixelSum (varianceAt mimage) pixels)))
  \/
  (getB (getCore aperture) > maxSincRadius /\
   contains (imageBBox mimage) (getBBox foot) = false /\
   exists e,
     checkFootprint mimage foot = Throw e /\ kind e = LengthError /\
     photometer_ mimage aperture maxSincRadius = Throw e)
  \/
  (getB (getCore aperture) <= maxSincRadius /\
   match calculateSincApertureFlux mimage aperture with
   | Ok r => photometer_ mimage aperture maxSincRadius = Ok r
   | Throw e =>
     exists e',
       photometer_ mimage aperture maxSincRadius = Throw e' /\
       kind e' = kind e /\
       (kind e = LengthError ->
        what e' = what e ++
          ["Measuring Kron flux for object at (%.3f, %.3f); aperture radius %g,%g theta %g"%string]) /\
       (kind e <> LengthError -> e' = e)
   end).
Proof.
  intros foot pixels. unfold photometer.
  destruct (Rgtb (getB (getCore aperture)) maxSincRadius) eqn:HB.
  - apply Rgtb_true in HB. fold foot.
    unfold FootprintFlux.apply, checkFootprint.
    destruct (contains (imageBBox mimage) (getBBox foot)) eqn:Hin.
    + left. split; [assumption |]. split; [reflexivity |].
      rewrite FootprintFlux_traverse_sums. reflexivity.
    + right; left. split; [assumption |]. split; [reflexivity |].
      eexists. split; [reflexivity |]. split; reflexivity.
  - right; right. apply Rgtb_false in HB. split; [assumption |].
    destruct (calculateSincApertureFlux mimage aperture) as [r | e]; [reflexivity |].
    destruct (ExcKind_eqb (kind e) LengthError) eqn:K.
    + eexists; split; [reflexivity |]. split; [reflexivity |].
      split; [reflexivity |]. apply ExcKind_eqb_eq in K. congruence.
    + exists e. split; [reflexivity |]. split; [reflexivity |].
      split; [| reflexivity]. intros K'. apply ExcKind_eqb_eq in K'. congruence.
Qed.

(** ** Measuring within an aperture *)

(** C9.  Measuring does not change the aperture: [measure] scales a copy of
    the axes by [nRadiusForFlux] and photometers the scaled ellipse about
    the aperture's centre, and returns the aperture as it received it; so
    does [_applyAperture].  When [_applyAperture] succeeds, the flux and
    its error are those of the scaled ellipse, while the radius written to
    the record is the determinant radius of the unscaled aperture, which
    differs from that of the scaled ellipse whenever the multiplier is not
    one. *)
Theorem measure_leaves_aperture (ctrl : KronFluxControl) (source : SourceRecord.t)
    (exposure : Exposure) (aperture : KronAperture) :
  let mimage := getMaskedImage exposure in
  let scaled := mkEllipse (scale (getAxes aperture) (nRadiusForFlux ctrl))
                          (getApertureCenter aperture) in
  let out := _applyAperture_ ctrl source exposure aperture in
  measure_ aperture mimage (nRadiusForFlux ctrl) (maxSincRadius ctrl)
  = (aperture, photometer_ mimage scaled (maxSincRadius ctrl)) /\
  snd (fst out) = aperture /\
  (snd out = Ok tt ->
   exists flux fluxErr,
     photometer_ mimage scaled (maxSincRadius ctrl) = Ok (flux, fluxErr) /\
     fst (fst out)
     = SourceRecord.set_radius (Some (getDeterminantRadius (getAxes aperture)))
         (SourceRecord.set_err (Some fluxErr) (SourceRecord.set_meas (Some flux) source))) /\
  (0 < getDeterminantRadius (getAxes aperture) ->
   0 <= nRadiusForFlux ctrl -> nRadiusForFlux ctrl <> 1 ->
   getDeterminantRadius (getCore scaled) <> getDeterminantRadius (getAxes aperture)).
Proof.
  intros mimage scaled out.
  split; [reflexivity |].
  subst out. unfold _applyAperture.
  destruct (Rltb (getDeterminantRadius (getAxes aperture)) epsilon) eqn:Heps.
  - split; [reflexivity |]. split; [discriminate |].
    intros Hpos Hn Hne. simpl. rewrite getDeterminantRadius_scale by assumption. nra.
  - unfold measure. fold mimage. fold scaled.
    destruct (photometer_ mimage scaled (maxSincRadius ctrl)) as [[flux fluxErr] | e].
    + split; [reflexivity |]. split.
      * intros _. exists flux, fluxErr. split; reflexivity.
      * intros Hpos Hn Hne. simpl. rewrite getDeterminantRadius_scale by assumption. nra.
    + destruct (ExcKind_eqb (kind e) LengthError);
        (split; [reflexivity |]; split; [discriminate |]);
        intros Hpos Hn Hne; simpl; rewrite getDeterminantRadius_scale by assumption; nra.
Qed.

(** ** The fallback radius *)

(** C2.  [_fallbackRadius] always sets the bad-radius flag.  With a positive
    configured minimum radius it sets the minimum-radius-used flag and
    returns the aperture of the source (its centre and its shape) rescaled
    to that minimum, whatever the PSF radius; otherwise, with a positive PSF
    Kron radius, it sets the PSF-radius-used flag and returns the aperture
    of the source rescaled to the PSF Kron radius; otherwise it returns no
    aperture and throws: the messages are those of the exception it was
    given with one more, but the exception thrown is of the base class, a
    copy made by [throw exc;] at the static type of the reference, and the
    class of the exception it was given is lost.  Nothing else in the
    record changes, and the rescaled aperture has the chosen radius as its
    determinant radius when the shape of the source has a positive one. *)
Theorem fallbackRadius_policy (ctrl : KronFluxControl) (R_K_psf : R) (exc : Exception)
    (source : SourceRecord.t) :
  let out := _fallbackRadius ctrl R_K_psf exc source in
  let flagged := SourceRecord.set_badRadius true source in
  let rescaled newRadius :=
    scaleAxes (KronAperture_ofSource source)
              (newRadius / getDeterminantRadius (SourceRecord.getShape source)) in
  SourceRecord.badRadius (fst out) = true /\
  ((minimumRadius ctrl > 0 /\
    out = (SourceRecord.set_usedMinimumRadius true flagged, Ok (rescaled (minimumRadius ctrl))))
   \/
   (minimumRadius ctrl <= 0 /\ R_K_psf > 0 /\
    out = (SourceRecord.set_usedPsfRadius true flagged, Ok (rescaled R_K_psf)))
   \/
   (minimumRadius ctrl <= 0 /\ R_K_psf <= 0 /\
    out = (flagged,
           Throw {| kind := BaseException;
                    what := what exc ++
                      ["Bad Kron aperture, no minimum radius specified, and no PSF"%string] |}))) /\
  (forall newRadius,
     0 < getDeterminantRadius (SourceRecord.getShape source) -> 0 <= newRadius ->
     getApertureCenter (rescaled newRadius)
     = mkPoint2D (SourceRecord.getX source) (SourceRecord.getY source) /\
     getTheta (getAxes (rescaled newRadius)) = getTheta (SourceRecord.getShape source) /\
     getDeterminantRadius (getAxes (rescaled newRadius)) = newRadius).
Proof.
  intros out flagged rescaled.
  assert (Hcases :
    (minimumRadius ctrl > 0 /\
     out = (SourceRecord.set_usedMinimumRadius true flagged, Ok (rescaled (minimumRadius ctrl))))
    \/
    (minimumRadius ctrl <= 0 /\ R_K_psf > 0 /\
     out = (SourceRecord.set_usedPsfRadius true flagged, Ok (rescaled R_K_psf)))
    \/
    (minimumRadius ctrl <= 0 /\ R_K_psf <= 0 /\
     out = (flagged,
            Throw {| kind := BaseException;
                     what := what exc ++
                       ["Bad Kron aperture, no minimum radius specified, and no PSF"%string] |}))).
  { subst out flagged rescaled. unfold _fallbackRadius, bind, set, ret, throw, getSource.
    destruct (Rgtb (minimumRadius ctrl) 0) eqn:Hmin.
    - left. apply Rgtb_true in Hmin. split; [assumption | reflexivity].
    - apply Rgtb_false in Hmin. right.
      destruct (Rgtb R_K_psf 0) eqn:Hpsf.
      + left. apply Rgtb_true in Hpsf. repeat split; assumption.
      + right. apply Rgtb_false in Hpsf. repeat split; assumption. }
  split; [| split; [exact Hcases |]].
  - destruct Hcases as [[_ ->] | [(_ & _ & ->) | (_ & _ & ->)]]; reflexivity.
  - intros newRadius Hpos Hnew. subst rescaled. cbv beta.
    split; [reflexivity |]. split; [reflexivity |].
    unfold scaleAxes, getAxes, KronAperture_ofSource. cbn [_axes].
    now apply getDeterminantRadius_rescale.
Qed.

(** ** Record invariants along [_apply] *)

Lemma bind_set {B : Type} (f : SourceRecord.t -> SourceRecord.t) (k : unit -> Meas B)
    (s : SourceRecord.t) :
  bind (set f) k s = k tt (f s).
Proof. reflexivity. Qed.

(** A property of the record that every part of a sequence preserves is
    preserved by the sequence. *)
Lemma bind_preserves {A B : Type} (I : SourceRecord.t -> Prop) (m : Meas A) (k : A -> Meas B) :
  (forall s, I s -> I (fst (m s))) ->
  (forall a s, I s -> I (fst (k a s))) ->
  forall s, I s -> I (fst (bind m k s)).
Proof.
  intros Hm Hk s Hs. unfold bind.
  specialize (Hm s Hs). destruct (m s) as [s' [a | e]]; simpl in Hm.
  - now apply Hk.
  - exact Hm.
Qed.

Lemma fallbackRadius_floorFlags (ctrl : KronFluxControl) (R_K_psf : R) (exc : Exception)
    (s : SourceRecord.t) :
  floorFlagsConsistent ctrl s ->
  floorFlagsConsistent ctrl (fst (_fallbackRadius ctrl R_K_psf exc s)).
Proof.
  intros [H1 H2]. unfold _fallbackRadius, bind, set, ret, throw, getSource.
  destruct (Rgtb (minimumRadius ctrl) 0) eqn:Hmin.
  - apply Rgtb_true in Hmin. split; simpl; intros; [assumption | now apply H2].
  - apply Rgtb_false in Hmin.
    destruct (Rgtb R_K_psf 0); split; simpl; intros; auto.
Qed.

Lemma selectShape_floorFlags (ctrl : KronFluxControl) (exposure : Exposure)
    (s : SourceRecord.t) :
  floorFlagsConsistent ctrl s -> floorFlagsConsistent ctrl (fst (selectShape exposure s)).
Proof.
  intros H. unfold selectShape, bind, set, ret, throw, getSource.
  destruct (SourceRecord.getShapeFlag s); simpl; [| exact H].
  destruct (getPsf exposure); exact H.
Qed.

Lemma obtainAperture_floorFlags (ctrl : KronFluxControl) (exposure : Exposure)
    (center : Point2D) (axes : Axes) (R_K_psf : R) (bad : bool) (s : SourceRecord.t) :
  floorFlagsConsistent ctrl s ->
  floorFlagsConsistent ctrl (fst (obtainAperture_ ctrl exposure center axes R_K_psf bad s)).
Proof.
  intros H. unfold obtainAperture.
  destruct (fixed ctrl); [exact H |].
  destruct (determine_ _ _ _ _ _) as [[ap | e] rfr]; [exact H |].
  destruct (ExcKind_eqb (kind e) OutOfRangeError); [exact H |].
  destruct (ExcKind_eqb (kind e) BadKronException);
    (apply bind_preserves; [intros s0; apply fallbackRadius_floorFlags | intros a s0 Hs0; exact Hs0 | exact H]).
Qed.

Lemma enforceMinimum_floorFlags (ctrl : KronFluxControl) (exposure : Exposure)
    (R_K_psf : R) (aperture : KronAperture) (s : SourceRecord.t) :
  floorFlagsConsistent ctrl s ->
  floorFlagsConsistent ctrl (fst (enforceMinimum ctrl exposure R_K_psf aperture s)).
Proof.
  intros [H1 H2]. unfold enforceMinimum, bind, set, ret, throw.
  destruct (enforceMinimumRadius ctrl); [| split; assumption].
  destruct (Rgtb (minimumRadius ctrl) 0) eqn:Hmin.
  - apply Rgtb_true in Hmin.
    destruct (Rltb _ (minimumRadius ctrl)).
    + destruct (Rneqb _ _); split; simpl; intros; auto.
    + destruct (Rneqb _ _); split; simpl; intros; auto.
  - apply Rgtb_false in Hmin.
    destruct (getPsf exposure); [| split; assumption].
    destruct (Rltb _ R_K_psf).
    + destruct (Rneqb _ _); split; simpl; intros; auto.
    + destruct (Rneqb _ _); split; simpl; intros; auto.
Qed.

(** [_applyAperture] writes neither floor flag. *)
Lemma applyAperture_floorFlags (ctrl : KronFluxControl) (exposure : Exposure)
    (aperture : KronAperture) (s : SourceRecord.t) :
  floorFlagsConsistent ctrl s ->
  floorFlagsConsistent ctrl (fst (fst (_applyAperture_ ctrl s exposure aperture))).
Proof.
  intros H. unfold _applyAperture.
  destruct (Rltb _ epsilon); [exact H |].
  destruct (measure_ _ _ _ _) as [ap [r | e]]; [exact H |].
  destruct (ExcKind_eqb (kind e) LengthError); exact H.
Qed.

(** C3.  When a direct measurement finishes, by returning or by throwing,
    the minimum-radius-used flag and the PSF-radius-used flag are not both
    set: [_apply] clears both at entry, and afterwards the first is only set
    under a positive configured minimum and the second only without one. *)
Theorem apply_floor_flags_exclusive (ctrl : KronFluxControl) (source : SourceRecord.t)
    (exposure : Exposure) (center : Point2D) :
  let final := fst (_apply_ ctrl source exposure center) in
  ~ (SourceRecord.usedMinimumRadius final = true /\ SourceRecord.usedPsfRadius final = true).
Proof.
  intros final.
  assert (H : floorFlagsConsistent ctrl final).
  { subst final. unfold _apply. rewrite !bind_set.
    apply bind_preserves; [intros s; apply selectShape_floorFlags | | split; discriminate].
    intros shape s Hs.
    apply bind_preserves; [intros s0 Hs0; exact Hs0 | | exact Hs].
    intros source0 s0 Hs0.
    apply bind_preserves; [intros s1; apply obtainAperture_floorFlags | | exact Hs0].
    intros found s1 Hs1.
    apply bind_preserves; [intros s2; apply enforceMinimum_floorFlags | | exact Hs1].
    intros ap s2 Hs2.
    apply bind_preserves; [| | exact Hs2].
    - intros s3 Hs3.
      pose proof (applyAperture_floorFlags ctrl exposure ap s3 Hs3) as Hap.
      destruct (_applyAperture_ ctrl s3 exposure ap) as [[s4 ap'] r]. exact Hap.
    - intros _ s3 Hs3. rewrite !bind_set. unfold set. exact Hs3. }
  destruct H as [H1 H2]. intros [Hmin Hpsf].
  specialize (H1 Hmin). specialize (H2 Hpsf). lra.
Qed.

(** ** The stages of [_apply] *)

(** The record after the six flags are reset at the entry of [_apply]. *)
Local Abbreviation atEntry source :=
  (SourceRecord.set_usedPsfRadius false
     (SourceRecord.set_usedMinimumRadius false
        (SourceRecord.set_badShape false
           (SourceRecord.set_smallRadius false
              (SourceRecord.set_badRadius false (SourceRecord.set_flag true source)))))).

(** The Kron radius of the PSF as [_apply] computes it. *)
Local Abbreviation psfKronRadius ctrl exposure center :=
  (match getPsf exposure with
   | Some psf => calculatePsfKronRadius psf center (smoothingSigma ctrl)
   | None => -1
   end).

(** [_apply] as the sequence of its stages. *)
Lemma apply_stages (ctrl : KronFluxControl) (source : SourceRecord.t) (exposure : Exposure)
    (center : Point2D) :
  _apply_ ctrl source exposure center
  = match selectShape exposure (atEntry source) with
    | (s1, Throw e) => (s1, Throw e)
    | (s1, Ok shape) =>
      match obtainAperture_ ctrl exposure center (widenByFootprint ctrl s1 (fst shape))
                            (psfKronRadius ctrl exposure center) (snd shape) s1 with
      | (s2, Throw e) => (s2, Throw e)
      | (s2, Ok found) =>
        match enforceMinimum ctrl exposure (psfKronRadius ctrl exposure center)
                             (fst (fst found)) s2 with
        | (s3, Throw e) => (s3, Throw e)
        | (s3, Ok aperture) =>
          match _applyAperture_ ctrl s3 exposure aperture with
          | ((s4, _), Throw e) => (s4, Throw e)
          | ((s4, _), Ok _) =>
            (SourceRecord.set_flag (snd found)
               (SourceRecord.set_psfRadius (Some (psfKronRadius ctrl exposure center))
                  (SourceRecord.set_radiusForRadius (snd (fst found)) s4)), Ok tt)
          end
        end
      end
    end.
Proof.
  unfold _apply. rewrite !bind_set. unfold bind at 1.
  destruct (selectShape exposure _) as [s1 [shape | e]]; [| reflexivity].
  unfold bind at 1. unfold getSource at 1. unfold bind at 1.
  destruct (obtainAperture_ _ _ _ _ _ _ _) as [s2 [found | e]]; [| reflexivity].
  unfold bind at 1.
  destruct (enforceMinimum _ _ _ _ _) as [s3 [aperture | e]]; [| reflexivity].
  unfold bind at 1.
  destruct (_applyAperture_ _ _ _ _) as [[s4 ap'] [u | e]]; reflexivity.
Qed.

Lemma widenByFootprint_ext (ctrl : KronFluxControl) (s s' : SourceRecord.t) (axes : Axes) :
  SourceRecord.getFootprintShape s = SourceRecord.getFootprintShape s' ->
  widenByFootprint ctrl s axes = widenByFootprint ctrl s' axes.
Proof. intros H. unfold widenByFootprint. now rewrite H. Qed.

(** What [selectShape] returns at the entry of [_apply], when it returns. *)
Lemma selectShape_atEntry (source : SourceRecord.t) (exposure : Exposure)
    (s1 : SourceRecord.t) (shape : Axes * bool) :
  selectShape exposure (atEntry source) = (s1, Ok shape) ->
  snd shape = SourceRecord.getShapeFlag source /\
  fst shape = (if SourceRecord.getShapeFlag source then
                 match getPsf exposure with
                 | Some psf => computeShapeDefault psf
                 | None => SourceRecord.getShape source
                 end
               else SourceRecord.getShape source) /\
  s1 = (if SourceRecord.getShapeFlag source
        then SourceRecord.set_badShape true (atEntry source) else atEntry source).
Proof.
  unfold selectShape, bind, set, ret, throw, getSource. simpl.
  destruct (SourceRecord.getShapeFlag source); simpl.
  - destruct (getPsf exposure); [| discriminate].
    intros H; injection H as <- <-. repeat split.
  - intros H; injection H as <- <-. repeat split.
Qed.

(** The value of [bad] after the solver and its handlers. *)
Lemma obtainAperture_bad (ctrl : KronFluxControl) (exposure : Exposure) (center : Point2D)
    (axes : Axes) (R_K_psf : R) (bad : bool) (s s' : SourceRecord.t)
    (found : KronAperture * option R * bool) :
  obtainAperture_ ctrl exposure center axes R_K_psf bad s = (s', Ok found) ->
  (snd found = true <->
   bad = true \/
   (fixed ctrl = false /\
    solverFailedBadly (determine_ (getMaskedImage exposure) axes center ctrl None))).
Proof.
  unfold obtainAperture, solverFailedBadly.
  destruct (fixed ctrl).
  - unfold bind, ret, getSource. intros H; injection H as _ <-. simpl.
    split; [now left | intros [H | [H _]]; [assumption | discriminate]].
  - destruct (determine_ _ _ _ _ _) as [[ap | e] rfr]; simpl fst.
    + unfold ret. intros H; injection H as _ <-. simpl.
      split; [now left | intros [H | [_ [e [H _]]]]; [assumption | discriminate]].
    + destruct (ExcKind_eqb (kind e) OutOfRangeError) eqn:K1.
      * unfold bind, set, throw. discriminate.
      * destruct (ExcKind_eqb (kind e) BadKronException) eqn:K2.
        -- unfold bind at 1.
           destruct (_fallbackRadius _ _ _ _) as [s0 [ap | e0]]; [| discriminate].
           unfold ret. intros H; injection H as _ <-. simpl.
           split; [now left |].
           intros [H | [_ [e0 (He0 & _ & Hk)]]]; [assumption |].
           injection He0 as <-. apply ExcKind_eqb_eq in K2. contradiction.
        -- unfold bind at 1.
           destruct (_fallbackRadius _ _ _ _) as [s0 [ap | e0]]; [| discriminate].
           unfold ret. intros H; injection H as _ <-. simpl.
           split; [| reflexivity]. intros _. right. split; [reflexivity |].
           exists e. split; [reflexivity |].
           split; intros Hk; apply ExcKind_eqb_eq in Hk; congruence.
Qed.

(** The later stages leave the bad-shape flag as [selectShape] set it. *)
Lemma obtainAperture_badShape (ctrl : KronFluxControl) (exposure : Exposure) (center : Point2D)
    (axes : Axes) (R_K_psf : R) (bad : bool) (s s' : SourceRecord.t)
    (found : KronAperture * option R * bool) :
  obtainAperture_ ctrl exposure center axes R_K_psf bad s = (s', Ok found) ->
  SourceRecord.badShape s' = SourceRecord.badShape s.
Proof.
  unfold obtainAperture.
  destruct (fixed ctrl).
  - unfold bind, ret, getSource. intros H; now injection H as <- _.
  - destruct (determine_ _ _ _ _ _) as [[ap | e] rfr].
    + unfold ret. intros H; now injection H as <- _.
    + destruct (ExcKind_eqb (kind e) OutOfRangeError); [unfold bind, set, throw; discriminate |].
      unfold _fallbackRadius, bind, set, ret, throw, getSource.
      destruct (ExcKind_eqb (kind e) BadKronException);
        destruct (Rgtb (minimumRadius ctrl) 0); try destruct (Rgtb _ 0);
        intros H; try discriminate; now injection H as <- _.
Qed.

Lemma enforceMinimum_badShape (ctrl : KronFluxControl) (exposure : Exposure) (R_K_psf : R)
    (aperture aperture' : KronAperture) (s s' : SourceRecord.t) :
  enforceMinimum ctrl exposure R_K_psf aperture s = (s', Ok aperture') ->
  SourceRecord.badShape s' = SourceRecord.badShape s.
Proof.
  unfold enforceMinimum, bind, set, ret, throw.
  destruct (enforceMinimumRadius ctrl); [| intros H; now injection H as <- _].
  destruct (Rgtb (minimumRadius ctrl) 0).
  - destruct (Rltb _ (minimumRadius ctrl)); destruct (Rneqb _ _);
      intros H; now injection H as <- _.
  - destruct (getPsf exposure); [| discriminate].
    destruct (Rltb _ _); destruct (Rneqb _ _); intros H; now injection H as <- _.
Qed.

(** A successful [_applyAperture] records the flux, its error and the
    radius on top of the record it received. *)
Lemma applyAperture_success (ctrl : KronFluxControl) (exposure : Exposure)
    (aperture aperture' : KronAperture) (s s' : SourceRecord.t) (u : unit) :
  _applyAperture_ ctrl s exposure aperture = ((s', aperture'), Ok u) ->
  exists flux fluxErr,
    snd (measure_ aperture (getMaskedImage exposure) (nRadiusForFlux ctrl) (maxSincRadius ctrl))
    = Ok (flux, fluxErr) /\
    s' = SourceRecord.set_radius (Some (getDeterminantRadius (getAxes aperture)))
           (SourceRecord.set_err (Some fluxErr) (SourceRecord.set_meas (Some flux) s)).
Proof.
  unfold _applyAperture.
  destruct (Rltb _ epsilon); [discriminate |].
  destruct (measure_ _ _ _ _) as [ap0 [[flux fluxErr] | e]] eqn:Hm.
  - intros H; injection H as <- _. exists flux, fluxErr. split; [reflexivity |].
    unfold measure in Hm. injection Hm as <- _. reflexivity.
  - destruct (ExcKind_eqb (kind e) LengthError); discriminate.
Qed.

(** ** Enforcing the minimum radius *)

Lemma Rneqb_refl (x : R) : Rneqb x x = false.
Proof. now apply Rneqb_false. Qed.

Lemma Rneqb_of_lt (x y : R) : x < y -> Rneqb y x = true.
Proof. intros H. apply Rneqb_true. lra. Qed.

(** [selectShape] and the solver with its handlers, when they return,
    leave the failure flag and the flux as they found them. *)
Lemma selectShape_flag (exposure : Exposure) (s s1 : SourceRecord.t) (r : result (Axes * bool)) :
  selectShape exposure s = (s1, r) -> SourceRecord.flag s1 = SourceRecord.flag s.
Proof.
  unfold selectShape, bind, set, ret, throw, getSource.
  destruct (SourceRecord.getShapeFlag s); [destruct (getPsf exposure) |];
    intros H; now injection H as <- _.
Qed.

Lemma selectShape_meas (exposure : Exposure) (s s1 : SourceRecord.t) (r : result (Axes * bool)) :
  selectShape exposure s = (s1, r) -> SourceRecord.meas s1 = SourceRecord.meas s.
Proof.
  unfold selectShape, bind, set, ret, throw, getSource.
  destruct (SourceRecord.getShapeFlag s); [destruct (getPsf exposure) |];
    intros H; now injection H as <- _.
Qed.

Lemma obtainAperture_flag (ctrl : KronFluxControl) (exposure : Exposure) (center : Point2D)
    (axes : Axes) (R_K_psf : R) (bad : bool) (s s' : SourceRecord.t)
    (found : KronAperture * option R * bool) :
  obtainAperture_ ctrl exposure center axes R_K_psf bad s = (s', Ok found) ->
  SourceRecord.flag s' = SourceRecord.flag s.
Proof.
  unfold obtainAperture.
  destruct (fixed ctrl).
  - unfold bind, ret, getSource. intros H; now injection H as <- _.
  - destruct (determine_ _ _ _ _ _) as [[ap | e] rfr].
    + unfold ret. intros H; now injection H as <- _.
    + destruct (ExcKind_eqb (kind e) OutOfRangeError); [unfold bind, set, throw; discriminate |].
      unfold _fallbackRadius, bind, set, ret, throw, getSource.
      destruct (ExcKind_eqb (kind e) BadKronException);
        destruct (Rgtb (minimumRadius ctrl) 0); try destruct (Rgtb _ 0);
        intros H; try discriminate; now injection H as <- _.
Qed.

Lemma obtainAperture_meas (ctrl : KronFluxControl) (exposure : Exposure) (center : Point2D)
    (axes : Axes) (R_K_psf : R) (bad : bool) (s s' : SourceRecord.t)
    (found : KronAperture * option R * bool) :
  obtainAperture_ ctrl exposure center axes R_K_psf bad s = (s', Ok found) ->
  SourceRecord.meas s' = SourceRecord.meas s.
Proof.
  unfold obtainAperture.
  destruct (fixed ctrl).
  - unfold bind, ret, getSource. intros H; now injection H as <- _.
  - destruct (determine_ _ _ _ _ _) as [[ap | e] rfr].
    + unfold ret. intros H; now injection H as <- _.
    + destruct (ExcKind_eqb (kind e) OutOfRangeError); [unfold bind, set, throw; discriminate |].
      unfold _fallbackRadius, bind, set, ret, throw, getSource.
      destruct (ExcKind_eqb (kind e) BadKronException);
        destruct (Rgtb (minimumRadius ctrl) 0); try destruct (Rgtb _ 0);
        intros H; try discriminate; now injection H as <- _.
Qed.

(** C7.  With [enforceMinimumRadius] set, the block of [_apply] that
    enforces the minimum radius throws a [RuntimeError], the record
    untouched, when the configured minimum is not positive and the exposure
    has no PSF.  Otherwise the floor is the configured minimum when that is
    positive, else the Kron radius of the PSF: a candidate radius strictly
    below the floor is raised to it (the aperture uniformly rescaled by
    floor over radius, the flag of the floor's origin and the small-radius
    flag set), and a candidate at or above the floor leaves aperture and
    record as they are.  An exception thrown by the block leaves [_apply]
    as it is, with the failure flag still set and no flux recorded. *)
Theorem enforceMinimum_floor (ctrl : KronFluxControl) (exposure : Exposure) (center : Point2D)
    (aperture : KronAperture) (source : SourceRecord.t) :
  enforceMinimumRadius ctrl = true ->
  let R_K_psf :=
    match getPsf exposure with
    | Some psf => calculatePsfKronRadius psf center (smoothingSigma ctrl)
    | None => -1
    end in
  let rad := getDeterminantRadius (getAxes aperture) in
  let out := enforceMinimum ctrl exposure R_K_psf aperture source in
  let raised floor := scaleAxes aperture (floor / rad) in
  ((minimumRadius ctrl <= 0 /\ getPsf exposure = None /\
    out = (source, Throw (LSST_EXCEPT RuntimeError "No minimum radius and no PSF provided")))
   \/
   (minimumRadius ctrl > 0 /\ rad < minimumRadius ctrl /\
    out = (SourceRecord.set_smallRadius true (SourceRecord.set_usedMinimumRadius true source),
           Ok (raised (minimumRadius ctrl))))
   \/
   (minimumRadius ctrl > 0 /\ minimumRadius ctrl <= rad /\ out = (source, Ok aperture))
   \/
   (minimumRadius ctrl <= 0 /\ rad < R_K_psf /\
    (exists psf, getPsf exposure = Some psf /\
                 R_K_psf = calculatePsfKronRadius psf center (smoothingSigma ctrl)) /\
    out = (SourceRecord.set_smallRadius true (SourceRecord.set_usedPsfRadius true source),
           Ok (raised R_K_psf)))
   \/
   (minimumRadius ctrl <= 0 /\ R_K_psf <= rad /\
    (exists psf, getPsf exposure = Some psf /\
                 R_K_psf = calculatePsfKronRadius psf center (smoothingSigma ctrl)) /\
    out = (source, Ok aperture))) /\
  (forall floor,
     0 < rad -> 0 <= floor ->
     getApertureCenter (raised floor) = getApertureCenter aperture /\
     getTheta (getAxes (raised floor)) = getTheta (getAxes aperture) /\
     getDeterminantRadius (getAxes (raised floor)) = floor) /\
  (forall (measured : SourceRecord.t) (s1 : SourceRecord.t) (shape : Axes * bool)
          (found : KronAperture * option R * bool) (e : Exception) (s3 : SourceRecord.t),
     selectShape exposure (atEntry measured) = (s1, Ok shape) ->
     obtainAperture_ ctrl exposure center (widenByFootprint ctrl s1 (fst shape)) R_K_psf
                     (snd shape) s1 = (source, Ok found) ->
     fst (fst found) = aperture ->
     out = (s3, Throw e) ->
     _apply_ ctrl measured exposure center = (s3, Throw e) /\
     SourceRecord.flag s3 = true /\ SourceRecord.meas s3 = SourceRecord.meas measured).
Proof.
  intros Henf R_K_psf rad out raised.
  assert (Hcases :
    (minimumRadius ctrl <= 0 /\ getPsf exposure = None /\
     out = (source, Throw (LSST_EXCEPT RuntimeError "No minimum radius and no PSF provided")))
    \/
    (minimumRadius ctrl > 0 /\ rad < minimumRadius ctrl /\
     out = (SourceRecord.set_smallRadius true (SourceRecord.set_usedMinimumRadius true source),
            Ok (raised (minimumRadius ctrl))))
    \/
    (minimumRadius ctrl > 0 /\ minimumRadius ctrl <= rad /\ out = (source, Ok aperture))
    \/
    (minimumRadius ctrl <= 0 /\ rad < R_K_psf /\
     (exists psf, getPsf exposure = Some psf /\
                  R_K_psf = calculatePsfKronRadius psf center (smoothingSigma ctrl)) /\
     out = (SourceRecord.set_smallRadius true (SourceRecord.set_usedPsfRadius true source),
            Ok (raised R_K_psf)))
    \/
    (minimumRadius ctrl <= 0 /\ R_K_psf <= rad /\
     (exists psf, getPsf exposure = Some psf /\
                  R_K_psf = calculatePsfKronRadius psf center (smoothingSigma ctrl)) /\
     out = (source, Ok aperture))).
  2:{ split; [exact Hcases |]. split.
      - intros floor Hrad Hfloor. subst raised. cbv beta.
        split; [reflexivity |]. split; [reflexivity |].
        unfold scaleAxes, getAxes. cbn [_axes].
        now apply getDeterminantRadius_rescale.
      - intros measured s1 shape found e s3 Hsel Hobt Hfound Hout.
        assert (Hs3 : s3 = source).
        { destruct Hcases as [(_ & _ & H) | [(_ & _ & H) | [(_ & _ & H) |
                             [(_ & _ & _ & H) | (_ & _ & _ & H)]]]];
            rewrite H in Hout; try discriminate; now injection Hout as <- _. }
        split; [| split].
        + unfold R_K_psf in Hobt. unfold out, R_K_psf in Hout.
          rewrite apply_stages, Hsel, Hobt, Hfound, Hout. reflexivity.
        + rewrite Hs3, (obtainAperture_flag _ _ _ _ _ _ _ _ _ Hobt).
          rewrite (selectShape_flag _ _ _ _ Hsel). reflexivity.
        + rewrite Hs3, (obtainAperture_meas _ _ _ _ _ _ _ _ _ Hobt).
          rewrite (selectShape_meas _ _ _ _ Hsel). reflexivity. }
  {
    subst out raised. unfold enforceMinimum. rewrite Henf. fold rad.
    unfold bind, set, ret, throw.
    destruct (Rgtb (minimumRadius ctrl) 0) eqn:Hmin.
    + apply Rgtb_true in Hmin.
      destruct (Rltb rad (minimumRadius ctrl)) eqn:Hlt.
      * apply Rltb_true in Hlt. right; left.
        rewrite (Rneqb_of_lt _ _ Hlt). repeat split; assumption.
      * apply Rltb_false in Hlt. right; right; left.
        rewrite Rneqb_refl. repeat split; assumption.
    + apply Rgtb_false in Hmin.
      destruct (getPsf exposure) as [psf |] eqn:Hpsf.
      * destruct (Rltb rad R_K_psf) eqn:Hlt.
        -- apply Rltb_true in Hlt. right; right; right; left.
           rewrite (Rneqb_of_lt _ _ Hlt).
           split; [assumption |]. split; [assumption |].
           split; [exists psf; split; reflexivity | reflexivity].
        -- apply Rltb_false in Hlt. right; right; right; right.
           rewrite Rneqb_refl.
           split; [assumption |]. split; [assumption |].
           split; [exists psf; split; reflexivity | reflexivity].
      * left. repeat split; assumption. }
Qed.

(** C10.  When a direct measurement returns without throwing, the failure
    flag it leaves is the value of [bad]: it is set exactly when the shape
    flag of the source was set (the PSF shape was used in its place), or the
    solver was run and threw an exception that is neither an
    [OutOfRangeError] nor a [BadKronException].  In particular a source
    with the shape flag set ends with the failure flag and the bad-shape
    flag set, although its flux and flux error were measured and recorded. *)
Theorem apply_failure_flag_is_bad (ctrl : KronFluxControl) (source : SourceRecord.t)
    (exposure : Exposure) (center : Point2D) :
  snd (_apply_ ctrl source exposure center) = Ok tt ->
  let final := fst (_apply_ ctrl source exposure center) in
  let shape :=
    if SourceRecord.getShapeFlag source then
      match getPsf exposure with
      | Some psf => computeShapeDefault psf
      | None => SourceRecord.getShape source
      end
    else SourceRecord.getShape source in
  let axes := widenByFootprint ctrl source shape in
  (SourceRecord.flag final = true <->
   SourceRecord.getShapeFlag source = true \/
   (fixed ctrl = false /\
    solverFailedBadly (determine_ (getMaskedImage exposure) axes center ctrl None))) /\
  (SourceRecord.getShapeFlag source = true ->
   SourceRecord.flag final = true /\ SourceRecord.badShape final = true) /\
  (exists flux fluxErr,
     SourceRecord.meas final = Some flux /\ SourceRecord.err final = Some fluxErr).
Proof.
  intros Hok final shape axes. subst final. revert Hok.
  rewrite apply_stages.
  destruct (selectShape exposure _) as [s1 [sh | e]] eqn:Hsel; [| discriminate].
  destruct (selectShape_atEntry _ _ _ _ Hsel) as (Hbad & Hshape & Hs1).
  destruct (obtainAperture_ _ _ _ _ _ _ _) as [s2 [found | e]] eqn:Hobt; [| discriminate].
  destruct (enforceMinimum _ _ _ _ _) as [s3 [aperture | e]] eqn:Henf; [| discriminate].
  destruct (_applyAperture_ _ _ _ _) as [[s4 ap'] [u | e]] eqn:Happ; [| discriminate].
  intros _. cbn [fst snd].
  pose proof (obtainAperture_bad _ _ _ _ _ _ _ _ _ Hobt) as Hiff.
  rewrite Hbad, Hshape in Hiff.
  rewrite (widenByFootprint_ext ctrl s1 source) in Hiff
    by (rewrite Hs1; destruct (SourceRecord.getShapeFlag source); reflexivity).
  pose proof (obtainAperture_badShape _ _ _ _ _ _ _ _ _ Hobt) as Hkeep2.
  pose proof (enforceMinimum_badShape _ _ _ _ _ _ _ Henf) as Hkeep3.
  destruct (applyAperture_success _ _ _ _ _ _ _ Happ) as (flux & fluxErr & _ & Hs4).
  split; [exact Hiff |]. split.
  - intros Hf. split; [apply Hiff; now left |].
    rewrite Hs4. cbn. rewrite Hkeep3, Hkeep2, Hs1, Hf. reflexivity.
  - exists flux, fluxErr. rewrite Hs4. split; reflexivity.
Qed.

(** ** The loop of [determine] *)

Local Abbreviation momentWindow_ := (momentWindow convolve).
Local Abbreviation adoptedStates_ := (adoptedStates Footprint_ofEllipse convolve).

(** One pass of the loop whose moment is valid. *)
Lemma determine_body_valid (image : MaskedImage) (center : Point2D) (ctrl : KronFluxControl)
    (smoothImage : bool) (kernel : SeparableKernel) (doNormalize doCopyEdge : bool)
    (i : Z) (axes : Axes) (radius0 : R) (subImage : MaskedImage) (f : FootprintFindMoment.t) :
  let trial := scale axes (nSigmaForRadius ctrl) in
  let foot := Footprint_ofEllipse (mkEllipse trial center) emptyBox in
  let estimate := FootprintFindMoment.getIr f * sqrt (getB trial / getA trial) in
  momentWindow_ image smoothImage kernel doNormalize doCopyEdge foot = Ok subImage ->
  FootprintFindMoment.apply subImage
    (FootprintFindMoment.make subImage center (getA trial / getB trial) (getTheta trial)) foot
  = Ok f ->
  FootprintFindMoment.getGood f = true ->
  determine_body_ image center ctrl smoothImage kernel doNormalize doCopyEdge i axes radius0
  = (if Rleb estimate radius0 then Break trial
     else Continue (scale trial (estimate / getDeterminantRadius trial)) estimate,
     getDeterminantRadius trial).
Proof.
  intros trial foot estimate Hwin Happ Hgood.
  unfold determine_body. fold trial. fold foot.
  rewrite Hwin, Happ, Hgood. cbn [negb]. fold estimate.
  destruct (Rleb estimate radius0); reflexivity.
Qed.

(** A pass continues only with an estimate above the previous one, and
    with the trial ellipse rescaled to it. *)
Lemma determine_body_continue (image : MaskedImage) (center : Point2D) (ctrl : KronFluxControl)
    (smoothImage : bool) (kernel : SeparableKernel) (doNormalize doCopyEdge : bool)
    (i : Z) (axes : Axes) (radius0 : R) (axes' : Axes) (radius : R) :
  fst (determine_body_ image center ctrl smoothImage kernel doNormalize doCopyEdge i axes radius0)
  = Continue axes' radius ->
  radius0 < radius /\
  axes' = scale (scale axes (nSigmaForRadius ctrl))
                (radius / getDeterminantRadius (scale axes (nSigmaForRadius ctrl))).
Proof.
  unfold determine_body.
  destruct (momentWindow_ _ _ _ _ _ _) as [subImage | e]; [| discriminate].
  destruct (FootprintFindMoment.apply _ _ _) as [f | e].
  - destruct (negb (FootprintFindMoment.getGood f)); [discriminate |].
    destruct (Rleb _ radius0) eqn:Hle; [discriminate |].
    apply Rleb_false in Hle. cbn [fst]. intros H; injection H as <- <-.
    split; [exact Hle | reflexivity].
  - destruct (ExcKind_eqb (kind e) OutOfRangeError); discriminate.
Qed.

Lemma adoptedStates_length (image : MaskedImage) (center : Point2D) (ctrl : KronFluxControl)
    (smoothImage : bool) (kernel : SeparableKernel) (doNormalize doCopyEdge : bool)
    (n : nat) (i : Z) (axes : Axes) (radius0 : R) :
  (List.length (adoptedStates_ image center ctrl smoothImage kernel doNormalize doCopyEdge
                          n i axes radius0) <= n)%nat.
Proof.
  revert i axes radius0. induction n as [| n IH]; intros i axes radius0; simpl; [lia |].
  destruct (determine_body_ _ _ _ _ _ _ _ _ _ _) as [[ax | e | ax r] rfr]; simpl; try lia.
  specialize (IH (i + 1)%Z ax r). lia.
Qed.

Lemma adoptedStates_increasing (image : MaskedImage) (center : Point2D) (ctrl : KronFluxControl)
    (smoothImage : bool) (kernel : SeparableKernel) (doNormalize doCopyEdge : bool)
    (n : nat) (i : Z) (axes : Axes) (radius0 : R) :
  StronglySorted Rlt
    (radius0 :: map snd (adoptedStates_ image center ctrl smoothImage kernel doNormalize
                                         doCopyEdge n i axes radius0)).
Proof.
  revert i axes radius0. induction n as [| n IH]; intros i axes radius0; simpl.
  - repeat constructor.
  - destruct (determine_body_ _ _ _ _ _ _ _ _ _ _) as [[ax | e | ax r] rfr] eqn:Hb.
    + repeat constructor.
    + repeat constructor.
    + assert (Hlt : radius0 < r).
      { eapply determine_body_continue. rewrite Hb. reflexivity. }
      specialize (IH (i + 1)%Z ax r). cbn [map snd].
      constructor; [exact IH |].
      constructor; [exact Hlt |].
      inversion IH as [| ? ? _ Hall]; subst.
      eapply Forall_impl; [| exact Hall]. intros x Hx. cbv beta in Hx. lra.
Qed.

(** With positive axes and a positive growth factor, every adopted ellipse
    has the orientation and the axis ratio of the first one, and the
    estimate it was rescaled to as its determinant radius. *)
Lemma adoptedStates_shape (image : MaskedImage) (center : Point2D) (ctrl : KronFluxControl)
    (smoothImage : bool) (kernel : SeparableKernel) (doNormalize doCopyEdge : bool)
    (n : nat) (i : Z) (axes : Axes) (radius0 : R) :
  0 < nSigmaForRadius ctrl -> 0 < getA axes -> 0 < getB axes -> 0 <= radius0 ->
  Forall (fun st : Axes * R =>
            getB (fst st) / getA (fst st) = getB axes / getA axes /\
            getTheta (fst st) = getTheta axes /\
            getDeterminantRadius (fst st) = snd st)
         (adoptedStates_ image center ctrl smoothImage kernel doNormalize doCopyEdge
                         n i axes radius0).
Proof.
  intros Hs. revert i axes radius0.
  induction n as [| n IH]; intros i axes radius0 Ha Hb Hr; simpl; [constructor |].
  destruct (determine_body_ _ _ _ _ _ _ _ _ _ _) as [[ax | e | ax r] rfr] eqn:Hbody;
    try constructor.
  - assert (Hc := determine_body_continue image center ctrl smoothImage kernel doNormalize
                    doCopyEdge i axes radius0 ax r).
    rewrite Hbody in Hc. destruct (Hc eq_refl) as [Hlt Hax]. clear Hc.
    set (trial := scale axes (nSigmaForRadius ctrl)) in *.
    assert (HtA : 0 < getA trial) by (unfold trial, scale; simpl; nra).
    assert (HtB : 0 < getB trial) by (unfold trial, scale; simpl; nra).
    assert (Hdet : 0 < getDeterminantRadius trial).
    { unfold getDeterminantRadius. apply sqrt_lt_R0. nra. }
    assert (Hfac : 0 < r / getDeterminantRadius trial).
    { apply Rdiv_lt_0_compat; lra. }
    assert (HaxA : getA ax = getA axes * nSigmaForRadius ctrl * (r / getDeterminantRadius trial))
      by (rewrite Hax; reflexivity).
    assert (HaxB : getB ax = getB axes * nSigmaForRadius ctrl * (r / getDeterminantRadius trial))
      by (rewrite Hax; reflexivity).
    cbn [fst snd]. split; [| split].
    + rewrite HaxA, HaxB. field. repeat split; try lra.
    + rewrite Hax. reflexivity.
    + rewrite Hax. apply getDeterminantRadius_rescale; lra.
  - assert (Hc := determine_body_continue image center ctrl smoothImage kernel doNormalize
                    doCopyEdge i axes radius0 ax r).
    rewrite Hbody in Hc. destruct (Hc eq_refl) as [Hlt Hax]. clear Hc.
    set (trial := scale axes (nSigmaForRadius ctrl)) in *.
    assert (HtA : 0 < getA trial) by (unfold trial, scale; simpl; nra).
    assert (HtB : 0 < getB trial) by (unfold trial, scale; simpl; nra).
    assert (Hdet : 0 < getDeterminantRadius trial).
    { unfold getDeterminantRadius. apply sqrt_lt_R0. nra. }
    assert (Hfac : 0 < r / getDeterminantRadius trial).
    { apply Rdiv_lt_0_compat; lra. }
    assert (HaxA : getA ax = getA axes * nSigmaForRadius ctrl * (r / getDeterminantRadius trial))
      by (rewrite Hax; reflexivity).
    assert (HaxB : getB ax = getB axes * nSigmaForRadius ctrl * (r / getDeterminantRadius trial))
      by (rewrite Hax; reflexivity).
    assert (Hratio : getB ax / getA ax = getB axes / getA axes).
    { rewrite HaxA, HaxB. field. repeat split; try lra. }
    assert (Htheta : getTheta ax = getTheta axes) by (rewrite Hax; reflexivity).
    specialize (IH (i + 1)%Z ax r).
    assert (Hax_pos : 0 < getA ax /\ 0 < getB ax).
    { rewrite HaxA, HaxB. split; apply Rmult_lt_0_compat; nra. }
    destruct Hax_pos as [HpA HpB].
    specialize (IH HpA HpB ltac:(lra)).
    eapply Forall_impl; [| exact IH]. intros st (H1 & H2 & H3).
    rewrite H1, H2, Hratio, Htheta. auto.
Qed.

(** A pass that stops the loop hands back the trial ellipse. *)
Lemma determine_body_break (image : MaskedImage) (center : Point2D) (ctrl : KronFluxControl)
    (smoothImage : bool) (kernel : SeparableKernel) (doNormalize doCopyEdge : bool)
    (i : Z) (axes : Axes) (radius0 : R) (axes' : Axes) :
  fst (determine_body_ image center ctrl smoothImage kernel doNormalize doCopyEdge i axes radius0)
  = Break axes' ->
  axes' = scale axes (nSigmaForRadius ctrl).
Proof.
  unfold determine_body.
  destruct (momentWindow_ _ _ _ _ _ _) as [subImage | e]; [| discriminate].
  destruct (FootprintFindMoment.apply _ _ _) as [f | e].
  - destruct (negb (FootprintFindMoment.getGood f)); [discriminate |].
    destruct (Rleb _ radius0); [| discriminate].
    cbn [fst]. intros H; now injection H as <-.
  - destruct (ExcKind_eqb (kind e) OutOfRangeError); [| discriminate].
    cbn [fst]. intros H; now injection H as <-.
Qed.

Lemma last_cons_default {A : Type} (x d : A) (l : list A) : last (x :: l) d = last l x.
Proof.
  revert x d. induction l as [| y l IH]; intros x d; [reflexivity |].
  change (last (x :: y :: l) d) with (last (y :: l) d).
  rewrite (IH y d), (IH y x). reflexivity.
Qed.

(** The ellipse the loop returns is the last one it adopted (the one it
    was given, when it adopted none), or that one grown by the growth
    factor when a pass stopped the loop. *)
Lemma determine_loop_last (image : MaskedImage) (center : Point2D) (ctrl : KronFluxControl)
    (smoothImage : bool) (kernel : SeparableKernel) (doNormalize doCopyEdge : bool)
    (n : nat) (i : Z) (axes : Axes) (radius0 : R) (rfr rfr' : option R) (returned : Axes) :
  determine_loop_ image center ctrl smoothImage kernel doNormalize doCopyEdge
                  n i axes radius0 rfr = (Ok returned, rfr') ->
  let final :=
    last (map fst (adoptedStates_ image center ctrl smoothImage kernel doNormalize doCopyEdge
                                  n i axes radius0)) axes in
  returned = final \/ returned = scale final (nSigmaForRadius ctrl).
Proof.
  revert i axes radius0 rfr.
  induction n as [| n IH]; intros i axes radius0 rfr; cbn [determine_loop adoptedStates].
  - intros H; injection H as <- _. now left.
  - destruct (determine_body_ _ _ _ _ _ _ _ _ _ _) as [[ax | e | ax r] x] eqn:Hbody.
    + intros H; injection H as <- _. right. cbn [map last].
      eapply determine_body_break. rewrite Hbody. reflexivity.
    + discriminate.
    + intros H. specialize (IH _ _ _ _ H). cbn [map fst].
      rewrite last_cons_default. exact IH.
Qed.

(** How the loop ends: after the states it adopts, either the passes
    have run out and the last adopted ellipse is returned, or the pass
    from the last adopted state stops the loop, which returns the trial
    ellipse of that pass, or that pass throws and the loop throws the
    same. *)
Lemma determine_loop_outcome (image : MaskedImage) (center : Point2D) (ctrl : KronFluxControl)
    (smoothImage : bool) (kernel : SeparableKernel) (doNormalize doCopyEdge : bool)
    (n : nat) (i : Z) (axes : Axes) (radius0 : R) (rfr : option R) :
  let states := adoptedStates_ image center ctrl smoothImage kernel doNormalize doCopyEdge
                               n i axes radius0 in
  let final := last states (axes, radius0) in
  let pass := fst (determine_body_ image center ctrl smoothImage kernel doNormalize doCopyEdge
                                   (i + Z.of_nat (List.length states)) (fst final) (snd final)) in
  let out := fst (determine_loop_ image center ctrl smoothImage kernel doNormalize doCopyEdge
                                  n i axes radius0 rfr) in
  (List.length states = n /\ out = Ok (fst final))
  \/
  ((List.length states < n)%nat /\
   ((pass = Break (scale (fst final) (nSigmaForRadius ctrl)) /\
     out = Ok (scale (fst final) (nSigmaForRadius ctrl)))
    \/
    (exists e, pass = Raise e /\ out = Throw e))).
Proof.
  cbv zeta. revert i axes radius0 rfr.
  induction n as [| n IH]; intros i axes radius0 rfr.
  - left. split; reflexivity.
  - cbn [adoptedStates determine_loop].
    destruct (determine_body_ image center ctrl smoothImage kernel doNormalize doCopyEdge
                              i axes radius0) as [[ax | e | ax r] x] eqn:Hbody.
    + right. cbn [List.length last fst snd]. rewrite Z.add_0_r. split; [lia |].
      left. rewrite Hbody. cbn [fst].
      assert (Hax : ax = scale axes (nSigmaForRadius ctrl)).
      { eapply determine_body_break. rewrite Hbody. reflexivity. }
      subst ax. split; reflexivity.
    + right. cbn [List.length last fst snd]. rewrite Z.add_0_r. split; [lia |].
      right. exists e. rewrite Hbody. split; reflexivity.
    + rewrite last_cons_default. cbn [List.length].
      replace (i + Z.of_nat (S (List.length
                 (adoptedStates_ image center ctrl smoothImage kernel doNormalize doCopyEdge
                                 n (i + 1) ax r))))%Z
        with (i + 1 + Z.of_nat (List.length
                 (adoptedStates_ image center ctrl smoothImage kernel doNormalize doCopyEdge
                                 n (i + 1) ax r)))%Z by lia.
      destruct (IH (i + 1)%Z ax r (Some x)) as [[Hlen Hout] | [Hlen Hpass]].
      * left. split; [lia | exact Hout].
      * right. split; [lia | exact Hpass].
Qed.

(** C4.  In a pass of the loop of [determine] whose moment is valid, the
    new estimate is the mean elliptical radius times [sqrt (b / a)] of the
    trial ellipse, whose axis ratio is that of the ellipse the pass started
    from.  When the estimate is at most the previous one the loop stops
    there and returns the trial ellipse; otherwise the loop adopts the
    estimate, with the trial ellipse rescaled to it, and goes on from that
    state with one pass less; and with no pass left it returns the ellipse
    it holds.  Over a run of [determine] the loop adopts at most
    [nIterForRadius] estimates, each strictly greater than the one before,
    the first strictly greater than the determinant radius of the initial
    shape; and with positive axes and growth factor every adopted ellipse
    keeps the orientation and axis ratio of the initial shape and has the
    adopted estimate as its determinant radius.  The run ends in one of
    three ways: the passes run out and the aperture returned is the last
    adopted ellipse; or the pass from the last adopted state stops the loop
    and the aperture returned is that ellipse grown by the growth factor;
    or that pass throws and [determine] throws the same. *)
Theorem determine_radii_increase (image : MaskedImage) (center : Point2D)
    (ctrl : KronFluxControl) :
  (forall (smoothImage : bool) (kernel : SeparableKernel) (doNormalize doCopyEdge : bool)
          (n : nat) (i : Z) (axes : Axes) (radius0 : R) (rfr : option R)
          (subImage : MaskedImage) (f : FootprintFindMoment.t),
     let trial := scale axes (nSigmaForRadius ctrl) in
     let foot := Footprint_ofEllipse (mkEllipse trial center) emptyBox in
     let estimate := FootprintFindMoment.getIr f * sqrt (getB trial / getA trial) in
     momentWindow_ image smoothImage kernel doNormalize doCopyEdge foot = Ok subImage ->
     FootprintFindMoment.apply subImage
       (FootprintFindMoment.make subImage center (getA trial / getB trial) (getTheta trial)) foot
     = Ok f ->
     FootprintFindMoment.getGood f = true ->
     (nSigmaForRadius ctrl <> 0 -> getA axes <> 0 ->
      getB trial / getA trial = getB axes / getA axes) /\
     ((estimate <= radius0 /\
       fst (determine_body_ image center ctrl smoothImage kernel doNormalize doCopyEdge
                            i axes radius0) = Break trial /\
       determine_loop_ image center ctrl smoothImage kernel doNormalize doCopyEdge
                       (S n) i axes radius0 rfr
       = (Ok trial, Some (getDeterminantRadius trial)))
      \/
      (radius0 < estimate /\
       fst (determine_body_ image center ctrl smoothImage kernel doNormalize doCopyEdge
                            i axes radius0)
       = Continue (scale trial (estimate / getDeterminantRadius trial)) estimate /\
       determine_loop_ image center ctrl smoothImage kernel doNormalize doCopyEdge
                       (S n) i axes radius0 rfr
       = determine_loop_ image center ctrl smoothImage kernel doNormalize doCopyEdge
                         n (i + 1) (scale trial (estimate / getDeterminantRadius trial))
                         estimate (Some (getDeterminantRadius trial))))) /\
  (forall (smoothImage : bool) (kernel : SeparableKernel) (doNormalize doCopyEdge : bool)
          (i : Z) (axes : Axes) (radius0 : R) (rfr : option R),
     determine_loop_ image center ctrl smoothImage kernel doNormalize doCopyEdge
                     0 i axes radius0 rfr = (Ok axes, rfr)) /\
  (forall axes : Axes,
     let states := determine_adopted Footprint_ofEllipse convolve image axes center ctrl in
     (Z.of_nat (List.length states) <= Z.max 0 (nIterForRadius ctrl))%Z /\
     StronglySorted Rlt (getDeterminantRadius axes :: map snd states) /\
     (0 < nSigmaForRadius ctrl -> 0 < getA axes -> 0 < getB axes ->
      Forall (fun st : Axes * R =>
                getB (fst st) / getA (fst st) = getB axes / getA axes /\
                getTheta (fst st) = getTheta axes /\
                getDeterminantRadius (fst st) = snd st) states) /\
     (forall (aperture : KronAperture) (rfr : option R),
        determine_ image axes center ctrl None = (Ok aperture, rfr) ->
        getAxes aperture = last (map fst states) axes \/
        getAxes aperture = scale (last (map fst states) axes) (nSigmaForRadius ctrl)) /\
     (forall rfr : option R,
        let sigma := smoothingSigma ctrl in
        let smoothImage := Rgtb sigma 0 in
        let kSize := if smoothImage then (2 * truncZ (2 * sigma) + 1)%Z else 1%Z in
        let kernel := mkKernel kSize kSize (if smoothImage then sigma else 100) in
        let final := last states (axes, getDeterminantRadius axes) in
        let pass :=
          fst (determine_body_ image center ctrl smoothImage kernel true false
                               (Z.of_nat (List.length states)) (fst final) (snd final)) in
        let out := fst (determine_ image axes center ctrl rfr) in
        (List.length states = Z.to_nat (nIterForRadius ctrl) /\
         out = Ok (mkKronAperture center (fst final)))
        \/
        ((List.length states < Z.to_nat (nIterForRadius ctrl))%nat /\
         ((pass = Break (scale (fst final) (nSigmaForRadius ctrl)) /\
           out = Ok (mkKronAperture center (scale (fst final) (nSigmaForRadius ctrl))))
          \/
          (exists e, pass = Raise e /\ out = Throw e))))).
Proof.
  split; [| split].
  - intros smoothImage kernel doNormalize doCopyEdge n i axes radius0 rfr subImage f
           trial foot estimate Hwin Happ Hgood.
    split.
    + intros Hs Ha. unfold trial, scale; simpl. field. split; assumption.
    + pose proof (determine_body_valid image center ctrl smoothImage kernel doNormalize
                    doCopyEdge i axes radius0 subImage f Hwin Happ Hgood) as Hbody.
      cbv zeta in Hbody. fold trial in Hbody. fold estimate in Hbody.
      cbn [determine_loop]. rewrite Hbody.
      destruct (Rleb estimate radius0) eqn:Hle.
      * left. apply Rleb_true in Hle. split; [assumption |]. split; reflexivity.
      * right. apply Rleb_false in Hle. split; [assumption |]. split; reflexivity.
  - intros. reflexivity.
  - intros axes states. subst states. unfold determine_adopted.
    split; [| split; [| split; [| split]]].
    + cbv zeta.
      match goal with
      | |- context [adoptedStates_ ?im ?c ?ct ?sm ?k ?dn ?dc ?n ?i ?ax ?r0] =>
        pose proof (adoptedStates_length im c ct sm k dn dc n i ax r0) as Hlen
      end.
      lia.
    + apply adoptedStates_increasing.
    + intros Hs Ha Hb. apply adoptedStates_shape; try assumption.
      apply getDeterminantRadius_nonneg.
    + intros aperture rfr. unfold determine.
      destruct (determine_loop_ _ _ _ _ _ _ _ _ _ _ _ _) as [[returned | e] rfr'] eqn:Hloop;
        [| discriminate].
      intros H; injection H as <- _. cbn [getAxes _axes].
      exact (determine_loop_last _ _ _ _ _ _ _ _ _ _ _ _ _ _ Hloop).
    + intros rfr. cbv zeta.
      pose proof (determine_loop_outcome image center ctrl
                    (Rgtb (smoothingSigma ctrl) 0)
                    (mkKernel
                       (if Rgtb (smoothingSigma ctrl) 0
                        then (2 * truncZ (2 * smoothingSigma ctrl) + 1)%Z else 1%Z)
                       (if Rgtb (smoothingSigma ctrl) 0
                        then (2 * truncZ (2 * smoothingSigma ctrl) + 1)%Z else 1%Z)
                       (if Rgtb (smoothingSigma ctrl) 0 then smoothingSigma ctrl else 100))
                    true false
                    (Z.to_nat (nIterForRadius ctrl)) 0%Z axes (getDeterminantRadius axes) rfr)
        as Hrun.
      cbv zeta in Hrun. rewrite Z.add_0_l in Hrun. revert Hrun.
      unfold determine. cbv zeta.
      destruct (determine_loop_ _ _ _ _ _ _ _ _ _ _ _ _) as [[returned | e] rfr'];
        cbn [fst];
        intros [[Hlen Hret] | [Hlen [[Hpass Hret] | [e' [Hpass Hret]]]]];
        try discriminate.
      * left. split; [exact Hlen |]. injection Hret as ->. reflexivity.
      * right. split; [exact Hlen |]. left. split; [exact Hpass |].
        injection Hret as ->. reflexivity.
      * right. split; [exact Hlen |]. right. exists e'. split; [exact Hpass |].
        injection Hret as ->. reflexivity.
Qed.

(** ** The edge of the image *)

(** A pass whose footprint does not fit the image it measures on stops
    the loop, whatever its index. *)
Lemma determine_body_edge (image : MaskedImage) (center : Point2D) (ctrl : KronFluxControl)
    (smoothImage : bool) (kernel : SeparableKernel) (doNormalize doCopyEdge : bool)
    (i : Z) (axes : Axes) (radius0 : R) (subImage : MaskedImage) :
  let trial := scale axes (nSigmaForRadius ctrl) in
  let foot := Footprint_ofEllipse (mkEllipse trial center) emptyBox in
  let functor :=
    FootprintFindMoment.make subImage center (getA trial / getB trial) (getTheta trial) in
  momentWindow_ image smoothImage kernel doNormalize doCopyEdge foot = Ok subImage ->
  FootprintFindMoment.fits subImage functor foot = false ->
  determine_body_ image center ctrl smoothImage kernel doNormalize doCopyEdge i axes radius0
  = (Break trial, getDeterminantRadius trial).
Proof.
  intros trial foot functor Hwin Hfit.
  unfold determine_body. fold trial. fold foot. rewrite Hwin. fold functor.
  destruct (FootprintFindMoment_apply_cases subImage center (getA trial / getB trial)
              (getTheta trial) foot) as [[_ [e [He Hk]]] | [Hfit' _]].
  - fold functor in He. rewrite He, Hk. reflexivity.
  - fold functor in Hfit'. congruence.
Qed.

(** What [_apply] does with an exception of the solver that is an
    [OutOfRangeError]. *)
Lemma obtainAperture_outOfRange (ctrl : KronFluxControl) (exposure : Exposure)
    (center : Point2D) (axes : Axes) (R_K_psf : R) (bad : bool) (s : SourceRecord.t)
    (e : Exception) (rfr : option R) :
  fixed ctrl = false ->
  determine_ (getMaskedImage exposure) axes center ctrl None = (Throw e, rfr) ->
  kind e = OutOfRangeError ->
  obtainAperture_ ctrl exposure center axes R_K_psf bad s
  = (SourceRecord.set_flag true (SourceRecord.set_edge true s), Throw e).
Proof.
  intros Hfixed Hdet Hk. unfold obtainAperture. rewrite Hfixed, Hdet, Hk. reflexivity.
Qed.

(** C1, amended.  In a pass of the loop of [determine] after the first, a
    footprint that does not fit the image the moment is measured on stops
    the loop: the solver returns the trial ellipse of that pass and throws
    nothing.  An [OutOfRangeError] that the solver does throw is a hard
    failure of the measurement: [_apply] sets the edge flag, leaves the
    failure flag set, records no flux and throws the exception again. *)
Theorem determine_edge_policy :
  (forall (image : MaskedImage) (center : Point2D) (ctrl : KronFluxControl)
          (smoothImage : bool) (kernel : SeparableKernel) (doNormalize doCopyEdge : bool)
          (n : nat) (i : Z) (axes : Axes) (radius0 : R) (rfr : option R)
          (subImage : MaskedImage),
     let trial := scale axes (nSigmaForRadius ctrl) in
     let foot := Footprint_ofEllipse (mkEllipse trial center) emptyBox in
     let functor :=
       FootprintFindMoment.make subImage center (getA trial / getB trial) (getTheta trial) in
     (0 < i)%Z ->
     momentWindow_ image smoothImage kernel doNormalize doCopyEdge foot = Ok subImage ->
     FootprintFindMoment.fits subImage functor foot = false ->
     determine_loop_ image center ctrl smoothImage kernel doNormalize doCopyEdge
                     (S n) i axes radius0 rfr
     = (Ok trial, Some (getDeterminantRadius trial))) /\
  (forall (ctrl : KronFluxControl) (source : SourceRecord.t) (exposure : Exposure)
          (center : Point2D) (e : Exception) (rfr : option R),
     let shape :=
       if SourceRecord.getShapeFlag source then
         match getPsf exposure with
         | Some psf => computeShapeDefault psf
         | None => SourceRecord.getShape source
         end
       else SourceRecord.getShape source in
     let axes := widenByFootprint ctrl source shape in
     let out := _apply_ ctrl source exposure center in
     fixed ctrl = false ->
     (SourceRecord.getShapeFlag source = true -> getPsf exposure <> None) ->
     determine_ (getMaskedImage exposure) axes center ctrl None = (Throw e, rfr) ->
     kind e = OutOfRangeError ->
     snd out = Throw e /\
     SourceRecord.edge (fst out) = true /\
     SourceRecord.flag (fst out) = true /\
     SourceRecord.meas (fst out) = SourceRecord.meas source).
Proof.
  split.
  - intros image center ctrl smoothImage kernel doNormalize doCopyEdge n i axes radius0 rfr
           subImage trial foot functor _ Hwin Hfit.
    cbn [determine_loop].
    rewrite (determine_body_edge image center ctrl smoothImage kernel doNormalize doCopyEdge
               i axes radius0 subImage Hwin Hfit).
    reflexivity.
  - intros ctrl source exposure center e rfr shape axes out Hfixed Hpsf Hdet Hk.
    subst out. rewrite apply_stages.
    destruct (selectShape exposure _) as [s1 [sh | e0]] eqn:Hsel.
    + destruct (selectShape_atEntry _ _ _ _ Hsel) as (Hbad & Hshape & Hs1).
      rewrite (widenByFootprint_ext ctrl s1 source)
        by (rewrite Hs1; destruct (SourceRecord.getShapeFlag source); reflexivity).
      rewrite Hshape. fold shape. fold axes.
      rewrite (obtainAperture_outOfRange ctrl exposure center axes _ _ s1 e rfr Hfixed Hdet Hk).
      cbn [fst snd]. split; [reflexivity |]. split; [reflexivity |]. split; [reflexivity |].
      rewrite Hs1. destruct (SourceRecord.getShapeFlag source); reflexivity.
    + exfalso. revert Hsel. unfold selectShape, bind, set, ret, throw, getSource. simpl.
      destruct (SourceRecord.getShapeFlag source) eqn:Hf; [| discriminate].
      destruct (getPsf exposure); [discriminate |]. now specialize (Hpsf eq_refl).
Qed.

(** ** The degenerate moment *)

(** What [_apply] does with a [BadKronException] of the solver when there
    is no configured minimum and the PSF Kron radius is positive. *)
Lemma obtainAperture_badKron (ctrl : KronFluxControl) (exposure : Exposure)
    (center : Point2D) (axes : Axes) (R_K_psf : R) (bad : bool) (s : SourceRecord.t)
    (e : Exception) (rfr : option R) :
  fixed ctrl = false ->
  determine_ (getMaskedImage exposure) axes center ctrl None = (Throw e, rfr) ->
  kind e = BadKronException ->
  minimumRadius ctrl <= 0 -> 0 < R_K_psf ->
  obtainAperture_ ctrl exposure center axes R_K_psf bad s
  = (SourceRecord.set_usedPsfRadius true (SourceRecord.set_badRadius true s),
     Ok (scaleAxes (KronAperture_ofSource s)
                   (R_K_psf / getDeterminantRadius (SourceRecord.getShape s)), rfr, bad)).
Proof.
  intros Hfixed Hdet Hk Hmin Hpsf. unfold obtainAperture. rewrite Hfixed, Hdet, Hk.
  cbn [ExcKind_eqb]. unfold _fallbackRadius, bind, set, ret, throw, getSource.
  apply Rgtb_false in Hmin. rewrite Hmin.
  assert (Hp : Rgtb R_K_psf 0 = true) by (apply Rgtb_true; lra). rewrite Hp.
  reflexivity.
Qed.

Lemma enforceMinimum_fallbackFlagged (ctrl : KronFluxControl) (exposure : Exposure)
    (R_K_psf : R) (aperture : KronAperture) (s : SourceRecord.t) :
  fallbackFlagged s ->
  fallbackFlagged (fst (enforceMinimum ctrl exposure R_K_psf aperture s)).
Proof.
  intros H. unfold enforceMinimum, bind, set, ret, throw.
  destruct (enforceMinimumRadius ctrl); [| exact H].
  destruct (Rgtb (minimumRadius ctrl) 0).
  - destruct (Rltb _ (minimumRadius ctrl)); destruct (Rneqb _ _); exact H.
  - destruct (getPsf exposure); [| exact H].
    destruct (Rltb _ R_K_psf); destruct (Rneqb _ _);
      destruct H as [H1 H2]; split; simpl; auto.
Qed.

Lemma applyAperture_fallbackFlagged (ctrl : KronFluxControl) (exposure : Exposure)
    (aperture : KronAperture) (s : SourceRecord.t) :
  fallbackFlagged s ->
  fallbackFlagged (fst (fst (_applyAperture_ ctrl s exposure aperture))).
Proof.
  intros H. unfold _applyAperture.
  destruct (Rltb _ epsilon); [destruct H; split; simpl; auto |].
  destruct (measure_ _ _ _ _) as [ap [r | e]]; [exact H |].
  destruct (ExcKind_eqb (kind e) LengthError); exact H.
Qed.

(** The stages of [_apply] after the solver, from the record [s] and the
    aperture the handlers produced. *)
Lemma apply_after_solver_flagged (ctrl : KronFluxControl) (exposure : Exposure)
    (R_K_psf : R) (aperture : KronAperture) (rfr psfR : option R) (bad : bool)
    (s : SourceRecord.t) :
  fallbackFlagged s ->
  match enforceMinimum ctrl exposure R_K_psf aperture s with
  | (s3, Throw e) => fallbackFlagged s3
  | (s3, Ok aperture) =>
    match _applyAperture_ ctrl s3 exposure aperture with
    | ((s4, _), Throw e) => fallbackFlagged s4
    | ((s4, _), Ok _) =>
      fallbackFlagged
        (SourceRecord.set_flag bad
           (SourceRecord.set_psfRadius psfR (SourceRecord.set_radiusForRadius rfr s4)))
    end
  end.
Proof.
  intros H.
  pose proof (enforceMinimum_fallbackFlagged ctrl exposure R_K_psf aperture s H) as H3.
  destruct (enforceMinimum _ _ _ _ _) as [s3 [ap | e]]; cbn [fst] in H3; [| exact H3].
  pose proof (applyAperture_fallbackFlagged ctrl exposure ap s3 H3) as H4.
  destruct (_applyAperture_ _ _ _ _) as [[s4 ap'] [u | e]]; cbn [fst] in H4; exact H4.
Qed.

(** An aperture whose determinant radius is the Kron radius of the PSF
    is at the floor, when no minimum is configured: enforcing the minimum
    leaves it and the record as they are. *)
Lemma enforceMinimum_at_floor (ctrl : KronFluxControl) (exposure : Exposure) (psf : Psf)
    (R_K_psf : R) (aperture : KronAperture) (s : SourceRecord.t) :
  minimumRadius ctrl <= 0 -> getPsf exposure = Some psf ->
  getDeterminantRadius (getAxes aperture) = R_K_psf ->
  enforceMinimum ctrl exposure R_K_psf aperture s = (s, Ok aperture).
Proof.
  intros Hmin Hpsf Hrad. unfold enforceMinimum, bind, set, ret, throw.
  destruct (enforceMinimumRadius ctrl); [| reflexivity].
  rewrite (proj2 (Rgtb_false _ _) Hmin), Hpsf, Hrad.
  rewrite (proj2 (Rltb_false R_K_psf R_K_psf)) by lra.
  now rewrite Rneqb_refl.
Qed.

(** The path of [_apply] when the solver throws its [BadKronException],
    no minimum is configured, the PSF has a positive Kron radius and the
    shape of the source a positive determinant radius: the flux is
    measured in the aperture of the source rescaled to the Kron radius of
    the PSF. *)
Lemma apply_badKron_path (ctrl : KronFluxControl) (source : SourceRecord.t)
    (exposure : Exposure) (center : Point2D) (psf : Psf) (e : Exception) (rfr : option R) :
  let shape :=
    if SourceRecord.getShapeFlag source then computeShapeDefault psf
    else SourceRecord.getShape source in
  let axes := widenByFootprint ctrl source shape in
  let R_K_psf := calculatePsfKronRadius psf center (smoothingSigma ctrl) in
  let fallback :=
    scaleAxes (KronAperture_ofSource source)
              (R_K_psf / getDeterminantRadius (SourceRecord.getShape source)) in
  let selected :=
    if SourceRecord.getShapeFlag source
    then SourceRecord.set_badShape true (atEntry source) else atEntry source in
  let flagged :=
    SourceRecord.set_usedPsfRadius true (SourceRecord.set_badRadius true selected) in
  fixed ctrl = false ->
  getPsf exposure = Some psf ->
  minimumRadius ctrl <= 0 ->
  determine_ (getMaskedImage exposure) axes center ctrl None = (Throw e, rfr) ->
  kind e = BadKronException ->
  0 < R_K_psf ->
  0 < getDeterminantRadius (SourceRecord.getShape source) ->
  _apply_ ctrl source exposure center
  = match _applyAperture_ ctrl flagged exposure fallback with
    | ((s4, _), Throw e4) => (s4, Throw e4)
    | ((s4, _), Ok _) =>
      (SourceRecord.set_flag (SourceRecord.getShapeFlag source)
         (SourceRecord.set_psfRadius (Some R_K_psf)
            (SourceRecord.set_radiusForRadius rfr s4)), Ok tt)
    end.
Proof.
  intros shape axes R_K_psf fallback selected flagged Hfixed Hpsf Hmin Hdet Hk Hpos Hshp.
  rewrite apply_stages.
  destruct (selectShape exposure _) as [s1 [sh | e0]] eqn:Hsel.
  2:{ exfalso. revert Hsel. unfold selectShape, bind, set, ret, throw, getSource. simpl.
      rewrite Hpsf. destruct (SourceRecord.getShapeFlag source); discriminate. }
  destruct (selectShape_atEntry _ _ _ _ Hsel) as (Hbad & Hshape & Hs1).
  rewrite Hpsf in Hshape. fold selected in Hs1.
  rewrite (widenByFootprint_ext ctrl s1 source)
    by (rewrite Hs1; unfold selected; destruct (SourceRecord.getShapeFlag source);
        reflexivity).
  rewrite Hshape. fold shape. fold axes. rewrite Hpsf. fold R_K_psf.
  rewrite (obtainAperture_badKron ctrl exposure center axes R_K_psf (snd sh) s1 e rfr
             Hfixed Hdet Hk Hmin Hpos).
  cbn [fst snd].
  assert (Hsrc : KronAperture_ofSource s1 = KronAperture_ofSource source)
    by (rewrite Hs1; unfold selected; destruct (SourceRecord.getShapeFlag source);
        reflexivity).
  assert (Hshp1 : SourceRecord.getShape s1 = SourceRecord.getShape source)
    by (rewrite Hs1; unfold selected; destruct (SourceRecord.getShapeFlag source);
        reflexivity).
  rewrite Hsrc, Hshp1. fold fallback.
  rewrite (enforceMinimum_at_floor ctrl exposure psf R_K_psf fallback _ Hmin Hpsf).
  2:{ unfold fallback, scaleAxes, getAxes, KronAperture_ofSource. cbn [_axes].
      apply getDeterminantRadius_rescale; lra. }
  rewrite Hs1, Hbad. reflexivity.
Qed.

(** C8, amended.  In a direct measurement whose solver throws a
    [BadKronException], with no configured minimum radius and a PSF whose
    Kron radius is positive, the handler falls back to the PSF Kron radius:
    the PSF-radius-used flag and the bad-radius flag are set when the
    measurement finishes.  When the measurement then returns, a flux and
    its error are recorded, [radiusForRadius] is the value the solver left,
    and the failure flag is the shape flag of the source: this path does
    not raise [bad], and the flag is cleared unless the input shape was
    bad.  For a source whose shape has a positive determinant radius the
    aperture of the fallback is the aperture of the source (its centre,
    and its own shape even when that is flagged) rescaled to the PSF Kron
    radius, which is its determinant radius; the measurement is what
    [_applyAperture] makes of that aperture; and when it returns, the flux
    and the error recorded are those measured in that aperture and the
    radius recorded is the PSF Kron radius. *)
Theorem badKron_falls_back_to_psf (ctrl : KronFluxControl) (source : SourceRecord.t)
    (exposure : Exposure) (center : Point2D) (psf : Psf) (e : Exception) (rfr : option R) :
  let shape :=
    if SourceRecord.getShapeFlag source then computeShapeDefault psf
    else SourceRecord.getShape source in
  let axes := widenByFootprint ctrl source shape in
  let R_K_psf := calculatePsfKronRadius psf center (smoothingSigma ctrl) in
  let out := _apply_ ctrl source exposure center in
  fixed ctrl = false ->
  getPsf exposure = Some psf ->
  minimumRadius ctrl <= 0 ->
  determine_ (getMaskedImage exposure) axes center ctrl None = (Throw e, rfr) ->
  kind e = BadKronException ->
  0 < R_K_psf ->
  SourceRecord.usedPsfRadius (fst out) = true /\
  SourceRecord.badRadius (fst out) = true /\
  (snd out = Ok tt ->
   (exists flux fluxErr,
      SourceRecord.meas (fst out) = Some flux /\ SourceRecord.err (fst out) = Some fluxErr) /\
   SourceRecord.radiusForRadius (fst out) = rfr /\
   SourceRecord.flag (fst out) = SourceRecord.getShapeFlag source) /\
  (0 < getDeterminantRadius (SourceRecord.getShape source) ->
   let fallback :=
     scaleAxes (KronAperture_ofSource source)
               (R_K_psf / getDeterminantRadius (SourceRecord.getShape source)) in
   let selected :=
     if SourceRecord.getShapeFlag source
     then SourceRecord.set_badShape true (atEntry source) else atEntry source in
   let flagged :=
     SourceRecord.set_usedPsfRadius true (SourceRecord.set_badRadius true selected) in
   getApertureCenter fallback
   = mkPoint2D (SourceRecord.getX source) (SourceRecord.getY source) /\
   getTheta (getAxes fallback) = getTheta (SourceRecord.getShape source) /\
   getDeterminantRadius (getAxes fallback) = R_K_psf /\
   out = match _applyAperture_ ctrl flagged exposure fallback with
         | ((s4, _), Throw e4) => (s4, Throw e4)
         | ((s4, _), Ok _) =>
           (SourceRecord.set_flag (SourceRecord.getShapeFlag source)
              (SourceRecord.set_psfRadius (Some R_K_psf)
                 (SourceRecord.set_radiusForRadius rfr s4)), Ok tt)
         end /\
   (snd out = Ok tt ->
    SourceRecord.radius (fst out) = Some R_K_psf /\
    exists flux fluxErr,
      snd (measure_ fallback (getMaskedImage exposure) (nRadiusForFlux ctrl)
                    (maxSincRadius ctrl)) = Ok (flux, fluxErr) /\
      SourceRecord.meas (fst out) = Some flux /\
      SourceRecord.err (fst out) = Some fluxErr)).
Proof.
  intros shape axes R_K_psf out Hfixed Hpsf Hmin Hdet Hk Hpos.
  assert (Hold :
    SourceRecord.usedPsfRadius (fst out) = true /\
    SourceRecord.badRadius (fst out) = true /\
    (snd out = Ok tt ->
     (exists flux fluxErr,
        SourceRecord.meas (fst out) = Some flux /\ SourceRecord.err (fst out) = Some fluxErr) /\
     SourceRecord.radiusForRadius (fst out) = rfr /\
     SourceRecord.flag (fst out) = SourceRecord.getShapeFlag source)).
  { subst out. rewrite apply_stages.
    destruct (selectShape exposure _) as [s1 [sh | e0]] eqn:Hsel.
    2:{ exfalso. revert Hsel. unfold selectShape, bind, set, ret, throw, getSource. simpl.
        rewrite Hpsf. destruct (SourceRecord.getShapeFlag source); discriminate. }
    destruct (selectShape_atEntry _ _ _ _ Hsel) as (Hbad & Hshape & Hs1).
    rewrite Hpsf in Hshape.
    rewrite (widenByFootprint_ext ctrl s1 source)
      by (rewrite Hs1; destruct (SourceRecord.getShapeFlag source); reflexivity).
    rewrite Hshape. fold shape. fold axes. rewrite Hpsf. fold R_K_psf.
    rewrite (obtainAperture_badKron ctrl exposure center axes R_K_psf (snd sh) s1 e rfr
               Hfixed Hdet Hk Hmin Hpos).
    cbn [fst snd].
    set (s2 := SourceRecord.set_usedPsfRadius true (SourceRecord.set_badRadius true s1)).
    set (fallback := scaleAxes _ _).
    assert (Hflagged : fallbackFlagged s2) by (split; reflexivity).
    pose proof (apply_after_solver_flagged ctrl exposure R_K_psf fallback rfr (Some R_K_psf)
                  (snd sh) s2 Hflagged) as Hafter.
    destruct (enforceMinimum _ _ _ _ _) as [s3 [ap | e3]].
    2:{ destruct Hafter as [H1 H2]. cbn [fst snd].
        split; [exact H1 | split; [exact H2 | discriminate]]. }
    destruct (_applyAperture_ _ _ _ _) as [[s4 ap'] [u | e4]] eqn:Happ.
    2:{ destruct Hafter as [H1 H2]. cbn [fst snd].
        split; [exact H1 | split; [exact H2 | discriminate]]. }
    destruct Hafter as [H1 H2]. cbn [fst snd].
    split; [exact H1 |]. split; [exact H2 |]. intros _.
    destruct (applyAperture_success _ _ _ _ _ _ _ Happ) as (flux & fluxErr & _ & Hs4).
    split; [| split].
    - exists flux, fluxErr. rewrite Hs4. split; reflexivity.
    - reflexivity.
    - cbn. exact Hbad. }
  destruct Hold as (H1 & H2 & H3).
  split; [exact H1 |]. split; [exact H2 |]. split; [exact H3 |].
  intros Hshp fallback selected flagged.
  assert (Hrad : getDeterminantRadius (getAxes fallback) = R_K_psf).
  { unfold fallback, scaleAxes, getAxes, KronAperture_ofSource. cbn [_axes].
    apply getDeterminantRadius_rescale; lra. }
  split; [reflexivity |]. split; [reflexivity |]. split; [exact Hrad |].
  pose proof (apply_badKron_path ctrl source exposure center psf e rfr
                Hfixed Hpsf Hmin Hdet Hk Hpos Hshp) as Hpath.
  cbv zeta in Hpath. fold R_K_psf fallback selected flagged out in Hpath.
  split; [exact Hpath |].
  rewrite Hpath.
  destruct (_applyAperture_ ctrl flagged exposure fallback) as [[s4 ap'] [u | e4]] eqn:Happ;
    cbn [fst snd]; [| discriminate].
  intros _.
  destruct (applyAperture_success _ _ _ _ _ _ _ Happ) as (flux & fluxErr & Hm & Hs4).
  rewrite Hs4, Hrad. split; [reflexivity |].
  exists flux, fluxErr. split; [exact Hm |]. split; reflexivity.
Qed.

End Properties.

(** * Runs on concrete inputs *)

Arguments Rltb : simpl never.
Arguments Rleb : simpl never.
Arguments Rgtb : simpl never.
Arguments Rneqb : simpl never.

(** The integer part of an integer. *)
Lemma Int_part_IZR (z : Z) : Int_part (IZR z) = z.
Proof. symmetry. apply Int_part_spec. lra. Qed.

(** The footprint along the row of an ellipse with integer centre and
    integer semi-major axis. *)
Lemma rowFootprint_at (cx cy k : Z) (a b theta x y : R) (region : Box2I) :
  a = IZR k -> x = IZR cx -> y = IZR cy ->
  rowFootprint (mkEllipse (mkAxes a b theta) (mkPoint2D x y)) region
  = mkFootprint (mkBox2I (cx - k) cy (2 * k + 1) 1)
                (map (fun d => ((cx - k + Z.of_nat d)%Z, cy)) (seq 0 (Z.to_nat (2 * k + 1)))).
Proof.
  intros -> -> ->. unfold rowFootprint. cbn [getCenter getCore getX getY getA].
  now rewrite !Int_part_IZR.
Qed.

(** Rescaling, and the determinant radius of a circle. *)
Lemma scale_mkAxes (a b theta s a' b' : R) :
  a * s = a' -> b * s = b' -> scale (mkAxes a b theta) s = mkAxes a' b' theta.
Proof. intros <- <-. reflexivity. Qed.

Lemma getDeterminantRadius_circle (a theta : R) :
  0 <= a -> getDeterminantRadius (mkAxes a a theta) = a.
Proof. intros Ha. unfold getDeterminantRadius; simpl. now apply sqrt_square. Qed.

(** Along the row of a centre at [(2, 0)], with orientation zero and a
    pixel or more away from the centre, the elliptical radius is the
    distance to the centre. *)
Lemma rowRadius (ab : R) (x : Z) :
  1 <= Rabs (IZR x - 2) ->
  spec_ellipticalRadius 2 0 ab 0 x 0 = Rabs (IZR x - 2).
Proof.
  intros Hx. unfold spec_ellipticalRadius. rewrite cos_0, sin_0.
  unfold hypot.
  replace ((IZR x - 2) * (IZR x - 2) + (0 - 0) * (0 - 0)) with (Rsqr (IZR x - 2))
    by (unfold Rsqr; ring).
  rewrite sqrt_Rsqr_abs.
  destruct (Rlt_dec (Rabs (IZR x - 2)) (1 / 2)) as [H | H]; [lra |].
  replace (((IZR x - 2) * 1 + (0 - 0) * 0) * ((IZR x - 2) * 1 + (0 - 0) * 0)
           + (- (IZR x - 2) * 0 + (0 - 0) * 1) * ab * ((- (IZR x - 2) * 0 + (0 - 0) * 1) * ab))
    with (Rsqr (IZR x - 2)) by (unfold Rsqr; ring).
  apply sqrt_Rsqr_abs.
Qed.

Lemma getDeterminantRadius_unitAxes : getDeterminantRadius unitAxes = 1.
Proof. unfold unitAxes. apply getDeterminantRadius_circle. lra. Qed.

(** The first pass on the strip with two bright pixels, for a growth
    factor of two: the moment is valid and the estimate is two. *)
Lemma twoPeaks_moment conv (ctrl : KronFluxControl) kernel dn dc :
  nSigmaForRadius ctrl = 2 ->
  let trial := scale unitAxes (nSigmaForRadius ctrl) in
  let foot := rowFootprint (mkEllipse trial middle) emptyBox in
  exists f,
    momentWindow conv (strip twoPeaks) false kernel dn dc foot = Ok (strip twoPeaks) /\
    FootprintFindMoment.apply (strip twoPeaks)
      (FootprintFindMoment.make (strip twoPeaks) middle (getA trial / getB trial)
                                (getTheta trial)) foot = Ok f /\
    FootprintFindMoment.getGood f = true /\
    FootprintFindMoment.getIr f * sqrt (getB trial / getA trial) = 2.
Proof.
  intros Hs trial foot. subst foot trial. unfold unitAxes. rewrite Hs.
  rewrite (scale_mkAxes 1 1 0 2 2 2) by lra.
  unfold middle. rewrite (rowFootprint_at 2 0 2 2 2 0 2 0) by reflexivity.
  set (foot := mkFootprint _ _). cbn [getA getB getTheta].
  destruct (FootprintFindMoment_apply_cases (strip twoPeaks) (mkPoint2D 2 0) (2 / 2) 0 foot)
    as [[Hfit _] | [_ Happ]]; [discriminate Hfit |].
  eexists. split; [reflexivity |]. split; [exact Happ |].
  unfold FootprintFindMoment.getGood, FootprintFindMoment.getIr.
  cbn [FootprintFindMoment._sum FootprintFindMoment._sumR FootprintFindMoment.setSums
       getX getY].
  assert (HsumI : pixelSum (imageAt (strip twoPeaks)) (getPixels foot) = 2).
  { unfold pixelSum. simpl. unfold twoPeaks. simpl. lra. }
  assert (HsumR : pixelSum (fun x y => spec_ellipticalRadius 2 0 (2 / 2) 0 x y
                                       * imageAt (strip twoPeaks) x y) (getPixels foot) = 4).
  { unfold pixelSum. simpl. unfold twoPeaks. simpl.
    rewrite (rowRadius (2 / 2) 0), (rowRadius (2 / 2) 4);
      unfold Rabs; repeat destruct (Rcase_abs _); lra. }
  rewrite HsumI, HsumR.
  rewrite (proj2 (Rgtb_true 2 0)), (proj2 (Rgtb_true 4 0)) by lra.
  split; [reflexivity |].
  replace (2 / 2) with 1 by lra. rewrite sqrt_1. lra.
Qed.

(** The first pass adopts the radius two. *)
Lemma twoPeaks_pass0 conv (ctrl : KronFluxControl) kernel dn dc i :
  nSigmaForRadius ctrl = 2 ->
  determine_body rowFootprint conv (strip twoPeaks) middle ctrl false kernel dn dc
                 i unitAxes 1
  = (Continue (mkAxes 2 2 0) 2, 2).
Proof.
  intros Hs.
  destruct (twoPeaks_moment conv ctrl kernel dn dc Hs) as (f & Hwin & Happ & Hgood & Hest).
  rewrite (determine_body_valid rowFootprint conv (strip twoPeaks) middle ctrl false
             kernel dn dc i unitAxes 1 (strip twoPeaks) f Hwin Happ Hgood).
  rewrite Hest. rewrite (proj2 (Rleb_false 2 1)) by lra.
  unfold unitAxes. rewrite Hs.
  rewrite (scale_mkAxes 1 1 0 2 2 2) by lra.
  rewrite (getDeterminantRadius_circle 2 0) by lra.
  rewrite (scale_mkAxes 2 2 0 (2 / 2) 2 2) by lra.
  reflexivity.
Qed.

(** The trial ellipse of the second pass, of radius four about the middle
    of the strip, does not fit the strip. *)
Lemma twoPeaks_edge conv (ctrl : KronFluxControl) kernel dn dc :
  nSigmaForRadius ctrl = 2 ->
  let trial := scale (mkAxes 2 2 0) (nSigmaForRadius ctrl) in
  let foot := rowFootprint (mkEllipse trial middle) emptyBox in
  momentWindow conv (strip twoPeaks) false kernel dn dc foot = Ok (strip twoPeaks) /\
  FootprintFindMoment.fits (strip twoPeaks)
    (FootprintFindMoment.make (strip twoPeaks) middle (getA trial / getB trial)
                              (getTheta trial)) foot = false.
Proof.
  intros Hs trial foot. subst foot trial. rewrite Hs.
  rewrite (scale_mkAxes 2 2 0 2 4 4) by lra.
  unfold middle. rewrite (rowFootprint_at 2 0 4 4 4 0 2 0) by reflexivity.
  split; reflexivity.
Qed.

(** The second pass stops the loop at the edge. *)
Lemma twoPeaks_pass1 conv (ctrl : KronFluxControl) kernel dn dc i :
  nSigmaForRadius ctrl = 2 ->
  determine_body rowFootprint conv (strip twoPeaks) middle ctrl false kernel dn dc
                 i (mkAxes 2 2 0) 2
  = (Break (mkAxes 4 4 0), 4).
Proof.
  intros Hs. destruct (twoPeaks_edge conv ctrl kernel dn dc Hs) as [Hwin Hfit].
  rewrite (determine_body_edge rowFootprint conv (strip twoPeaks) middle ctrl false
             kernel dn dc i (mkAxes 2 2 0) 2 (strip twoPeaks) Hwin Hfit).
  rewrite Hs. rewrite (scale_mkAxes 2 2 0 2 4 4) by lra.
  rewrite (getDeterminantRadius_circle 4 0) by lra. reflexivity.
Qed.

(** The run of the solver on the strip with two bright pixels. *)
Lemma twoPeaks_determine conv (ctrl : KronFluxControl) :
  nSigmaForRadius ctrl = 2 -> nIterForRadius ctrl = 2%Z -> smoothingSigma ctrl = 0 ->
  determine rowFootprint conv (strip twoPeaks) unitAxes middle ctrl None
  = (Ok (mkKronAperture middle (mkAxes 4 4 0)), Some 4).
Proof.
  intros Hs Hn Hsm. unfold determine. rewrite Hsm, Hn.
  rewrite (proj2 (Rgtb_false 0 0)) by lra.
  unfold unitAxes at 2. rewrite (getDeterminantRadius_circle 1 0) by lra.
  change (Z.to_nat 2) with 2%nat. cbn [determine_loop].
  rewrite (twoPeaks_pass0 conv ctrl _ _ _ _ Hs). cbn [Z.add].
  rewrite (twoPeaks_pass1 conv ctrl _ _ _ _ Hs). reflexivity.
Qed.

(** The machine epsilon is below one. *)
Lemma epsilon_lt_1 : epsilon < 1.
Proof.
  unfold epsilon.
  assert (H : / 2 ^ 52 < / 1).
  { apply Rinv_1_lt_contravar; [lra |]. apply Rlt_pow_R1; [lra | lia]. }
  rewrite Rinv_1 in H. exact H.
Qed.

(** The footprint along the row of an ellipse about the middle of the
    strip lies within the strip when the semi-major axis is below three. *)
Lemma rowFootprint_inside (intensity : Z -> R) (axes : Axes) (region : Box2I) :
  0 <= getA axes < 3 ->
  contains (imageBBox (strip intensity))
           (getBBox (rowFootprint (mkEllipse axes middle) region)) = true.
Proof.
  intros Ha. unfold rowFootprint, middle. cbn [getCenter getCore getX getY].
  rewrite (Int_part_IZR 2), (Int_part_IZR 0).
  destruct (base_Int_part (getA axes)) as [Hlo Hhi].
  assert (Hk0 : (0 <= Int_part (getA axes))%Z).
  { apply Z.lt_succ_r, lt_IZR. rewrite succ_IZR. lra. }
  assert (Hk2 : (Int_part (getA axes) <= 2)%Z).
  { apply Z.lt_succ_r, lt_IZR. rewrite succ_IZR. simpl IZR. lra. }
  unfold contains, isEmpty, getMaxX, getMaxY, strip.
  cbn [getBBox imageBBox getMinX getMinY getWidth getHeight].
  apply orb_true_iff. right. rewrite !andb_true_iff, !Z.leb_le. lia.
Qed.

(** [_applyAperture] on an aperture that is summed over its footprint. *)
Lemma applyAperture_sum_path Footprint_ofEllipse sinc (ctrl : KronFluxControl)
    (s : SourceRecord.t) (exposure : Exposure) (aperture : KronAperture) :
  epsilon <= getDeterminantRadius (getAxes aperture) ->
  getB (getAxes aperture) * nRadiusForFlux ctrl > maxSincRadius ctrl ->
  let foot :=
    Footprint_ofEllipse
      (mkEllipse (scale (getAxes aperture) (nRadiusForFlux ctrl))
                 (getApertureCenter aperture))
      (imageBBox (getMaskedImage exposure)) in
  let pixels := getPixels foot in
  contains (imageBBox (getMaskedImage exposure)) (getBBox foot) = true ->
  _applyAperture Footprint_ofEllipse sinc ctrl s exposure aperture
  = ((SourceRecord.set_radius (Some (getDeterminantRadius (getAxes aperture)))
        (SourceRecord.set_err
           (Some (sqrt (pixelSum (varianceAt (getMaskedImage exposure)) pixels)))
           (SourceRecord.set_meas
              (Some (pixelSum (imageAt (getMaskedImage exposure)) pixels)) s)),
      aperture), Ok tt).
Proof.
  intros Heps HB foot pixels Hin. unfold _applyAperture.
  rewrite (proj2 (Rltb_false _ _)) by exact Heps.
  unfold measure.
  rewrite (photometer_sum_path Footprint_ofEllipse sinc) by assumption.
  reflexivity.
Qed.

(** [_applyAperture] on an aperture that the sinc photometry finds off
    the image. *)
Lemma applyAperture_sinc_edge Footprint_ofEllipse sinc (ctrl : KronFluxControl)
    (s : SourceRecord.t) (exposure : Exposure) (aperture : KronAperture) (e : Exception) :
  epsilon <= getDeterminantRadius (getAxes aperture) ->
  getB (getAxes aperture) * nRadiusForFlux ctrl <= maxSincRadius ctrl ->
  sinc (getMaskedImage exposure)
       (mkEllipse (scale (getAxes aperture) (nRadiusForFlux ctrl)) (getApertureCenter aperture))
  = Throw e ->
  kind e = LengthError ->
  exists e',
    kind e' = LengthError /\
    _applyAperture Footprint_ofEllipse sinc ctrl s exposure aperture
    = ((SourceRecord.set_edge true (SourceRecord.set_flag true s), aperture), Throw e').
Proof.
  intros Heps HB Hsinc Hk. unfold _applyAperture.
  rewrite (proj2 (Rltb_false _ _)) by exact Heps.
  unfold measure, photometer. cbn [getCore scale getB].
  rewrite (proj2 (Rgtb_false _ _)) by exact HB.
  rewrite Hsinc, Hk. cbn [ExcKind_eqb].
  cbn [kind LSST_EXCEPT_ADD]. rewrite Hk. cbn [ExcKind_eqb].
  eexists. split; [| reflexivity]. exact Hk.
Qed.

(** The run of [_apply] on the strip with two bright pixels, the flux
    measured in a quarter of the aperture the solver returns. *)
Lemma twoPeaks_apply :
  exists flux fluxErr,
    _apply rowFootprint plainConvolve edgeSinc quarterCtrl (sourceAtMiddle false)
           (mkExposure (strip twoPeaks) None) middle
    = (SourceRecord.mk 1 2 0 unitAxes false unitAxes
         false (Some flux) (Some fluxErr) (Some 4) (Some 4)
         false false false false false (Some (-1)) false,
       Ok tt).
Proof.
  rewrite apply_stages.
  unfold selectShape, bind, set, ret, throw, getSource, sourceAtMiddle.
  cbn [SourceRecord.getShapeFlag SourceRecord.set_flag SourceRecord.set_badRadius
       SourceRecord.set_smallRadius SourceRecord.set_badShape
       SourceRecord.set_usedMinimumRadius SourceRecord.set_usedPsfRadius negb
       SourceRecord.getShape SourceRecord.getId SourceRecord.getX SourceRecord.getY
       SourceRecord.getFootprintShape SourceRecord.flag SourceRecord.meas SourceRecord.err
       SourceRecord.radius SourceRecord.radiusForRadius SourceRecord.edge
       SourceRecord.badRadius SourceRecord.smallRadius SourceRecord.usedMinimumRadius
       SourceRecord.usedPsfRadius SourceRecord.psfRadius SourceRecord.badShape fst snd].
  unfold widenByFootprint, obtainAperture.
  cbn [useFootprintRadius fixed quarterCtrl getMaskedImage].
  rewrite (twoPeaks_determine plainConvolve quarterCtrl eq_refl eq_refl eq_refl).
  unfold ret. cbn [fst snd].
  unfold enforceMinimum. cbn [enforceMinimumRadius quarterCtrl]. unfold ret.
  rewrite applyAperture_sum_path.
  - cbn [getAxes _axes]. rewrite (getDeterminantRadius_circle 4 0) by lra.
    set (flux := pixelSum (imageAt _) _). set (fluxErr := sqrt _).
    exists flux, fluxErr. reflexivity.
  - cbn [getAxes _axes]. rewrite (getDeterminantRadius_circle 4 0) by lra.
    pose proof epsilon_lt_1. lra.
  - cbn. lra.
  - apply rowFootprint_inside. cbn. lra.
Qed.

(** C1, counterexample.  On the strip with two bright pixels, for a unit
    circle at its middle, the first pass of the solver adopts the radius
    two; in the second pass the footprint of the trial ellipse does not
    fit the image and the moment functor throws its [OutOfRangeError]; yet
    the solver throws nothing and returns the trial ellipse, and the
    measurement returns with a flux recorded and neither the edge flag nor
    the failure flag set. *)
Lemma determine_edge_counterexample :
  let image := strip twoPeaks in
  let kernel := mkKernel 1 1 100 in
  let trial := scale (mkAxes 2 2 0) (nSigmaForRadius quarterCtrl) in
  let foot := rowFootprint (mkEllipse trial middle) emptyBox in
  let functor :=
    FootprintFindMoment.make image middle (getA trial / getB trial) (getTheta trial) in
  determine_body rowFootprint plainConvolve image middle quarterCtrl false kernel true false
                 0 unitAxes (getDeterminantRadius unitAxes)
  = (Continue (mkAxes 2 2 0) 2, 2) /\
  momentWindow plainConvolve image false kernel true false foot = Ok image /\
  (exists e, FootprintFindMoment.apply image functor foot = Throw e /\
             kind e = OutOfRangeError) /\
  determine rowFootprint plainConvolve image unitAxes middle quarterCtrl None
  = (Ok (mkKronAperture middle (mkAxes 4 4 0)), Some 4) /\
  (exists final,
     _apply rowFootprint plainConvolve edgeSinc quarterCtrl (sourceAtMiddle false)
            (mkExposure image None) middle = (final, Ok tt) /\
     SourceRecord.edge final = false /\
     SourceRecord.flag final = false /\
     SourceRecord.radius final = Some 4 /\
     SourceRecord.meas final <> None).
Proof.
  intros image kernel trial foot functor.
  destruct (twoPeaks_edge plainConvolve quarterCtrl kernel true false eq_refl)
    as [Hwin Hfit].
  split; [| split; [| split; [| split]]].
  - rewrite getDeterminantRadius_unitAxes. now apply twoPeaks_pass0.
  - exact Hwin.
  - destruct (FootprintFindMoment_apply_cases image middle (getA trial / getB trial)
                (getTheta trial) foot) as [[_ He] | [Hfit' _]]; [exact He |].
    exfalso. cbv zeta in Hfit, Hfit'. unfold image, foot, trial in Hfit'.
    congruence.
  - now apply twoPeaks_determine.
  - destruct twoPeaks_apply as (flux & fluxErr & Hrun).
    eexists. split; [exact Hrun |]. cbn.
    repeat split; discriminate.
Qed.

(** With smoothing, a convolution that fails at the edge makes the solver
    throw its [OutOfRangeError] in the first pass. *)
Lemma smooth_determine :
  determine rowFootprint edgeConvolve (strip twoPeaks) unitAxes middle smoothCtrl None
  = (Throw (LSST_EXCEPT OutOfRangeError "Convolution region off the image"),
     Some (getDeterminantRadius (scale unitAxes 2))).
Proof.
  unfold determine. cbn [smoothingSigma nIterForRadius smoothCtrl].
  rewrite (proj2 (Rgtb_true 1 0)) by lra.
  change (Z.to_nat 2) with 2%nat. cbn [determine_loop].
  unfold determine_body, momentWindow, edgeConvolve. reflexivity.
Qed.

(** C1, on the strip: the second pass at the edge returns the trial
    ellipse of radius four; with a smoothing whose convolution fails at the
    edge, the measurement fails hard with the edge flag set. *)
Lemma determine_edge_policy_witness :
  determine_loop rowFootprint edgeConvolve (strip twoPeaks) middle plainCtrl false
                 (mkKernel 1 1 100) true false 1 1 (mkAxes 2 2 0) 2 (Some 2)
  = (Ok (scale (mkAxes 2 2 0) 2), Some (getDeterminantRadius (scale (mkAxes 2 2 0) 2))) /\
  (let out := _apply rowFootprint edgeConvolve edgeSinc smoothCtrl (sourceAtMiddle false)
                     (mkExposure (strip twoPeaks) None) middle in
   snd out = Throw (LSST_EXCEPT OutOfRangeError "Convolution region off the image") /\
   SourceRecord.edge (fst out) = true /\
   SourceRecord.flag (fst out) = true /\
   SourceRecord.meas (fst out) = None).
Proof.
  destruct (determine_edge_policy rowFootprint edgeConvolve edgeSinc) as [Hloop Hcaller].
  split.
  - destruct (twoPeaks_edge edgeConvolve plainCtrl (mkKernel 1 1 100) true false eq_refl)
      as [Hwin Hfit].
    apply (Hloop (strip twoPeaks) middle plainCtrl false (mkKernel 1 1 100) true false
                 0%nat 1%Z (mkAxes 2 2 0) 2 (Some 2) (strip twoPeaks));
      [lia | exact Hwin | exact Hfit].
  - apply (Hcaller smoothCtrl (sourceAtMiddle false) (mkExposure (strip twoPeaks) None) middle
                   (LSST_EXCEPT OutOfRangeError "Convolution region off the image")
                   (Some (getDeterminantRadius (scale unitAxes 2)))).
    + reflexivity.
    + discriminate.
    + exact smooth_determine.
    + reflexivity.
Defined.

(** On the dark strip the first pass finds no light and the solver throws
    its [BadKronException]. *)
Lemma dark_determine conv (ctrl : KronFluxControl) :
  nSigmaForRadius ctrl = 2 -> nIterForRadius ctrl = 2%Z -> smoothingSigma ctrl = 0 ->
  determine rowFootprint conv (strip dark) unitAxes middle ctrl None
  = (Throw (LSST_EXCEPT BadKronException "Bad integral defining Kron radius"), Some 2).
Proof.
  intros Hs Hn Hsm. unfold determine. rewrite Hsm, Hn.
  rewrite (proj2 (Rgtb_false 0 0)) by lra.
  change (Z.to_nat 2) with 2%nat. cbn [determine_loop].
  unfold determine_body, unitAxes. rewrite Hs.
  rewrite (scale_mkAxes 1 1 0 2 2 2) by lra.
  unfold middle. rewrite (rowFootprint_at 2 0 2 2 2 0 2 0) by reflexivity.
  set (foot := mkFootprint _ _).
  assert (Hwin : momentWindow conv (strip dark) false (mkKernel 1 1 100) true false foot
                 = Ok (strip dark)) by reflexivity.
  rewrite Hwin. cbn [getA getB getTheta].
  destruct (FootprintFindMoment_apply_cases (strip dark) (mkPoint2D 2 0) (2 / 2) 0 foot)
    as [[Hfit _] | [_ Happ]]; [discriminate Hfit |].
  rewrite Happ. clear Happ.
  unfold FootprintFindMoment.getGood.
  cbn [FootprintFindMoment._sum FootprintFindMoment._sumR FootprintFindMoment.setSums].
  assert (HsumI : pixelSum (imageAt (strip dark)) (getPixels foot) = 0).
  { unfold pixelSum. simpl. unfold dark. lra. }
  rewrite HsumI. rewrite (proj2 (Rgtb_false 0 0)) by lra. cbn [andb negb].
  rewrite (getDeterminantRadius_circle 2 0) by lra. reflexivity.
Qed.

(** The Kron radius of the unit PSF without smoothing is [sqrt (PI / 2)],
    between one and two. *)
Lemma unitPsf_kronRadius :
  1 < calculatePsfKronRadius unitPsf middle 0 <= 2.
Proof.
  unfold calculatePsfKronRadius, unitPsf. cbn [computeShape].
  rewrite getDeterminantRadius_unitAxes.
  rewrite Rmax_left by lra. rewrite hypot_0_r by lra. rewrite Rmult_1_r.
  pose proof PI2_1. pose proof PI_4.
  split.
  - rewrite <- sqrt_1 at 1. apply sqrt_lt_1; lra.
  - replace 2 with (sqrt (2 * 2)) at 2 by (apply sqrt_square; lra).
    apply sqrt_le_1; lra.
Qed.

(** What [_apply] does with a [BadKronException] of the solver when there
    is neither a configured minimum nor a positive PSF Kron radius. *)
Lemma obtainAperture_badKron_noFloor Footprint_ofEllipse convolve (ctrl : KronFluxControl)
    (exposure : Exposure) (center : Point2D) (axes : Axes) (R_K_psf : R) (bad : bool)
    (s : SourceRecord.t) (e : Exception) (rfr : option R) :
  fixed ctrl = false ->
  determine Footprint_ofEllipse convolve (getMaskedImage exposure) axes center ctrl None
  = (Throw e, rfr) ->
  kind e = BadKronException ->
  minimumRadius ctrl <= 0 -> R_K_psf <= 0 ->
  obtainAperture Footprint_ofEllipse convolve ctrl exposure center axes R_K_psf bad s
  = (SourceRecord.set_badRadius true s,
     Throw (sliced (LSST_EXCEPT_ADD e
                      "Bad Kron aperture, no minimum radius specified, and no PSF"))).
Proof.
  intros Hfixed Hdet Hk Hmin Hpsf. unfold obtainAperture. rewrite Hfixed, Hdet, Hk.
  cbn [ExcKind_eqb]. unfold _fallbackRadius, bind, set, ret, throw, getSource.
  apply Rgtb_false in Hmin, Hpsf. rewrite Hmin, Hpsf. reflexivity.
Qed.

(** The record of the source at the middle after [selectShape]. *)
Lemma selectShape_sourceAtMiddle (shapeFlag : bool) (mimage : MaskedImage) (psf : Psf) :
  computeShapeDefault psf = unitAxes ->
  exists s1,
    selectShape (mkExposure mimage (Some psf))
      (SourceRecord.set_usedPsfRadius false
         (SourceRecord.set_usedMinimumRadius false
            (SourceRecord.set_badShape false
               (SourceRecord.set_smallRadius false
                  (SourceRecord.set_badRadius false
                     (SourceRecord.set_flag true (sourceAtMiddle shapeFlag)))))))
    = (s1, Ok (unitAxes, shapeFlag)) /\
    s1 = SourceRecord.mk 1 2 0 unitAxes shapeFlag unitAxes
           true None None None None false false false false false None shapeFlag.
Proof.
  intros Hpsf. eexists. split; [| reflexivity].
  unfold selectShape, bind, set, ret, throw, getSource, sourceAtMiddle.
  destruct shapeFlag; cbn; [rewrite Hpsf |]; reflexivity.
Qed.

(** The run of [_apply] on the dark strip under the unit PSF: the fallback
    to the PSF Kron radius, and the flux summed over its footprint. *)
Lemma dark_apply (shapeFlag : bool) :
  let K := calculatePsfKronRadius unitPsf middle 0 in
  exists flux fluxErr,
    _apply rowFootprint plainConvolve edgeSinc plainCtrl (sourceAtMiddle shapeFlag)
           (mkExposure (strip dark) (Some unitPsf)) middle
    = (SourceRecord.mk 1 2 0 unitAxes shapeFlag unitAxes
         shapeFlag (Some flux) (Some fluxErr) (Some K) (Some 2)
         false true false false true (Some K) shapeFlag,
       Ok tt).
Proof.
  intros K. pose proof unitPsf_kronRadius as HK. fold K in HK.
  rewrite apply_stages.
  destruct (selectShape_sourceAtMiddle shapeFlag (strip dark) unitPsf eq_refl)
    as (s1 & Hsel & Hs1).
  rewrite Hsel. cbn [fst snd getPsf smoothingSigma plainCtrl]. fold K.
  assert (Hw : widenByFootprint plainCtrl s1 unitAxes = unitAxes) by reflexivity.
  rewrite Hw.
  rewrite (obtainAperture_badKron rowFootprint plainConvolve plainCtrl
             (mkExposure (strip dark) (Some unitPsf)) middle unitAxes K
             shapeFlag s1 _ (Some 2) eq_refl
             (dark_determine plainConvolve plainCtrl eq_refl eq_refl eq_refl) eq_refl);
    [| cbn; lra | lra].
  cbn [fst snd]. unfold enforceMinimum. cbn [enforceMinimumRadius plainCtrl]. unfold ret.
  assert (Hshape : SourceRecord.getShape s1 = unitAxes) by (rewrite Hs1; reflexivity).
  rewrite Hshape.
  assert (Hdet : getDeterminantRadius
                   (getAxes (scaleAxes (KronAperture_ofSource s1)
                                       (K / getDeterminantRadius unitAxes))) = K).
  { unfold scaleAxes, getAxes, KronAperture_ofSource. cbn [_axes]. rewrite Hshape.
    apply getDeterminantRadius_rescale; rewrite ?getDeterminantRadius_unitAxes; lra. }
  rewrite applyAperture_sum_path.
  - rewrite Hdet.
    set (flux := pixelSum (imageAt _) _). set (fluxErr := sqrt _).
    exists flux, fluxErr. rewrite Hs1. reflexivity.
  - rewrite Hdet. pose proof epsilon_lt_1. lra.
  - unfold scaleAxes, getAxes, KronAperture_ofSource. cbn [_axes scale getB].
    rewrite Hshape, getDeterminantRadius_unitAxes. cbn. lra.
  - rewrite Hs1. apply rowFootprint_inside.
    unfold scaleAxes, getAxes, KronAperture_ofSource.
    cbn [_axes scale getA SourceRecord.getShape unitAxes nRadiusForFlux plainCtrl].
    rewrite getDeterminantRadius_unitAxes. lra.
Qed.

(** The same run with sinc photometry up to a radius of ten, when the
    sinc photometry finds the aperture off the image. *)
Lemma dark_apply_sinc :
  exists e',
    kind e' = LengthError /\
    _apply rowFootprint plainConvolve edgeSinc sincCtrl (sourceAtMiddle false)
           (mkExposure (strip dark) (Some unitPsf)) middle
    = (SourceRecord.mk 1 2 0 unitAxes false unitAxes
         true None None None None
         true true false false true None false,
       Throw e').
Proof.
  set (K := calculatePsfKronRadius unitPsf middle 0).
  pose proof unitPsf_kronRadius as HK. fold K in HK.
  rewrite apply_stages.
  destruct (selectShape_sourceAtMiddle false (strip dark) unitPsf eq_refl)
    as (s1 & Hsel & Hs1).
  rewrite Hsel. cbn [fst snd getPsf smoothingSigma sincCtrl]. fold K.
  assert (Hw : widenByFootprint sincCtrl s1 unitAxes = unitAxes) by reflexivity.
  rewrite Hw.
  rewrite (obtainAperture_badKron rowFootprint plainConvolve sincCtrl
             (mkExposure (strip dark) (Some unitPsf)) middle unitAxes K
             false s1 _ (Some 2) eq_refl
             (dark_determine plainConvolve sincCtrl eq_refl eq_refl eq_refl) eq_refl);
    [| cbn; lra | lra].
  cbn [fst snd]. unfold enforceMinimum. cbn [enforceMinimumRadius sincCtrl]. unfold ret.
  assert (Hshape : SourceRecord.getShape s1 = unitAxes) by (rewrite Hs1; reflexivity).
  rewrite Hshape.
  assert (Hdet : getDeterminantRadius
                   (getAxes (scaleAxes (KronAperture_ofSource s1)
                                       (K / getDeterminantRadius unitAxes))) = K).
  { unfold scaleAxes, getAxes, KronAperture_ofSource. cbn [_axes]. rewrite Hshape.
    apply getDeterminantRadius_rescale; rewrite ?getDeterminantRadius_unitAxes; lra. }
  destruct (applyAperture_sinc_edge rowFootprint edgeSinc sincCtrl
              (SourceRecord.set_usedPsfRadius true (SourceRecord.set_badRadius true s1))
              (mkExposure (strip dark) (Some unitPsf))
              (scaleAxes (KronAperture_ofSource s1) (K / getDeterminantRadius unitAxes))
              (LSST_EXCEPT LengthError "Aperture does not fit the image"))
    as (e' & Hk & Happ).
  - rewrite Hdet. pose proof epsilon_lt_1. lra.
  - unfold scaleAxes, getAxes, KronAperture_ofSource. cbn [_axes scale getB].
    rewrite Hshape, getDeterminantRadius_unitAxes. cbn. lra.
  - reflexivity.
  - reflexivity.
  - rewrite Happ. exists e'. split; [exact Hk |]. rewrite Hs1. reflexivity.
Qed.

(** The Kron radius of the PSF without extent is zero. *)
Lemma flatPsf_kronRadius : calculatePsfKronRadius flatPsf middle 0 = 0.
Proof.
  unfold calculatePsfKronRadius, flatPsf. cbn [computeShape].
  rewrite (getDeterminantRadius_circle 0 0) by lra.
  rewrite Rmax_left by lra. rewrite hypot_0_r by lra. ring.
Qed.

(** The run on the dark strip under the PSF without extent: nothing to
    fall back to. *)
Lemma dark_apply_flatPsf :
  _apply rowFootprint plainConvolve edgeSinc plainCtrl (sourceAtMiddle false)
         (mkExposure (strip dark) (Some flatPsf)) middle
  = (SourceRecord.mk 1 2 0 unitAxes false unitAxes
       true None None None None
       false true false false false None false,
     Throw (sliced
              (LSST_EXCEPT_ADD
                 (LSST_EXCEPT BadKronException "Bad integral defining Kron radius")
                 "Bad Kron aperture, no minimum radius specified, and no PSF"))).
Proof.
  rewrite apply_stages.
  destruct (selectShape_sourceAtMiddle false (strip dark) flatPsf eq_refl)
    as (s1 & Hsel & Hs1).
  rewrite Hsel. cbn [fst snd getPsf smoothingSigma plainCtrl].
  rewrite flatPsf_kronRadius.
  assert (Hw : widenByFootprint plainCtrl s1 unitAxes = unitAxes) by reflexivity.
  rewrite Hw.
  rewrite (obtainAperture_badKron_noFloor rowFootprint plainConvolve plainCtrl
             (mkExposure (strip dark) (Some flatPsf)) middle unitAxes 0
             false s1 _ (Some 2) eq_refl
             (dark_determine plainConvolve plainCtrl eq_refl eq_refl eq_refl) eq_refl);
    [| cbn; lra | lra].
  rewrite Hs1. reflexivity.
Qed.

(** C8, counterexample.  On the dark strip the solver throws its
    [BadKronException]; no minimum radius is configured and a PSF is
    available.  Under the unit PSF and with the shape flag of the source
    set, the measurement falls back to the PSF radius and records a flux,
    but returns with the failure flag set.  With sinc photometry that finds
    the fallback aperture off the image, the measurement throws a
    [LengthError] and records no flux.  Under a PSF without extent there
    is no fallback: the measurement throws, the messages of the solver's
    exception in an exception of the base class, and the PSF-radius-used
    flag stays clear. *)
Lemma badKron_fallback_counterexample :
  let degenerate := LSST_EXCEPT BadKronException "Bad integral defining Kron radius" in
  determine rowFootprint plainConvolve (strip dark) unitAxes middle plainCtrl None
  = (Throw degenerate, Some 2) /\
  determine rowFootprint plainConvolve (strip dark) unitAxes middle sincCtrl None
  = (Throw degenerate, Some 2) /\
  minimumRadius plainCtrl = 0 /\ minimumRadius sincCtrl = 0 /\
  (exists final,
     _apply rowFootprint plainConvolve edgeSinc plainCtrl (sourceAtMiddle true)
            (mkExposure (strip dark) (Some unitPsf)) middle = (final, Ok tt) /\
     SourceRecord.usedPsfRadius final = true /\
     SourceRecord.badRadius final = true /\
     SourceRecord.meas final <> None /\
     SourceRecord.flag final = true) /\
  (exists final e',
     _apply rowFootprint plainConvolve edgeSinc sincCtrl (sourceAtMiddle false)
            (mkExposure (strip dark) (Some unitPsf)) middle = (final, Throw e') /\
     kind e' = LengthError /\
     SourceRecord.meas final = None /\
     SourceRecord.flag final = true) /\
  (exists final e',
     _apply rowFootprint plainConvolve edgeSinc plainCtrl (sourceAtMiddle false)
            (mkExposure (strip dark) (Some flatPsf)) middle = (final, Throw e') /\
     kind e' = BaseException /\
     SourceRecord.usedPsfRadius final = false /\
     SourceRecord.flag final = true).
Proof.
  intros degenerate.
  split; [apply dark_determine; reflexivity |].
  split; [apply dark_determine; reflexivity |].
  split; [reflexivity |]. split; [reflexivity |].
  split; [| split].
  - destruct (dark_apply true) as (flux & fluxErr & Hrun).
    eexists. split; [exact Hrun |]. cbn.
    split; [reflexivity |]. split; [reflexivity |]. split; [discriminate | reflexivity].
  - destruct dark_apply_sinc as (e' & Hk & Hrun).
    eexists. exists e'. split; [exact Hrun |]. split; [exact Hk |]. split; reflexivity.
  - eexists. eexists. split; [exact dark_apply_flatPsf |]. repeat split.
Qed.

(** C8, on the dark strip under the unit PSF, the shape of the source
    good: the fallback flags are set, a flux is recorded, the radius
    recorded is the Kron radius of the PSF and the failure flag is
    cleared. *)
Lemma badKron_falls_back_to_psf_witness :
  let out := _apply rowFootprint plainConvolve edgeSinc plainCtrl (sourceAtMiddle false)
                    (mkExposure (strip dark) (Some unitPsf)) middle in
  SourceRecord.usedPsfRadius (fst out) = true /\
  SourceRecord.badRadius (fst out) = true /\
  (exists flux fluxErr,
     SourceRecord.meas (fst out) = Some flux /\ SourceRecord.err (fst out) = Some fluxErr) /\
  SourceRecord.radiusForRadius (fst out) = Some 2 /\
  SourceRecord.flag (fst out) = false /\
  SourceRecord.radius (fst out) = Some (calculatePsfKronRadius unitPsf middle 0).
Proof.
  intros out.
  destruct (badKron_falls_back_to_psf rowFootprint plainConvolve edgeSinc plainCtrl
              (sourceAtMiddle false) (mkExposure (strip dark) (Some unitPsf)) middle unitPsf
              (LSST_EXCEPT BadKronException "Bad integral defining Kron radius") (Some 2)
              eq_refl eq_refl (Rle_refl 0)
              (dark_determine plainConvolve plainCtrl eq_refl eq_refl eq_refl) eq_refl
              (Rlt_trans _ _ _ Rlt_0_1 (proj1 unitPsf_kronRadius)))
    as (Hpsf & Hbad & Hdone & Hfallback).
  assert (Hok : snd out = Ok tt).
  { destruct (dark_apply false) as (flux & fluxErr & Hrun). unfold out. rewrite Hrun.
    reflexivity. }
  destruct (Hdone Hok) as (Hflux & Hrfr & Hflag).
  destruct Hfallback as (_ & _ & _ & _ & Hrad).
  { change (0 < getDeterminantRadius unitAxes). rewrite getDeterminantRadius_unitAxes. lra. }
  destruct (Hrad Hok) as [Hradius _].
  split; [exact Hpsf |]. split; [exact Hbad |]. split; [exact Hflux |].
  split; [exact Hrfr |]. split; [exact Hflag | exact Hradius].
Defined.

(** C2, with a configured minimum of three: the aperture of the source
    comes back rescaled to three.  With no minimum and no PSF radius the
    [BadKronException] of the solver comes back as an exception of the
    base class, its messages kept and the context added. *)
Lemma fallbackRadius_policy_witness :
  let degenerate := LSST_EXCEPT BadKronException "Bad integral defining Kron radius" in
  let out := _fallbackRadius floorCtrl 1 degenerate (sourceAtMiddle false) in
  let thrown := _fallbackRadius plainCtrl (-1) degenerate (sourceAtMiddle false) in
  SourceRecord.badRadius (fst out) = true /\
  SourceRecord.usedMinimumRadius (fst out) = true /\
  SourceRecord.usedPsfRadius (fst out) = false /\
  (exists aperture,
     snd out = Ok aperture /\ getApertureCenter aperture = middle /\
     getDeterminantRadius (getAxes aperture) = 3) /\
  (exists e',
     snd thrown = Throw e' /\
     kind e' = BaseException /\ kind e' <> kind degenerate /\
     what e' = ["Bad integral defining Kron radius"%string;
                "Bad Kron aperture, no minimum radius specified, and no PSF"%string] /\
     SourceRecord.badRadius (fst thrown) = true).
Proof.
  intros degenerate out thrown.
  destruct (fallbackRadius_policy floorCtrl 1 degenerate (sourceAtMiddle false))
    as (Hbad & Hcases & Hrescaled).
  fold out in Hbad, Hcases.
  split; [exact Hbad |].
  destruct Hcases as [[_ Hout] | [(Hmin & _) | (Hmin & _)]];
    [| exfalso; cbn in Hmin; lra | exfalso; cbn in Hmin; lra].
  rewrite Hout. cbn [fst snd].
  split; [reflexivity |]. split; [reflexivity |].
  split.
  - eexists. split; [reflexivity |].
    destruct (Hrescaled 3) as (Hc & _ & Hr).
    + cbn [SourceRecord.getShape sourceAtMiddle]. rewrite getDeterminantRadius_unitAxes. lra.
    + lra.
    + split; [exact Hc | exact Hr].
  - destruct (fallbackRadius_policy plainCtrl (-1) degenerate (sourceAtMiddle false))
      as (Hbad' & Hcases' & _).
    fold thrown in Hbad', Hcases'.
    destruct Hcases' as [[Hmin _] | [(_ & Hp & _) | (_ & _ & Hthrown)]];
      [exfalso; cbn in Hmin; lra | exfalso; lra |].
    rewrite Hthrown. cbn [fst snd].
    eexists. split; [reflexivity |]. split; [reflexivity |].
    split; [discriminate |]. split; reflexivity.
Defined.

(** C7, on a unit aperture: a configured minimum of three raises the
    radius to three; with no minimum and no PSF the measurement throws. *)
Lemma enforceMinimum_floor_witness :
  let aperture := mkKronAperture middle unitAxes in
  let out := enforceMinimum floorCtrl (mkExposure (strip dark) (Some unitPsf))
               (calculatePsfKronRadius unitPsf middle 0) aperture (sourceAtMiddle false) in
  fst out = SourceRecord.set_smallRadius true
              (SourceRecord.set_usedMinimumRadius true (sourceAtMiddle false)) /\
  snd out = Ok (scaleAxes aperture (3 / getDeterminantRadius unitAxes)) /\
  getDeterminantRadius (getAxes (scaleAxes aperture (3 / getDeterminantRadius unitAxes))) = 3 /\
  (let run := _apply rowFootprint plainConvolve edgeSinc noFloorCtrl (sourceAtMiddle false)
                     (mkExposure (strip dark) None) middle in
   snd run = Throw (LSST_EXCEPT RuntimeError "No minimum radius and no PSF provided") /\
   SourceRecord.flag (fst run) = true /\ SourceRecord.meas (fst run) = None).
Proof.
  intros aperture out.
  assert (Hrun :
    let run := _apply rowFootprint plainConvolve edgeSinc noFloorCtrl (sourceAtMiddle false)
                      (mkExposure (strip dark) None) middle in
    snd run = Throw (LSST_EXCEPT RuntimeError "No minimum radius and no PSF provided") /\
    SourceRecord.flag (fst run) = true /\ SourceRecord.meas (fst run) = None).
  { intros run.
    set (s1 := SourceRecord.mk 1 2 0 unitAxes false unitAxes
                 true None None None None false false false false false None false).
    destruct (enforceMinimum_floor rowFootprint plainConvolve edgeSinc noFloorCtrl
                (mkExposure (strip dark) None) middle
                (KronAperture_ofSource s1) s1 eq_refl) as (_ & _ & Hthrown).
    destruct (Hthrown (sourceAtMiddle false) s1 (unitAxes, false)
                      (KronAperture_ofSource s1, None, false)
                      (LSST_EXCEPT RuntimeError "No minimum radius and no PSF provided") s1
                      eq_refl eq_refl eq_refl) as (Happ & Hflag & Hmeas).
    - unfold enforceMinimum, bind, set, ret, throw. cbn [enforceMinimumRadius noFloorCtrl
        minimumRadius getPsf]. rewrite (proj2 (Rgtb_false 0 0)) by lra. reflexivity.
    - unfold run. rewrite Happ. cbn [fst snd]. split; [reflexivity |].
      split; [exact Hflag | exact Hmeas]. }
  destruct (enforceMinimum_floor rowFootprint plainConvolve edgeSinc floorCtrl
              (mkExposure (strip dark) (Some unitPsf)) middle
              aperture (sourceAtMiddle false) eq_refl) as (Hcases & Hraised & _).
  cbn [getPsf smoothingSigma floorCtrl minimumRadius] in Hcases.
  fold out in Hcases.
  assert (Hrad : getDeterminantRadius (getAxes aperture) = 1)
    by apply getDeterminantRadius_unitAxes.
  destruct Hcases as [(Hmin & _) | [(_ & _ & Hout) | [(_ & Hle & _) |
                      [(Hmin & _) | (Hmin & _)]]]];
    try (exfalso; lra).
  rewrite Hout. cbn [fst snd].
  split; [reflexivity |]. split; [unfold aperture; cbn [getAxes _axes]; reflexivity |].
  destruct (Hraised 3) as (_ & _ & Hr); [rewrite Hrad; lra | lra |].
  split; [exact Hr | exact Hrun].
Defined.

(** C9, for a unit aperture measured in two and a half times its size. *)
Lemma measure_leaves_aperture_witness :
  let aperture := mkKronAperture middle unitAxes in
  let out := _applyAperture rowFootprint edgeSinc wideCtrl (sourceAtMiddle false)
                            (mkExposure (strip twoPeaks) None) aperture in
  snd out = Ok tt /\
  snd (fst out) = aperture /\
  SourceRecord.radius (fst (fst out)) = Some (getDeterminantRadius unitAxes) /\
  getDeterminantRadius (scale unitAxes (5 / 2)) <> getDeterminantRadius unitAxes.
Proof.
  intros aperture out.
  destruct (measure_leaves_aperture rowFootprint edgeSinc wideCtrl (sourceAtMiddle false)
              (mkExposure (strip twoPeaks) None) aperture) as (_ & Hsame & Hrec & Hdiff).
  fold out in Hsame, Hrec.
  assert (Hok : snd out = Ok tt).
  { unfold out. rewrite applyAperture_sum_path; [reflexivity | | |].
    - unfold aperture. cbn [getAxes _axes]. rewrite getDeterminantRadius_unitAxes.
      pose proof epsilon_lt_1. lra.
    - cbn. lra.
    - apply rowFootprint_inside. cbn. lra. }
  split; [exact Hok |]. split; [exact Hsame |].
  destruct (Hrec Hok) as (flux & fluxErr & _ & Hfinal).
  split; [rewrite Hfinal; reflexivity |].
  apply Hdiff.
  - unfold aperture. cbn [getAxes _axes]. rewrite getDeterminantRadius_unitAxes. lra.
  - cbn. lra.
  - cbn. lra.
Defined.

(** C10, on the dark strip under the unit PSF, the shape flag of the
    source set: a flux is recorded and the failure flag stays set. *)
Lemma apply_failure_flag_is_bad_witness :
  let final := fst (_apply rowFootprint plainConvolve edgeSinc plainCtrl (sourceAtMiddle true)
                           (mkExposure (strip dark) (Some unitPsf)) middle) in
  SourceRecord.flag final = true /\ SourceRecord.badShape final = true /\
  exists flux fluxErr,
    SourceRecord.meas final = Some flux /\ SourceRecord.err final = Some fluxErr.
Proof.
  intros final.
  assert (Hok : snd (_apply rowFootprint plainConvolve edgeSinc plainCtrl (sourceAtMiddle true)
                            (mkExposure (strip dark) (Some unitPsf)) middle) = Ok tt).
  { destruct (dark_apply true) as (flux & fluxErr & Hrun). rewrite Hrun. reflexivity. }
  destruct (apply_failure_flag_is_bad rowFootprint plainConvolve edgeSinc plainCtrl
              (sourceAtMiddle true) (mkExposure (strip dark) (Some unitPsf)) middle Hok)
    as (_ & Hshape & Hflux).
  fold final in Hshape, Hflux.
  destruct (Hshape eq_refl) as [Hflag HbadShape].
  split; [exact Hflag |]. split; [exact HbadShape | exact Hflux].
Defined.

(** C4, on the strip with two bright pixels: the first pass adopts an
    estimate above the initial radius of one, and the loop goes on from
    the adopted state with one pass left. *)
Lemma determine_radii_increase_witness :
  let states := determine_adopted rowFootprint plainConvolve (strip twoPeaks) unitAxes middle
                                  plainCtrl in
  (exists axes' estimate,
     1 < estimate /\
     fst (determine_body rowFootprint plainConvolve (strip twoPeaks) middle plainCtrl false
                         (mkKernel 1 1 100) true false 0 unitAxes 1)
     = Continue axes' estimate /\
     determine_loop rowFootprint plainConvolve (strip twoPeaks) middle plainCtrl false
                    (mkKernel 1 1 100) true false 2 0 unitAxes 1 None
     = determine_loop rowFootprint plainConvolve (strip twoPeaks) middle plainCtrl false
                      (mkKernel 1 1 100) true false 1 (0 + 1) axes' estimate
                      (Some (getDeterminantRadius (scale unitAxes (nSigmaForRadius plainCtrl))))) /\
  (Z.of_nat (List.length states) <= 2)%Z /\
  StronglySorted Rlt (getDeterminantRadius unitAxes :: map snd states) /\
  Forall (fun st : Axes * R =>
            getB (fst st) / getA (fst st) = getB unitAxes / getA unitAxes /\
            getTheta (fst st) = getTheta unitAxes /\
            getDeterminantRadius (fst st) = snd st) states /\
  (mkAxes 4 4 0 = last (map fst states) unitAxes \/
   mkAxes 4 4 0 = scale (last (map fst states) unitAxes) (nSigmaForRadius plainCtrl)).
Proof.
  intros states.
  destruct (determine_radii_increase rowFootprint plainConvolve (strip twoPeaks) middle
              plainCtrl) as (Hpass & _ & Hrun).
  split.
  - destruct (twoPeaks_moment plainConvolve plainCtrl (mkKernel 1 1 100) true false eq_refl)
      as (f & Hwin & Happ & Hgood & Hest).
    destruct (Hpass false (mkKernel 1 1 100) true false 1%nat 0%Z unitAxes 1 None
                    (strip twoPeaks) f Hwin Happ Hgood)
      as [_ [(Hle & _ & _) | (Hlt & Hcont & Hloop)]].
    + exfalso. rewrite Hest in Hle. lra.
    + eexists. eexists. split; [exact Hlt |]. split; [exact Hcont | exact Hloop].
  - destruct (Hrun unitAxes) as (Hlen & Hsorted & Hshape & Hlast & _).
    fold states in Hlen, Hsorted, Hshape, Hlast.
    split; [exact Hlen |]. split; [exact Hsorted |].
    split; [apply Hshape; cbn; lra |].
    exact (Hlast _ _ (twoPeaks_determine plainConvolve plainCtrl eq_refl eq_refl eq_refl)).
Defined.

(** C5, counterexample.  A circle of radius four about the middle of the
    strip, with a threshold of zero: its semi-minor axis exceeds the
    threshold, but its footprint exceeds the strip, and [photometer]
    returns no pair of sums: it throws the [LengthError] of the
    traversal. *)
Lemma photometer_dispatch_counterexample :
  let aperture := mkEllipse (mkAxes 4 4 0) middle in
  let pixels := getPixels (rowFootprint aperture (imageBBox (strip dark))) in
  getB (getCore aperture) > 0 /\
  photometer rowFootprint edgeSinc (strip dark) aperture 0
  <> Ok (pixelSum (imageAt (strip dark)) pixels,
         sqrt (pixelSum (varianceAt (strip dark)) pixels)) /\
  exists e,
    photometer rowFootprint edgeSinc (strip dark) aperture 0 = Throw e /\
    kind e = LengthError.
Proof.
  intros aperture pixels.
  assert (Hrun : photometer rowFootprint edgeSinc (strip dark) aperture 0
                 = Throw (LSST_EXCEPT LengthError "Footprint doesn't fit in image")).
  { unfold photometer, aperture. cbn [getCore getB].
    rewrite (proj2 (Rgtb_true 4 0)) by lra.
    unfold middle. rewrite (rowFootprint_at 2 0 4 4 4 0 2 0) by reflexivity.
    reflexivity. }
  split; [cbn; lra |].
  split; [rewrite Hrun; discriminate |].
  eexists. split; [exact Hrun | reflexivity].
Qed.

(** * Further properties *)

(** ** The Kron radius of the PSF *)

Lemma hypot_ge_l (x y : R) : 0 <= x -> x <= hypot x y.
Proof.
  intros Hx. unfold hypot. rewrite <- (sqrt_square x) at 1 by assumption.
  apply sqrt_le_1; nra.
Qed.

Lemma hypot_ge_r (x y : R) : 0 <= y -> y <= hypot x y.
Proof.
  intros Hy. unfold hypot. rewrite <- (sqrt_square y) at 1 by assumption.
  apply sqrt_le_1; nra.
Qed.

Lemma hypot_pos_iff (x y : R) : 0 <= x -> 0 <= y -> (0 < hypot x y <-> 0 < x \/ 0 < y).
Proof.
  intros Hx Hy. split.
  - intros H. destruct (Rle_lt_dec x 0) as [Hx0 | Hx0]; [| now left].
    destruct (Rle_lt_dec y 0) as [Hy0 | Hy0]; [| now right].
    exfalso. assert (x = 0) by lra. assert (y = 0) by lra. subst.
    unfold hypot in H. replace (0 * 0 + 0 * 0) with 0 in H by ring.
    rewrite sqrt_0 in H. lra.
  - intros [H | H].
    + pose proof (hypot_ge_l x y Hx). lra.
    + pose proof (hypot_ge_r x y Hy). lra.
Qed.

Lemma sqrt_half_pi_pos : 0 < sqrt (PI / 2).
Proof. apply sqrt_lt_R0. pose proof PI2_1. lra. Qed.

(** X1.  The Kron radius of the PSF is at least [sqrt (PI / 2)] times the
    determinant radius of the PSF and at least [sqrt (PI / 2)] times the
    smoothing width; a smoothing width that is not positive counts as zero,
    the radius then being [sqrt (PI / 2)] times the radius of the PSF; and
    the radius is positive exactly when the PSF has a positive radius or
    the smoothing width is positive. *)
Theorem calculatePsfKronRadius_bounds (psf : Psf) (center : Point2D) (smoothingSigma : R) :
  let r := getDeterminantRadius (computeShape psf center) in
  let R_K := calculatePsfKronRadius psf center smoothingSigma in
  sqrt (PI / 2) * r <= R_K /\
  sqrt (PI / 2) * smoothingSigma <= R_K /\
  (smoothingSigma <= 0 -> R_K = sqrt (PI / 2) * r) /\
  (0 < R_K <-> 0 < r \/ 0 < smoothingSigma).
Proof.
  intros r R_K. subst R_K. unfold calculatePsfKronRadius. fold r.
  pose proof sqrt_half_pi_pos as Hc.
  assert (Hr : 0 <= r) by apply getDeterminantRadius_nonneg.
  assert (Hm : 0 <= Rmax 0 smoothingSigma) by apply Rmax_l.
  assert (Hs : smoothingSigma <= Rmax 0 smoothingSigma) by apply Rmax_r.
  pose proof (hypot_ge_l r (Rmax 0 smoothingSigma) Hr) as H1.
  pose proof (hypot_ge_r r (Rmax 0 smoothingSigma) Hm) as H2.
  split; [nra |]. split; [nra |]. split.
  - intros Hneg. rewrite Rmax_left by assumption. now rewrite hypot_0_r.
  - pose proof (hypot_pos_iff r (Rmax 0 smoothingSigma) Hr Hm) as Hiff. split.
    + intros Hpos.
      assert (Hh : 0 < hypot r (Rmax 0 smoothingSigma)) by nra.
      apply Hiff in Hh. destruct Hh as [Hh | Hh]; [now left |].
      right. unfold Rmax in Hh. destruct (Rle_dec 0 smoothingSigma); lra.
    + intros Hor.
      assert (Hh : 0 < hypot r (Rmax 0 smoothingSigma)).
      { apply Hiff. destruct Hor as [Hor | Hor]; [now left | right; lra]. }
      nra.
Qed.

(** ** The elliptical radius of a pixel *)

Lemma hypot_rotation (dx dy theta : R) :
  hypot (dx * cos theta + dy * sin theta) (- dx * sin theta + dy * cos theta) = hypot dx dy.
Proof.
  unfold hypot. f_equal.
  pose proof (sin2_cos2 theta) as H. unfold Rsqr in H.
  replace ((dx * cos theta + dy * sin theta) * (dx * cos theta + dy * sin theta)
           + (- dx * sin theta + dy * cos theta) * (- dx * sin theta + dy * cos theta))
    with ((dx * dx + dy * dy) * (sin theta * sin theta + cos theta * cos theta)) by ring.
  rewrite H. ring.
Qed.

(** The elliptical radius away from the centre, between the distance and
    [ab] times the distance when [ab] is at least one. *)
Lemma elliptical_between (u v ab : R) :
  1 <= ab -> hypot u v <= hypot u (v * ab) <= ab * hypot u v.
Proof.
  intros Hab. unfold hypot.
  assert (Hv : 0 <= v * v) by nra.
  assert (Hu : 0 <= u * u) by nra.
  assert (Hab2 : 1 <= ab * ab) by nra.
  assert (Hvab : v * ab * (v * ab) = v * v * (ab * ab)) by ring.
  assert (Hle : v * v <= v * v * (ab * ab)) by nra.
  split.
  - apply sqrt_le_1; rewrite ?Hvab; nra.
  - assert (E : ab * sqrt (u * u + v * v) = sqrt (ab * ab * (u * u + v * v))).
    { rewrite sqrt_mult by nra. rewrite sqrt_square by lra. reflexivity. }
    rewrite E. apply sqrt_le_1; rewrite ?Hvab; nra.
Qed.

(** X2.  The radius the moment functor gives a pixel is never negative.
    For an axis ratio of at least one and a pixel half a pixel or more
    away from the centre, it lies between the distance of the pixel to the
    centre and [ab] times that distance, whatever the orientation: for a
    circular shape it is the distance itself. *)
Theorem radiusAt_between (mimage : MaskedImage) (center : Point2D) (ab theta : R) (x y : Z) :
  let f := FootprintFindMoment.make mimage center ab theta in
  let d := hypot (IZR x - getX center) (IZR y - getY center) in
  0 <= FootprintFindMoment.radiusAt f x y /\
  (1 <= ab -> 0.5 <= d ->
   d <= FootprintFindMoment.radiusAt f x y <= ab * d) /\
  (ab = 1 -> 0.5 <= d -> FootprintFindMoment.radiusAt f x y = d).
Proof.
  intros f d.
  assert (Hcases : 1 <= ab -> 0.5 <= d ->
                   d <= FootprintFindMoment.radiusAt f x y <= ab * d).
  { intros Hab Hd. unfold FootprintFindMoment.radiusAt, f, FootprintFindMoment.make.
    cbn [FootprintFindMoment._xcen FootprintFindMoment._ycen FootprintFindMoment._ab
         FootprintFindMoment._cosTheta FootprintFindMoment._sinTheta].
    fold d. rewrite (proj2 (Rltb_false d 0.5)) by exact Hd. unfold d.
    rewrite <- (hypot_rotation (IZR x - getX center) (IZR y - getY center) theta).
    now apply elliptical_between. }
  split; [| split].
  - unfold FootprintFindMoment.radiusAt. destruct (Rltb _ 0.5); apply sqrt_pos.
  - exact Hcases.
  - intros Hab Hd. specialize (Hcases ltac:(lra) Hd). rewrite Hab in Hcases. lra.
Qed.

(** ** Sums over pixels *)

Lemma pixelSum_scale (c : R) (g : Z -> Z -> R) (ps : list (Z * Z)) :
  pixelSum (fun x y => c * g x y) ps = c * pixelSum g ps.
Proof.
  induction ps as [| p ps IH]; [unfold pixelSum; simpl; ring |].
  rewrite !pixelSum_cons, IH. ring.
Qed.

Lemma pixelSum_app (g : Z -> Z -> R) (ps qs : list (Z * Z)) :
  pixelSum g (ps ++ qs) = pixelSum g ps + pixelSum g qs.
Proof.
  induction ps as [| p ps IH]; [unfold pixelSum; simpl; ring |].
  simpl app. rewrite !pixelSum_cons, IH. ring.
Qed.

Lemma pixelSum_ext (g h : Z -> Z -> R) (ps : list (Z * Z)) :
  (forall x y, g x y = h x y) -> pixelSum g ps = pixelSum h ps.
Proof.
  intros E. unfold pixelSum. f_equal. apply map_ext. intros p. apply E.
Qed.

Lemma pixelSum_le (g h : Z -> Z -> R) (ps : list (Z * Z)) :
  (forall p, In p ps -> g (fst p) (snd p) <= h (fst p) (snd p)) ->
  pixelSum g ps <= pixelSum h ps.
Proof.
  induction ps as [| p ps IH]; intros H; [unfold pixelSum; simpl; lra |].
  rewrite !pixelSum_cons.
  assert (H1 := H p (or_introl eq_refl)).
  assert (H2 : pixelSum g ps <= pixelSum h ps) by (apply IH; intros q Hq; apply H; now right).
  lra.
Qed.

(** ** The moment functor, again *)

(** On an image whose intensities are all multiplied by a positive factor
    the moment functor accepts the same footprints, reports the same
    validity and, when the moment is valid, the same mean radius. *)
Lemma scaled_moment (mimage : MaskedImage) (center : Point2D) (ab theta : R)
    (foot : Footprint) (c : R) (f : FootprintFindMoment.t) :
  0 < c ->
  FootprintFindMoment.apply mimage (FootprintFindMoment.make mimage center ab theta) foot
  = Ok f ->
  exists f',
    FootprintFindMoment.apply (scaleIntensity c mimage)
      (FootprintFindMoment.make (scaleIntensity c mimage) center ab theta) foot = Ok f' /\
    FootprintFindMoment._sum f' = c * FootprintFindMoment._sum f /\
    FootprintFindMoment._sumR f' = c * FootprintFindMoment._sumR f /\
    FootprintFindMoment.getGood f' = FootprintFindMoment.getGood f /\
    (FootprintFindMoment.getGood f = true ->
     FootprintFindMoment.getIr f' = FootprintFindMoment.getIr f).
Proof.
  intros Hc Happ.
  destruct (FootprintFindMoment_apply_cases mimage center ab theta foot)
    as [[_ [e [He _]]] | [Hfit Hok]]; [rewrite He in Happ; discriminate |].
  rewrite Hok in Happ. injection Happ as <-.
  destruct (FootprintFindMoment_apply_cases (scaleIntensity c mimage) center ab theta foot)
    as [[Hfit' _] | [_ Hok']].
  { exfalso. change (FootprintFindMoment.fits mimage
                       (FootprintFindMoment.make mimage center ab theta) foot = false)
      in Hfit'. congruence. }
  eexists. split; [exact Hok' |].
  set (r := spec_ellipticalRadius (getX center) (getY center) ab theta).
  assert (E1 : pixelSum (imageAt (scaleIntensity c mimage)) (getPixels foot)
               = c * pixelSum (imageAt mimage) (getPixels foot))
    by apply pixelSum_scale.
  assert (E2 : pixelSum (fun x y => r x y * imageAt (scaleIntensity c mimage) x y)
                        (getPixels foot)
               = c * pixelSum (fun x y => r x y * imageAt mimage x y) (getPixels foot)).
  { rewrite <- pixelSum_scale. apply pixelSum_ext. intros x y. cbn. ring. }
  unfold FootprintFindMoment.getGood, FootprintFindMoment.getIr.
  cbn [FootprintFindMoment._sum FootprintFindMoment._sumR FootprintFindMoment.setSums].
  fold r. rewrite E1, E2.
  set (s := pixelSum (imageAt mimage) (getPixels foot)).
  set (sR := pixelSum (fun x y => r x y * imageAt mimage x y) (getPixels foot)).
  split; [reflexivity |]. split; [reflexivity |]. split.
  - assert (G1 : Rgtb (c * s) 0 = Rgtb s 0).
    { destruct (Rgtb s 0) eqn:G.
      - apply Rgtb_true in G. apply Rgtb_true. nra.
      - apply Rgtb_false in G. apply Rgtb_false. nra. }
    assert (G2 : Rgtb (c * sR) 0 = Rgtb sR 0).
    { destruct (Rgtb sR 0) eqn:G.
      - apply Rgtb_true in G. apply Rgtb_true. nra.
      - apply Rgtb_false in G. apply Rgtb_false. nra. }
    now rewrite G1, G2.
  - intros Hgood. apply andb_true_iff in Hgood. destruct Hgood as [Hs _].
    apply Rgtb_true in Hs. field. lra.
Qed.

(** X3.  Over a footprint whose pixels have intensities that are not
    negative, a valid first moment is a weighted mean of the radii of the
    pixels: it is positive and at most the largest radius of a pixel of
    the footprint. *)
Theorem moment_mean_bounded (mimage : MaskedImage) (center : Point2D) (ab theta : R)
    (foot : Footprint) (f : FootprintFindMoment.t) (rmax : R) :
  (forall p, In p (getPixels foot) -> 0 <= imageAt mimage (fst p) (snd p)) ->
  (forall p, In p (getPixels foot) ->
     FootprintFindMoment.radiusAt (FootprintFindMoment.make mimage center ab theta)
                                  (fst p) (snd p) <= rmax) ->
  FootprintFindMoment.apply mimage (FootprintFindMoment.make mimage center ab theta) foot
  = Ok f ->
  FootprintFindMoment.getGood f = true ->
  0 < FootprintFindMoment.getIr f <= rmax.
Proof.
  intros Hpos Hmax Happ Hgood.
  destruct (FootprintFindMoment_apply_cases mimage center ab theta foot)
    as [[_ [e [He _]]] | [_ Hok]]; [rewrite He in Happ; discriminate |].
  rewrite Hok in Happ. injection Happ as <-.
  unfold FootprintFindMoment.getGood, FootprintFindMoment.getIr in *.
  cbn [FootprintFindMoment._sum FootprintFindMoment._sumR FootprintFindMoment.setSums] in *.
  apply andb_true_iff in Hgood. destruct Hgood as [Hs HsR].
  apply Rgtb_true in Hs, HsR.
  set (s := pixelSum (imageAt mimage) (getPixels foot)) in *.
  set (sR := pixelSum (fun x y => spec_ellipticalRadius (getX center) (getY center) ab theta
                                    x y * imageAt mimage x y) (getPixels foot)) in *.
  assert (Hle : sR <= rmax * s).
  { unfold sR, s. rewrite <- pixelSum_scale. apply pixelSum_le. intros p Hp.
    rewrite <- radiusAt_spec with (mimage := mimage).
    specialize (Hpos p Hp). specialize (Hmax p Hp). nra. }
  split.
  - apply Rdiv_lt_0_compat; lra.
  - apply Rmult_le_reg_r with s; [lra |].
    replace (sR / s * s) with sR by (field; lra). exact Hle.
Qed.

(** ** The flux functor, again *)

Lemma sqrt_quadrature (v w : R) : 0 <= v -> 0 <= w -> sqrt (v + w) = hypot (sqrt v) (sqrt w).
Proof. intros Hv Hw. unfold hypot. now rewrite !sqrt_sqrt. Qed.

(** X4.  The traversal of a footprint by the flux functor starts from
    zero, whatever the functor had accumulated; over an empty footprint it
    reports zero flux and zero variance; and over a footprint made of two
    parts the fluxes of the parts add up and, the summed variances not
    being negative, their errors add in quadrature.  An application of the
    functor returns the traversal when the bounding box of the footprint
    lies within the image, and throws a [LengthError] when it does not. *)
Theorem FootprintFlux_additive (mimage : MaskedImage) (f f1 f2 : FootprintFlux.t)
    (b b1 b2 : Box2I) (ps qs : list (Z * Z)) :
  let whole := FootprintFlux.traverse mimage f (mkFootprint b (ps ++ qs)) in
  let part1 := FootprintFlux.traverse mimage f1 (mkFootprint b1 ps) in
  let part2 := FootprintFlux.traverse mimage f2 (mkFootprint b2 qs) in
  FootprintFlux.traverse mimage f (mkFootprint b [])
  = FootprintFlux.traverse mimage FootprintFlux.make (mkFootprint b []) /\
  FootprintFlux.getSum (FootprintFlux.traverse mimage f (mkFootprint b [])) = 0 /\
  FootprintFlux.getSumVar (FootprintFlux.traverse mimage f (mkFootprint b [])) = 0 /\
  FootprintFlux.getSum whole = FootprintFlux.getSum part1 + FootprintFlux.getSum part2 /\
  FootprintFlux.getSumVar whole
  = FootprintFlux.getSumVar part1 + FootprintFlux.getSumVar part2 /\
  (0 <= FootprintFlux.getSumVar part1 -> 0 <= FootprintFlux.getSumVar part2 ->
   sqrt (FootprintFlux.getSumVar whole)
   = hypot (sqrt (FootprintFlux.getSumVar part1)) (sqrt (FootprintFlux.getSumVar part2))) /\
  (contains (imageBBox mimage) b = true ->
   FootprintFlux.apply mimage f (mkFootprint b (ps ++ qs)) = Ok whole) /\
  (contains (imageBBox mimage) b = false ->
   exists e,
     FootprintFlux.apply mimage f (mkFootprint b (ps ++ qs)) = Throw e /\
     kind e = LengthError).
Proof.
  intros whole part1 part2.
  split; [| split; [| split; [| split; [| split; [| split; [| split]]]]]].
  7:{ intros Hin. unfold FootprintFlux.apply, checkFootprint. cbn [getBBox].
      now rewrite Hin. }
  7:{ intros Hout. unfold FootprintFlux.apply, checkFootprint. cbn [getBBox].
      rewrite Hout. eexists. split; reflexivity. }
  all: subst whole part1 part2; rewrite !FootprintFlux_traverse_sums;
    cbn [getPixels FootprintFlux.getSum FootprintFlux.getSumVar FootprintFlux._sum
         FootprintFlux._sumVar];
    rewrite ?pixelSum_app; try reflexivity.
  intros H1 H2. now apply sqrt_quadrature.
Qed.

(** ** The solver, again *)

Section FurtherSolver.

Variable Footprint_ofEllipse : Ellipse -> Box2I -> Footprint.
Variable convolve : MaskedImage -> SeparableKernel -> bool -> bool -> result MaskedImage.

Local Abbreviation determine_ := (determine Footprint_ofEllipse convolve).
Local Abbreviation determine_body_ := (determine_body Footprint_ofEllipse convolve).
Local Abbreviation determine_loop_ := (determine_loop Footprint_ofEllipse convolve).

(** X5.  With an iteration count that is not positive the solver makes no
    pass: it returns the shape it was given as the aperture, about the
    centre it was given, throws nothing, reads no pixel and leaves
    [*radiusForRadius] as it found it. *)
Theorem determine_no_pass (image : MaskedImage) (axes : Axes) (center : Point2D)
    (ctrl : KronFluxControl) (radiusForRadius : option R) :
  (nIterForRadius ctrl <= 0)%Z ->
  determine_ image axes center ctrl radiusForRadius
  = (Ok (mkKronAperture center axes), radiusForRadius).
Proof.
  intros Hn. unfold determine.
  replace (Z.to_nat (nIterForRadius ctrl)) with 0%nat by lia.
  reflexivity.
Qed.

(** Without smoothing, the window of a pass is a view of the image. *)
Lemma momentWindow_plain (image : MaskedImage) (kernel : SeparableKernel)
    (doNormalize doCopyEdge : bool) (foot : Footprint) :
  momentWindow convolve image false kernel doNormalize doCopyEdge foot
  = Ok (subImageView image (clip (getBBox foot) (imageBBox image))).
Proof. reflexivity. Qed.

(** The moment functor throws nothing but its [OutOfRangeError]. *)
Lemma apply_throws_outOfRange (mimage : MaskedImage) (center : Point2D) (ab theta : R)
    (foot : Footprint) (e : Exception) :
  FootprintFindMoment.apply mimage (FootprintFindMoment.make mimage center ab theta) foot
  = Throw e ->
  kind e = OutOfRangeError.
Proof.
  intros H.
  destruct (FootprintFindMoment_apply_cases mimage center ab theta foot)
    as [[_ [e' [He' Hk]]] | [_ Hok]]; congruence.
Qed.

(** Without smoothing a pass raises nothing but the bad integral. *)
Lemma determine_body_raise_plain (image : MaskedImage) (center : Point2D)
    (ctrl : KronFluxControl) (kernel : SeparableKernel) (doNormalize doCopyEdge : bool)
    (i : Z) (axes : Axes) (radius0 : R) (e : Exception) :
  fst (determine_body_ image center ctrl false kernel doNormalize doCopyEdge i axes radius0)
  = Raise e ->
  e = LSST_EXCEPT BadKronException "Bad integral defining Kron radius".
Proof.
  unfold determine_body. rewrite momentWindow_plain.
  destruct (FootprintFindMoment.apply _ _ _) as [f | e0] eqn:Happ.
  - destruct (negb (FootprintFindMoment.getGood f)).
    + cbn [fst]. intros H; now injection H as <-.
    + destruct (Rleb _ radius0); discriminate.
  - rewrite (apply_throws_outOfRange _ _ _ _ _ _ Happ). discriminate.
Qed.

(** X6.  Without smoothing the only exception the solver throws is the
    [BadKronException] of a bad integral: an [OutOfRangeError] of the
    moment functor never leaves it. *)
Theorem determine_throws_badKron_only (image : MaskedImage) (axes : Axes) (center : Point2D)
    (ctrl : KronFluxControl) (radiusForRadius : option R) (e : Exception) :
  smoothingSigma ctrl <= 0 ->
  fst (determine_ image axes center ctrl radiusForRadius) = Throw e ->
  e = LSST_EXCEPT BadKronException "Bad integral defining Kron radius".
Proof.
  intros Hs. unfold determine. rewrite (proj2 (Rgtb_false _ _) Hs).
  generalize (getDeterminantRadius axes) as radius0.
  generalize 0%Z as i. revert axes radiusForRadius.
  induction (Z.to_nat (nIterForRadius ctrl)) as [| n IH];
    intros axes rfr i radius0; cbn [determine_loop]; [discriminate |].
  destruct (determine_body_ _ _ _ _ _ _ _ _ _ _) as [[ax | e0 | ax r] x] eqn:Hbody.
  - discriminate.
  - cbn [fst]. intros H; injection H as <-.
    eapply determine_body_raise_plain. rewrite Hbody. reflexivity.
  - apply IH.
Qed.

(** The value a pass writes to [*radiusForRadius] is the determinant
    radius of its trial ellipse. *)
Lemma determine_body_rfr (image : MaskedImage) (center : Point2D) (ctrl : KronFluxControl)
    (smoothImage : bool) (kernel : SeparableKernel) (doNormalize doCopyEdge : bool)
    (i : Z) (axes : Axes) (radius0 : R) :
  snd (determine_body_ image center ctrl smoothImage kernel doNormalize doCopyEdge
                       i axes radius0)
  = getDeterminantRadius (scale axes (nSigmaForRadius ctrl)).
Proof.
  unfold determine_body.
  destruct (momentWindow _ _ _ _ _ _ _) as [subImage | e]; [| reflexivity].
  destruct (FootprintFindMoment.apply _ _ _) as [f | e].
  - destruct (negb (FootprintFindMoment.getGood f)); [reflexivity |].
    destruct (Rleb _ radius0); reflexivity.
  - destruct (ExcKind_eqb (kind e) OutOfRangeError); reflexivity.
Qed.

(** A pass that continues from an ellipse with positive axes adopts an
    ellipse with positive axes, the same orientation and axis ratio, and
    the new estimate as its determinant radius. *)
Lemma determine_body_continue_shape (image : MaskedImage) (center : Point2D)
    (ctrl : KronFluxControl) (smoothImage : bool) (kernel : SeparableKernel)
    (doNormalize doCopyEdge : bool) (i : Z) (axes : Axes) (radius0 : R)
    (axes' : Axes) (radius : R) :
  0 < nSigmaForRadius ctrl -> 0 < getA axes -> 0 < getB axes -> 0 <= radius0 ->
  fst (determine_body_ image center ctrl smoothImage kernel doNormalize doCopyEdge
                       i axes radius0) = Continue axes' radius ->
  radius0 < radius /\ 0 < getA axes' /\ 0 < getB axes' /\
  getTheta axes' = getTheta axes /\
  getB axes' / getA axes' = getB axes / getA axes /\
  getDeterminantRadius axes' = radius.
Proof.
  intros Hs Ha Hb Hr Hbody.
  destruct (determine_body_continue _ _ _ _ _ _ _ _ _ _ _ _ _ _ Hbody) as [Hlt Hax].
  set (trial := scale axes (nSigmaForRadius ctrl)) in *.
  assert (HtA : 0 < getA trial) by (unfold trial, scale; simpl; nra).
  assert (HtB : 0 < getB trial) by (unfold trial, scale; simpl; nra).
  assert (Hdet : 0 < getDeterminantRadius trial).
  { unfold getDeterminantRadius. apply sqrt_lt_R0. nra. }
  assert (Hfac : 0 < radius / getDeterminantRadius trial).
  { apply Rdiv_lt_0_compat; lra. }
  assert (HaxA : getA axes' = getA axes * nSigmaForRadius ctrl
                              * (radius / getDeterminantRadius trial))
    by (rewrite Hax; reflexivity).
  assert (HaxB : getB axes' = getB axes * nSigmaForRadius ctrl
                              * (radius / getDeterminantRadius trial))
    by (rewrite Hax; reflexivity).
  split; [exact Hlt |].
  split; [rewrite HaxA; apply Rmult_lt_0_compat; nra |].
  split; [rewrite HaxB; apply Rmult_lt_0_compat; nra |].
  split; [rewrite Hax; reflexivity |].
  split.
  - rewrite HaxA, HaxB. field. repeat split; lra.
  - rewrite Hax. apply getDeterminantRadius_rescale; lra.
Qed.

Lemma getDeterminantRadius_pos (ax : Axes) :
  0 < getA ax -> 0 < getB ax -> 0 < getDeterminantRadius ax.
Proof. intros Ha Hb. unfold getDeterminantRadius. apply sqrt_lt_R0. nra. Qed.

(** The ellipse the loop returns, when it starts from an ellipse with
    positive axes and its determinant radius. *)
Lemma determine_loop_shape (image : MaskedImage) (center : Point2D) (ctrl : KronFluxControl)
    (smoothImage : bool) (kernel : SeparableKernel) (doNormalize doCopyEdge : bool)
    (n : nat) (i : Z) (axes : Axes) (rfr rfr' : option R) (returned : Axes) :
  0 < nSigmaForRadius ctrl -> 0 < getA axes -> 0 < getB axes ->
  determine_loop_ image center ctrl smoothImage kernel doNormalize doCopyEdge
                  n i axes (getDeterminantRadius axes) rfr = (Ok returned, rfr') ->
  0 < getA returned /\ 0 < getB returned /\
  getTheta returned = getTheta axes /\
  getB returned / getA returned = getB axes / getA axes /\
  (1 <= nSigmaForRadius ctrl ->
   getDeterminantRadius axes <= getDeterminantRadius returned).
Proof.
  intros Hs. revert i axes rfr.
  induction n as [| n IH]; intros i axes rfr Ha Hb; cbn [determine_loop].
  - intros H; injection H as <- _. repeat split; try assumption. lra.
  - destruct (determine_body_ _ _ _ _ _ _ _ _ _ _) as [[ax | e | ax r] x] eqn:Hbody.
    + intros H; injection H as <- _.
      assert (Hax : ax = scale axes (nSigmaForRadius ctrl)).
      { eapply determine_body_break. rewrite Hbody. reflexivity. }
      subst ax. unfold scale; cbn [getA getB getTheta].
      split; [nra |]. split; [nra |]. split; [reflexivity |].
      split; [field; split; lra |].
      intros H1. change (mkAxes (getA axes * nSigmaForRadius ctrl)
                                (getB axes * nSigmaForRadius ctrl) (getTheta axes))
        with (scale axes (nSigmaForRadius ctrl)).
      rewrite getDeterminantRadius_scale by lra.
      pose proof (getDeterminantRadius_nonneg axes). nra.
    + discriminate.
    + intros H.
      destruct (determine_body_continue_shape image center ctrl smoothImage kernel
                  doNormalize doCopyEdge i axes (getDeterminantRadius axes) ax r Hs Ha Hb
                  (getDeterminantRadius_nonneg axes))
        as (Hlt & HA & HB & Hth & Hratio & Hdet); [rewrite Hbody; reflexivity |].
      rewrite <- Hdet in H.
      destruct (IH _ _ _ HA HB H) as (H1 & H2 & H3 & H4 & H5).
      split; [exact H1 |]. split; [exact H2 |].
      split; [congruence |]. split; [congruence |].
      intros Hge. specialize (H5 Hge). lra.
Qed.

(** X7.  The solver only rescales: from a shape with positive axes and
    with a positive growth factor, the aperture it returns is about the
    centre it was given, has positive axes, and has the orientation and the
    axis ratio of the shape it was given; with a growth factor of at least
    one its determinant radius is at least that of the shape. *)
Theorem determine_keeps_shape (image : MaskedImage) (axes : Axes) (center : Point2D)
    (ctrl : KronFluxControl) (radiusForRadius radiusForRadius' : option R)
    (aperture : KronAperture) :
  0 < nSigmaForRadius ctrl -> 0 < getA axes -> 0 < getB axes ->
  determine_ image axes center ctrl radiusForRadius = (Ok aperture, radiusForRadius') ->
  getApertureCenter aperture = center /\
  0 < getA (getAxes aperture) /\ 0 < getB (getAxes aperture) /\
  getTheta (getAxes aperture) = getTheta axes /\
  getB (getAxes aperture) / getA (getAxes aperture) = getB axes / getA axes /\
  (1 <= nSigmaForRadius ctrl ->
   getDeterminantRadius axes <= getDeterminantRadius (getAxes aperture)).
Proof.
  intros Hs Ha Hb. unfold determine.
  destruct (determine_loop_ _ _ _ _ _ _ _ _ _ _ _ _) as [[returned | e] rfr'] eqn:Hloop;
    [| discriminate].
  intros H; injection H as <- _. cbn [getApertureCenter getAxes _center _axes].
  split; [reflexivity |].
  exact (determine_loop_shape _ _ _ _ _ _ _ _ _ _ _ _ _ Hs Ha Hb Hloop).
Qed.

(** The value the loop leaves in [*radiusForRadius] after a pass or more. *)
Lemma determine_loop_rfr (image : MaskedImage) (center : Point2D) (ctrl : KronFluxControl)
    (smoothImage : bool) (kernel : SeparableKernel) (doNormalize doCopyEdge : bool)
    (n : nat) (i : Z) (axes : Axes) (rfr : option R) :
  0 < nSigmaForRadius ctrl -> 0 < getA axes -> 0 < getB axes ->
  exists r,
    snd (determine_loop_ image center ctrl smoothImage kernel doNormalize doCopyEdge
                         (S n) i axes (getDeterminantRadius axes) rfr) = Some r /\
    nSigmaForRadius ctrl * getDeterminantRadius axes <= r.
Proof.
  intros Hs. revert i axes rfr.
  induction n as [| n IH]; intros i axes rfr Ha Hb.
  - cbn [determine_loop].
    pose proof (determine_body_rfr image center ctrl smoothImage kernel doNormalize
                  doCopyEdge i axes (getDeterminantRadius axes)) as Hx.
    rewrite getDeterminantRadius_scale in Hx by lra.
    destruct (determine_body_ _ _ _ _ _ _ _ _ _ _) as [[ax | e | ax r] x];
      cbn [snd] in *; subst x; eexists; (split; [reflexivity | lra]).
  - remember (S n) as m eqn:Hm. cbn [determine_loop].
    pose proof (determine_body_rfr image center ctrl smoothImage kernel doNormalize
                  doCopyEdge i axes (getDeterminantRadius axes)) as Hx.
    rewrite getDeterminantRadius_scale in Hx by lra.
    destruct (determine_body_ _ _ _ _ _ _ _ _ _ _) as [[ax | e | ax r] x] eqn:Hbody;
      cbn [snd] in Hx; subst x.
    + eexists. split; [reflexivity | lra].
    + eexists. split; [reflexivity | lra].
    + destruct (determine_body_continue_shape image center ctrl smoothImage kernel
                  doNormalize doCopyEdge i axes (getDeterminantRadius axes) ax r Hs Ha Hb
                  (getDeterminantRadius_nonneg axes))
        as (Hlt & HA & HB & _ & _ & Hdet); [rewrite Hbody; reflexivity |].
      subst m. rewrite <- Hdet.
      destruct (IH (i + 1)%Z ax (Some (getDeterminantRadius axes * nSigmaForRadius ctrl))
                   HA HB) as (r' & Hr' & Hle).
      exists r'. split; [exact Hr' |]. rewrite Hdet in Hle. nra.
Qed.

(** X8.  After a pass or more, whether the solver returns or throws,
    [*radiusForRadius] holds a number: the determinant radius of the trial
    ellipse of the last pass, which from a shape with positive axes and
    with a positive growth factor is at least the growth factor times the
    determinant radius of the shape. *)
Theorem determine_radiusForRadius (image : MaskedImage) (axes : Axes) (center : Point2D)
    (ctrl : KronFluxControl) (radiusForRadius : option R) :
  (0 < nIterForRadius ctrl)%Z ->
  0 < nSigmaForRadius ctrl -> 0 < getA axes -> 0 < getB axes ->
  exists r,
    snd (determine_ image axes center ctrl radiusForRadius) = Some r /\
    nSigmaForRadius ctrl * getDeterminantRadius axes <= r.
Proof.
  intros Hn Hs Ha Hb. unfold determine.
  destruct (Z.to_nat (nIterForRadius ctrl)) as [| n] eqn:Hnat; [lia |].
  match goal with
  | |- context [determine_loop_ ?im ?c ?ct ?sm ?k ?dn ?dc (S n) ?i axes ?r0 ?rf] =>
    destruct (determine_loop_rfr im c ct sm k dn dc n i axes rf Hs Ha Hb) as (r & Hr & Hle);
    destruct (determine_loop_ im c ct sm k dn dc (S n) i axes r0 rf) as [[ret | e] rfr']
  end; cbn [snd] in *; exists r; split; assumption.
Qed.

(** Without smoothing, a pass on an image whose intensities are all
    multiplied by a positive factor decides as on the image itself. *)
Lemma determine_body_scaled (image : MaskedImage) (center : Point2D) (ctrl : KronFluxControl)
    (kernel : SeparableKernel) (doNormalize doCopyEdge : bool) (i : Z) (axes : Axes)
    (radius0 c : R) :
  0 < c ->
  determine_body_ (scaleIntensity c image) center ctrl false kernel doNormalize doCopyEdge
                  i axes radius0
  = determine_body_ image center ctrl false kernel doNormalize doCopyEdge i axes radius0.
Proof.
  intros Hc. unfold determine_body. rewrite !momentWindow_plain.
  set (trial := scale axes (nSigmaForRadius ctrl)).
  set (foot := Footprint_ofEllipse (mkEllipse trial center) emptyBox).
  set (w := subImageView image (clip (getBBox foot) (imageBBox image))).
  change (subImageView (scaleIntensity c image)
            (clip (getBBox foot) (imageBBox (scaleIntensity c image))))
    with (scaleIntensity c w).
  destruct (FootprintFindMoment.apply w _ foot) as [f | e] eqn:Happ.
  - destruct (scaled_moment w center (getA trial / getB trial) (getTheta trial) foot c f
                Hc Happ) as (f' & Happ' & _ & _ & Hgood & Hir).
    rewrite Happ', Hgood.
    destruct (FootprintFindMoment.getGood f) eqn:G; cbn [negb]; [| reflexivity].
    rewrite (Hir eq_refl). reflexivity.
  - destruct (FootprintFindMoment_apply_cases (scaleIntensity c w) center
                (getA trial / getB trial) (getTheta trial) foot)
      as [[_ [e' [He' Hk']]] | [Hfit' _]].
    + rewrite He', Hk'. rewrite (apply_throws_outOfRange _ _ _ _ _ _ Happ). reflexivity.
    + exfalso.
      destruct (FootprintFindMoment_apply_cases w center (getA trial / getB trial)
                  (getTheta trial) foot) as [[Hfit _] | [_ Hok]]; [| congruence].
      change (FootprintFindMoment.fits w
                (FootprintFindMoment.make w center (getA trial / getB trial)
                                          (getTheta trial)) foot = true) in Hfit'.
      congruence.
Qed.

(** X9.  Without smoothing the solver does not depend on the scale of the
    intensities: on an image whose intensities are all multiplied by a
    positive factor it returns the same aperture and the same
    [*radiusForRadius], or throws the same exception. *)
Theorem determine_scale_invariant (image : MaskedImage) (axes : Axes) (center : Point2D)
    (ctrl : KronFluxControl) (radiusForRadius : option R) (c : R) :
  smoothingSigma ctrl <= 0 -> 0 < c ->
  determine_ (scaleIntensity c image) axes center ctrl radiusForRadius
  = determine_ image axes center ctrl radiusForRadius.
Proof.
  intros Hs Hc. unfold determine. rewrite (proj2 (Rgtb_false _ _) Hs).
  assert (Hloop : forall n i ax r0 rfr,
    determine_loop_ (scaleIntensity c image) center ctrl false (mkKernel 1 1 100) true false
                    n i ax r0 rfr
    = determine_loop_ image center ctrl false (mkKernel 1 1 100) true false n i ax r0 rfr).
  { induction n as [| n IH]; intros i ax r0 rfr; cbn [determine_loop]; [reflexivity |].
    rewrite determine_body_scaled by exact Hc.
    destruct (determine_body_ _ _ _ _ _ _ _ _ _ _) as [[ax' | e | ax' r] x];
      try reflexivity. apply IH. }
  rewrite Hloop. reflexivity.
Qed.

End FurtherSolver.

(** ** The measurement, again *)

Section FurtherApply.

Variable Footprint_ofEllipse : Ellipse -> Box2I -> Footprint.
Variable convolve : MaskedImage -> SeparableKernel -> bool -> bool -> result MaskedImage.
Variable calculateSincApertureFlux : MaskedImage -> Ellipse -> result (R * R).

Local Abbreviation photometer_ := (photometer Footprint_ofEllipse calculateSincApertureFlux).
Local Abbreviation measure_ := (measure Footprint_ofEllipse calculateSincApertureFlux).
Local Abbreviation determine_ := (determine Footprint_ofEllipse convolve).
Local Abbreviation _applyAperture_ :=
  (_applyAperture Footprint_ofEllipse calculateSincApertureFlux).
Local Abbreviation obtainAperture_ := (obtainAperture Footprint_ofEllipse convolve).
Local Abbreviation _apply_ := (_apply Footprint_ofEllipse convolve calculateSincApertureFlux).
Local Abbreviation stages_ := (apply_stages Footprint_ofEllipse convolve calculateSincApertureFlux).

Local Abbreviation atEntry source :=
  (SourceRecord.set_usedPsfRadius false
     (SourceRecord.set_usedMinimumRadius false
        (SourceRecord.set_badShape false
           (SourceRecord.set_smallRadius false
              (SourceRecord.set_badRadius false (SourceRecord.set_flag true source)))))).

Local Abbreviation psfKronRadius ctrl exposure center :=
  (match getPsf exposure with
   | Some psf => calculatePsfKronRadius psf center (smoothingSigma ctrl)
   | None => -1
   end).

(** X10.  When [_applyAperture] throws it has written no flux, no error
    and no radius, and the exception tells what it has flagged: a
    determinant radius below the machine epsilon gives the
    [UnderflowError] and the bad-radius flag, and no photometry is tried; a
    [LengthError] of the photometry gives the failure and the edge flags;
    any other exception of the photometry leaves the record as it was. *)
Theorem applyAperture_failure (ctrl : KronFluxControl) (source : SourceRecord.t)
    (exposure : Exposure) (aperture : KronAperture) (e : Exception) :
  let out := _applyAperture_ ctrl source exposure aperture in
  let rad := getDeterminantRadius (getAxes aperture) in
  snd out = Throw e ->
  SourceRecord.meas (fst (fst out)) = SourceRecord.meas source /\
  SourceRecord.err (fst (fst out)) = SourceRecord.err source /\
  SourceRecord.radius (fst (fst out)) = SourceRecord.radius source /\
  ((rad < epsilon /\
    e = LSST_EXCEPT UnderflowError "Kron radius is < epsilon for source %ld" /\
    fst (fst out) = SourceRecord.set_badRadius true source)
   \/
   (epsilon <= rad /\ kind e = LengthError /\
    snd (measure_ aperture (getMaskedImage exposure) (nRadiusForFlux ctrl) (maxSincRadius ctrl))
    = Throw e /\
    fst (fst out) = SourceRecord.set_edge true (SourceRecord.set_flag true source))
   \/
   (epsilon <= rad /\ kind e <> LengthError /\
    snd (measure_ aperture (getMaskedImage exposure) (nRadiusForFlux ctrl) (maxSincRadius ctrl))
    = Throw e /\
    fst (fst out) = source)).
Proof.
  intros out rad. subst out. unfold _applyAperture. fold rad.
  destruct (Rltb rad epsilon) eqn:Hrad.
  - cbn [fst snd]. intros H; injection H as <-.
    repeat (split; [reflexivity |]).
    left. apply Rltb_true in Hrad. repeat split; [exact Hrad].
  - apply Rltb_false in Hrad.
    destruct (measure_ aperture _ _ _) as [ap [r | e0]] eqn:Hm; cbn [fst snd];
      [discriminate |].
    destruct (ExcKind_eqb (kind e0) LengthError) eqn:Hk; cbn [fst snd];
      intros H; injection H as <-; repeat (split; [reflexivity |]).
    + right; left. apply ExcKind_eqb_eq in Hk. repeat split; assumption.
    + right; right. repeat split; try assumption.
      intros Hk'. apply ExcKind_eqb_eq in Hk'. congruence.
Qed.

(** *** What a failing [_apply] leaves behind *)

Lemma failureKept_refl (s : SourceRecord.t) : failureKept s s.
Proof. unfold failureKept. repeat split; auto. Qed.

Lemma failureKept_trans (s1 s2 s3 : SourceRecord.t) :
  failureKept s1 s2 -> failureKept s2 s3 -> failureKept s1 s3.
Proof.
  unfold failureKept. intros (F1 & M1 & E1 & R1 & Q1 & P1) (F2 & M2 & E2 & R2 & Q2 & P2).
  repeat split; try congruence. auto.
Qed.

Lemma selectShape_kept (exposure : Exposure) (s : SourceRecord.t) :
  failureKept s (fst (selectShape exposure s)).
Proof.
  unfold selectShape, bind, getSource, set, ret, throw.
  destruct (negb (SourceRecord.getShapeFlag s)); [apply failureKept_refl |].
  destruct (getPsf exposure); cbn [fst]; unfold failureKept; cbn; repeat split; auto.
Qed.

Lemma fallbackRadius_kept (ctrl : KronFluxControl) (R_K_psf : R) (exc : Exception)
    (s : SourceRecord.t) :
  failureKept s (fst (_fallbackRadius ctrl R_K_psf exc s)).
Proof.
  unfold _fallbackRadius, bind, getSource, set, ret, throw.
  destruct (Rgtb (minimumRadius ctrl) 0); [| destruct (Rgtb R_K_psf 0)];
    cbn [fst]; unfold failureKept; cbn; repeat split; auto.
Qed.

Lemma obtainAperture_kept (ctrl : KronFluxControl) (exposure : Exposure) (center : Point2D)
    (axes : Axes) (R_K_psf : R) (bad : bool) (s : SourceRecord.t) :
  failureKept s (fst (obtainAperture_ ctrl exposure center axes R_K_psf bad s)).
Proof.
  unfold obtainAperture.
  destruct (fixed ctrl); [apply failureKept_refl |].
  destruct (determine_ _ _ _ _ _) as [[ap | e] rfr]; [apply failureKept_refl |].
  destruct (ExcKind_eqb (kind e) OutOfRangeError).
  - unfold bind, set, throw; cbn [fst]. unfold failureKept; cbn; repeat split; auto.
  - pose proof (fallbackRadius_kept ctrl R_K_psf e s) as H.
    destruct (ExcKind_eqb (kind e) BadKronException); unfold bind, ret;
      destruct (_fallbackRadius ctrl R_K_psf e s) as [s' [a | e']]; exact H.
Qed.

Lemma enforceMinimum_kept (ctrl : KronFluxControl) (exposure : Exposure) (R_K_psf : R)
    (aperture : KronAperture) (s : SourceRecord.t) :
  failureKept s (fst (enforceMinimum ctrl exposure R_K_psf aperture s)).
Proof.
  unfold enforceMinimum, bind, set, ret, throw.
  destruct (enforceMinimumRadius ctrl); [| apply failureKept_refl].
  destruct (Rgtb (minimumRadius ctrl) 0).
  - destruct (Rltb _ (minimumRadius ctrl)); cbn [fst];
      destruct (Rneqb _ _); unfold failureKept; cbn; repeat split; auto.
  - destruct (getPsf exposure); [| apply failureKept_refl].
    destruct (Rltb _ R_K_psf); cbn [fst];
      destruct (Rneqb _ _); unfold failureKept; cbn; repeat split; auto.
Qed.

Lemma applyAperture_kept (ctrl : KronFluxControl) (exposure : Exposure)
    (aperture : KronAperture) (s : SourceRecord.t) (e : Exception) :
  snd (_applyAperture_ ctrl s exposure aperture) = Throw e ->
  failureKept s (fst (fst (_applyAperture_ ctrl s exposure aperture))).
Proof.
  unfold _applyAperture.
  destruct (Rltb _ epsilon); cbn [fst snd];
    [intros _; unfold failureKept; cbn; repeat split; auto |].
  destruct (measure_ aperture _ _ _) as [ap [r | e0]]; cbn [fst snd]; [discriminate |].
  destruct (ExcKind_eqb (kind e0) LengthError); cbn [fst snd]; intros _;
    unfold failureKept; cbn; repeat split; auto.
Qed.

(** X11.  An [_apply] that throws leaves the failure flag set and has
    written none of its values: flux, error, radius, radius for radius and
    PSF radius are those the record held before the call. *)
Theorem apply_throw_leaves_values (ctrl : KronFluxControl) (source : SourceRecord.t)
    (exposure : Exposure) (center : Point2D) (e : Exception) :
  let final := fst (_apply_ ctrl source exposure center) in
  snd (_apply_ ctrl source exposure center) = Throw e ->
  SourceRecord.flag final = true /\
  SourceRecord.meas final = SourceRecord.meas source /\
  SourceRecord.err final = SourceRecord.err source /\
  SourceRecord.radius final = SourceRecord.radius source /\
  SourceRecord.radiusForRadius final = SourceRecord.radiusForRadius source /\
  SourceRecord.psfRadius final = SourceRecord.psfRadius source.
Proof.
  intros final Hthrow. subst final.
  assert (K : failureKept (atEntry source) (fst (_apply_ ctrl source exposure center))).
  { rewrite stages_ in *.
    pose proof (selectShape_kept exposure (atEntry source)) as K1.
    destruct (selectShape exposure (atEntry source)) as [s1 [shape | e1]];
      cbn [fst] in *; [| exact K1].
    pose proof (obtainAperture_kept ctrl exposure center
                  (widenByFootprint ctrl s1 (fst shape))
                  (psfKronRadius ctrl exposure center) (snd shape) s1) as K2.
    destruct (obtainAperture_ _ _ _ _ _ _ s1) as [s2 [found | e2]];
      cbn [fst] in *; [| exact (failureKept_trans _ _ _ K1 K2)].
    pose proof (enforceMinimum_kept ctrl exposure (psfKronRadius ctrl exposure center)
                  (fst (fst found)) s2) as K3.
    destruct (enforceMinimum _ _ _ _ s2) as [s3 [aperture | e3]];
      cbn [fst] in *;
      [| exact (failureKept_trans _ _ _ K1 (failureKept_trans _ _ _ K2 K3))].
    pose proof (applyAperture_kept ctrl exposure aperture s3) as K4.
    destruct (_applyAperture_ ctrl s3 exposure aperture) as [[s4 ap4] [u | e4]];
      cbn [fst snd] in *; [discriminate |].
    exact (failureKept_trans _ _ _ K1
             (failureKept_trans _ _ _ K2 (failureKept_trans _ _ _ K3 (K4 e4 eq_refl)))). }
  destruct K as (F & M & E & Rd & Q & P).
  split; [apply F; reflexivity |]. repeat split; assumption.
Qed.

(** *** The edge flag *)

Lemma selectShape_edge (exposure : Exposure) (s : SourceRecord.t) :
  SourceRecord.edge (fst (selectShape exposure s)) = SourceRecord.edge s.
Proof.
  unfold selectShape, bind, getSource, set, ret, throw.
  destruct (negb (SourceRecord.getShapeFlag s)); [reflexivity |].
  destruct (getPsf exposure); reflexivity.
Qed.

Lemma fallbackRadius_edge (ctrl : KronFluxControl) (R_K_psf : R) (exc : Exception)
    (s : SourceRecord.t) :
  SourceRecord.edge (fst (_fallbackRadius ctrl R_K_psf exc s)) = SourceRecord.edge s.
Proof.
  unfold _fallbackRadius, bind, getSource, set, ret, throw.
  destruct (Rgtb (minimumRadius ctrl) 0); [| destruct (Rgtb R_K_psf 0)]; reflexivity.
Qed.

Lemma obtainAperture_edge (ctrl : KronFluxControl) (exposure : Exposure) (center : Point2D)
    (axes : Axes) (R_K_psf : R) (bad : bool) (s : SourceRecord.t) :
  let out := obtainAperture_ ctrl exposure center axes R_K_psf bad s in
  SourceRecord.edge (fst out) = SourceRecord.edge s \/
  (SourceRecord.edge (fst out) = true /\
   exists e, snd out = Throw e /\ kind e = OutOfRangeError).
Proof.
  cbv zeta. unfold obtainAperture.
  destruct (fixed ctrl); [left; reflexivity |].
  destruct (determine_ _ _ _ _ _) as [[ap | e] rfr]; [left; reflexivity |].
  destruct (ExcKind_eqb (kind e) OutOfRangeError) eqn:Hk.
  - right. apply ExcKind_eqb_eq in Hk. split; [reflexivity |]. now exists e.
  - left. pose proof (fallbackRadius_edge ctrl R_K_psf e s) as H.
    destruct (ExcKind_eqb (kind e) BadKronException); unfold bind, ret;
      destruct (_fallbackRadius ctrl R_K_psf e s) as [s' [a | e']]; exact H.
Qed.

Lemma enforceMinimum_edge (ctrl : KronFluxControl) (exposure : Exposure) (R_K_psf : R)
    (aperture : KronAperture) (s : SourceRecord.t) :
  SourceRecord.edge (fst (enforceMinimum ctrl exposure R_K_psf aperture s))
  = SourceRecord.edge s.
Proof.
  unfold enforceMinimum, bind, set, ret, throw.
  destruct (enforceMinimumRadius ctrl); [| reflexivity].
  destruct (Rgtb (minimumRadius ctrl) 0).
  - destruct (Rltb _ (minimumRadius ctrl)); cbn [fst]; destruct (Rneqb _ _); reflexivity.
  - destruct (getPsf exposure); [| reflexivity].
    destruct (Rltb _ R_K_psf); cbn [fst]; destruct (Rneqb _ _); reflexivity.
Qed.

Lemma applyAperture_edge (ctrl : KronFluxControl) (exposure : Exposure)
    (aperture : KronAperture) (s : SourceRecord.t) :
  let out := _applyAperture_ ctrl s exposure aperture in
  SourceRecord.edge (fst (fst out)) = SourceRecord.edge s \/
  (SourceRecord.edge (fst (fst out)) = true /\
   exists e, snd out = Throw e /\ kind e = LengthError).
Proof.
  cbv zeta. unfold _applyAperture.
  destruct (Rltb _ epsilon); [left; reflexivity |].
  destruct (measure_ aperture _ _ _) as [ap [r | e0]]; [left; reflexivity |].
  destruct (ExcKind_eqb (kind e0) LengthError) eqn:Hk; [| left; reflexivity].
  right. apply ExcKind_eqb_eq in Hk. split; [reflexivity |]. now exists e0.
Qed.

(** X12.  [_apply] never clears the edge flag, and sets it only on its way
    out with an [OutOfRangeError] or a [LengthError]: a record whose edge
    flag was clear before the call and is set after it comes with such an
    exception. *)
Theorem apply_edge_flag (ctrl : KronFluxControl) (source : SourceRecord.t)
    (exposure : Exposure) (center : Point2D) :
  let out := _apply_ ctrl source exposure center in
  (SourceRecord.edge source = true -> SourceRecord.edge (fst out) = true) /\
  (SourceRecord.edge source = false -> SourceRecord.edge (fst out) = true ->
   exists e, snd out = Throw e /\ (kind e = OutOfRangeError \/ kind e = LengthError)).
Proof.
  cbv zeta.
  assert (H : SourceRecord.edge (fst (_apply_ ctrl source exposure center))
              = SourceRecord.edge source \/
              (SourceRecord.edge (fst (_apply_ ctrl source exposure center)) = true /\
               exists e, snd (_apply_ ctrl source exposure center) = Throw e /\
                         (kind e = OutOfRangeError \/ kind e = LengthError))).
  { rewrite stages_.
    pose proof (selectShape_edge exposure (atEntry source)) as E1.
    change (SourceRecord.edge (atEntry source)) with (SourceRecord.edge source) in E1.
    destruct (selectShape exposure (atEntry source)) as [s1 [shape | e1]];
      cbn [fst snd] in *; [| left; exact E1].
    pose proof (obtainAperture_edge ctrl exposure center
                  (widenByFootprint ctrl s1 (fst shape))
                  (psfKronRadius ctrl exposure center) (snd shape) s1) as E2.
    cbv zeta in E2.
    destruct (obtainAperture_ _ _ _ _ _ _ s1) as [s2 [found | e2]]; cbn [fst snd] in *.
    2:{ destruct E2 as [E2 | [E2 [e [He Hk]]]]; [left; congruence |].
        injection He as ->.
        right. split; [exact E2 |]. exists e. split; [reflexivity | now left]. }
    assert (E2' : SourceRecord.edge s2 = SourceRecord.edge source).
    { destruct E2 as [E2 | [_ [e [He _]]]]; [congruence | discriminate]. }
    pose proof (enforceMinimum_edge ctrl exposure (psfKronRadius ctrl exposure center)
                  (fst (fst found)) s2) as E3.
    destruct (enforceMinimum _ _ _ _ s2) as [s3 [aperture | e3]];
      cbn [fst snd] in *; [| left; congruence].
    pose proof (applyAperture_edge ctrl exposure aperture s3) as E4. cbv zeta in E4.
    destruct (_applyAperture_ ctrl s3 exposure aperture) as [[s4 ap4] [u | e4]];
      cbn [fst snd] in *.
    - left. destruct E4 as [E4 | [_ [e [He _]]]]; [| discriminate].
      cbn. congruence.
    - destruct E4 as [E4 | [E4 [e [He Hk]]]]; [left; congruence |].
      injection He as ->.
      right. split; [exact E4 |]. exists e. split; [reflexivity | now right]. }
  split.
  - intros Hs. destruct H as [H | [H _]]; congruence.
  - intros Hs Hf. destruct H as [H | [_ H]]; [congruence | exact H].
Qed.

(** X13.  A source whose shape is flagged, on an exposure without a PSF,
    is not measured: [_apply] throws the [RuntimeError] of the missing PSF
    at once, with the failure flag set, the five secondary flags reset and
    the bad-shape flag not set. *)
Theorem apply_bad_shape_no_psf (ctrl : KronFluxControl) (source : SourceRecord.t)
    (exposure : Exposure) (center : Point2D) :
  SourceRecord.getShapeFlag source = true -> getPsf exposure = None ->
  _apply_ ctrl source exposure center
  = (atEntry source, Throw (LSST_EXCEPT RuntimeError "Bad shape and no PSF")).
Proof.
  intros Hflag Hpsf. rewrite stages_.
  unfold selectShape, bind, getSource. cbn [SourceRecord.getShapeFlag SourceRecord.set_flag
    SourceRecord.set_badRadius SourceRecord.set_smallRadius SourceRecord.set_badShape
    SourceRecord.set_usedMinimumRadius SourceRecord.set_usedPsfRadius].
  rewrite Hflag, Hpsf. reflexivity.
Qed.

(** The radius [_applyAperture] records on success. *)
Lemma applyAperture_ok_radius (ctrl : KronFluxControl) (exposure : Exposure)
    (aperture aperture' : KronAperture) (s s' : SourceRecord.t) (u : unit) :
  _applyAperture_ ctrl s exposure aperture = ((s', aperture'), Ok u) ->
  epsilon <= getDeterminantRadius (getAxes aperture) /\
  SourceRecord.radius s' = Some (getDeterminantRadius (getAxes aperture)).
Proof.
  unfold _applyAperture.
  destruct (Rltb _ epsilon) eqn:Hrad; [discriminate |].
  apply Rltb_false in Hrad. unfold measure.
  destruct (photometer_ _ _ _) as [r | e0].
  - intros H; injection H as <- _. split; [exact Hrad | reflexivity].
  - destruct (ExcKind_eqb (kind e0) LengthError); discriminate.
Qed.

(** X14.  A record [_apply] has measured holds a radius that is not below
    the machine epsilon, and as its PSF radius the Kron radius of the PSF,
    or [-1] when the exposure has none.  In the fixed mode no radius for
    radius is recorded, and unless a minimum is enforced the recorded
    radius is the determinant radius of the shape of the source itself. *)
Theorem apply_success_record (ctrl : KronFluxControl) (source : SourceRecord.t)
    (exposure : Exposure) (center : Point2D) :
  let final := fst (_apply_ ctrl source exposure center) in
  snd (_apply_ ctrl source exposure center) = Ok tt ->
  (exists r, SourceRecord.radius final = Some r /\ epsilon <= r) /\
  SourceRecord.psfRadius final = Some (psfKronRadius ctrl exposure center) /\
  (getPsf exposure = None -> SourceRecord.psfRadius final = Some (-1)) /\
  (fixed ctrl = true ->
   SourceRecord.radiusForRadius final = None /\
   (enforceMinimumRadius ctrl = false ->
    SourceRecord.radius final
    = Some (getDeterminantRadius (SourceRecord.getShape source)))).
Proof.
  intros final. subst final. rewrite stages_.
  destruct (selectShape exposure (atEntry source)) as [s1 [shape | e1]] eqn:H1;
    [| discriminate].
  destruct (obtainAperture_ _ _ _ _ _ _ s1) as [s2 [found | e2]] eqn:H2; [| discriminate].
  destruct (enforceMinimum _ _ _ _ s2) as [s3 [aperture | e3]] eqn:H3; [| discriminate].
  destruct (_applyAperture_ ctrl s3 exposure aperture) as [[s4 ap4] [u | e4]] eqn:H4;
    [| discriminate].
  intros _. cbn [fst].
  destruct (applyAperture_ok_radius _ _ _ _ _ _ _ H4) as [Heps Hrad].
  split; [exists (getDeterminantRadius (getAxes aperture)); split; [exact Hrad | exact Heps] |].
  split; [reflexivity |].
  split; [intros Hpsf; cbn; now rewrite Hpsf |].
  intros Hfixed. unfold obtainAperture in H2. rewrite Hfixed in H2.
  unfold bind, getSource, ret in H2. injection H2 as <- <-.
  split; [reflexivity |].
  intros Henf. unfold enforceMinimum in H3. rewrite Henf in H3.
  unfold ret in H3. injection H3 as <- <-.
  cbn [SourceRecord.radius SourceRecord.set_flag SourceRecord.set_psfRadius
       SourceRecord.set_radiusForRadius]. rewrite Hrad.
  cbn [fst getAxes KronAperture_ofSource _axes].
  assert (Hshape : SourceRecord.getShape s1 = SourceRecord.getShape source).
  { unfold selectShape, bind, getSource, set, ret, throw in H1.
    destruct (negb _); [injection H1 as <- _; reflexivity |].
    destruct (getPsf exposure); [injection H1 as <- _; reflexivity | discriminate]. }
  now rewrite Hshape.
Qed.

(** X15.  A floor that is enforced but not given (no positive minimum
    radius) needs the PSF: on an exposure without one [_apply] never
    returns, whatever the source; it throws, and by then the failure flag
    is set. *)
Theorem apply_needs_floor_or_psf (ctrl : KronFluxControl) (source : SourceRecord.t)
    (exposure : Exposure) (center : Point2D) :
  enforceMinimumRadius ctrl = true -> minimumRadius ctrl <= 0 -> getPsf exposure = None ->
  exists e,
    snd (_apply_ ctrl source exposure center) = Throw e /\
    SourceRecord.flag (fst (_apply_ ctrl source exposure center)) = true.
Proof.
  intros Henf Hmin Hpsf.
  assert (H : exists e, snd (_apply_ ctrl source exposure center) = Throw e).
  { rewrite stages_.
    destruct (selectShape exposure (atEntry source)) as [s1 [shape | e1]];
      [| now exists e1].
    destruct (obtainAperture_ _ _ _ _ _ _ s1) as [s2 [found | e2]]; [| now exists e2].
    unfold enforceMinimum. rewrite Henf, (proj2 (Rgtb_false _ _) Hmin), Hpsf.
    unfold bind, throw. eexists. reflexivity. }
  destruct H as [e He]. exists e. split; [exact He |].
  pose proof (selectShape_kept exposure (atEntry source)) as K1.
  revert He. rewrite stages_.
  destruct (selectShape exposure (atEntry source)) as [s1 [shape | e1]];
    cbn [fst snd] in *; [| intros _; now apply K1].
  pose proof (obtainAperture_kept ctrl exposure center
                (widenByFootprint ctrl s1 (fst shape))
                (psfKronRadius ctrl exposure center) (snd shape) s1) as K2.
  destruct (obtainAperture_ _ _ _ _ _ _ s1) as [s2 [found | e2]];
    cbn [fst snd] in *; [| intros _; apply K2, K1; reflexivity].
  pose proof (enforceMinimum_kept ctrl exposure (psfKronRadius ctrl exposure center)
                (fst (fst found)) s2) as K3.
  destruct (enforceMinimum _ _ _ _ s2) as [s3 [aperture | e3]];
    cbn [fst snd] in *; [| intros _; apply K3, K2, K1; reflexivity].
  pose proof (applyAperture_kept ctrl exposure aperture s3) as K4.
  destruct (_applyAperture_ ctrl s3 exposure aperture) as [[s4 ap4] [u | e4]];
    cbn [fst snd] in *; [discriminate |].
  intros _. apply (K4 e4 eq_refl), K3, K2, K1. reflexivity.
Qed.

(** X16.  When the solver throws anything but an [OutOfRangeError], no
    minimum radius is configured and the exposure has no PSF, there is no
    radius to fall back to: the PSF radius [_apply] holds is [-1], and
    the exception [_fallbackRadius] throws leaves [_apply]: an exception of
    the base class that carries the messages of the solver's exception and
    the context of the fallback after them.  The bad-radius flag is set
    and neither fallback flag. *)
Theorem apply_fallback_exhausted (ctrl : KronFluxControl) (source : SourceRecord.t)
    (exposure : Exposure) (center : Point2D) (e : Exception) (rfr : option R) :
  fixed ctrl = false -> SourceRecord.getShapeFlag source = false ->
  getPsf exposure = None -> minimumRadius ctrl <= 0 ->
  determine_ (getMaskedImage exposure)
             (widenByFootprint ctrl source (SourceRecord.getShape source)) center ctrl None
  = (Throw e, rfr) ->
  kind e <> OutOfRangeError ->
  _apply_ ctrl source exposure center
  = (SourceRecord.set_badRadius true (atEntry source),
     Throw {| kind := BaseException;
              what := what e ++
                ["Bad Kron aperture, no minimum radius specified, and no PSF"%string] |}).
Proof.
  intros Hfixed Hflag Hpsf Hmin Hdet Hk. rewrite stages_.
  unfold selectShape, bind, getSource. cbn [SourceRecord.getShapeFlag SourceRecord.set_flag
    SourceRecord.set_badRadius SourceRecord.set_smallRadius SourceRecord.set_badShape
    SourceRecord.set_usedMinimumRadius SourceRecord.set_usedPsfRadius].
  rewrite Hflag. cbn [negb]. unfold ret at 1. cbn [fst snd].
  rewrite (widenByFootprint_ext ctrl _ source) by reflexivity.
  change (SourceRecord.getShape (atEntry source)) with (SourceRecord.getShape source).
  unfold obtainAperture. rewrite Hfixed, Hdet, Hpsf.
  assert (Hk' : ExcKind_eqb (kind e) OutOfRangeError = false).
  { destruct (ExcKind_eqb (kind e) OutOfRangeError) eqn:E; [| reflexivity].
    apply ExcKind_eqb_eq in E. contradiction. }
  rewrite Hk'.
  unfold _fallbackRadius, bind, set, throw, ret.
  rewrite (proj2 (Rgtb_false _ _) Hmin), (proj2 (Rgtb_false (-1) 0)) by lra.
  destruct (ExcKind_eqb (kind e) BadKronException); reflexivity.
Qed.

(** X17.  The widening by the footprint only rescales the shape, and makes
    the first trial ellipse of the solver at least as large as the
    footprint: for a shape with positive axes and a positive growth factor,
    orientation and axis ratio are those of the shape, and the determinant
    radius times the growth factor is the larger of that of the shape times
    the growth factor and [sqrt 2] times that of the footprint's shape. *)
Theorem widenByFootprint_radius (ctrl : KronFluxControl) (source : SourceRecord.t)
    (axes : Axes) :
  0 < nSigmaForRadius ctrl -> 0 < getA axes -> 0 < getB axes ->
  let widened := widenByFootprint ctrl source axes in
  getTheta widened = getTheta axes /\
  getB widened / getA widened = getB axes / getA axes /\
  getDeterminantRadius widened * nSigmaForRadius ctrl
  = (if useFootprintRadius ctrl then
       Rmax (getDeterminantRadius axes * nSigmaForRadius ctrl)
            (sqrt 2 * getDeterminantRadius (SourceRecord.getFootprintShape source))
     else getDeterminantRadius axes * nSigmaForRadius ctrl).
Proof.
  intros Hs Ha Hb widened. subst widened. unfold widenByFootprint.
  destruct (useFootprintRadius ctrl); [| repeat split; reflexivity].
  assert (Hdet : 0 < getDeterminantRadius axes)
    by (unfold getDeterminantRadius; apply sqrt_lt_R0; nra).
  assert (H2 : 0 <= sqrt 2) by apply sqrt_pos.
  rewrite (getDeterminantRadius_scale (SourceRecord.getFootprintShape source) (sqrt 2)) by exact H2.
  set (foot := getDeterminantRadius (SourceRecord.getFootprintShape source)).
  destruct (Rgtb (foot * sqrt 2) _) eqn:Hgt.
  - apply Rgtb_true in Hgt.
    assert (Hfoot : 0 < foot * sqrt 2 / nSigmaForRadius ctrl).
    { apply Rdiv_lt_0_compat; [| exact Hs]. nra. }
    split; [reflexivity |]. split.
    + cbn [scale getA getB].
      set (k := foot * sqrt 2 / nSigmaForRadius ctrl / getDeterminantRadius axes).
      assert (Hk : 0 < k) by (apply Rdiv_lt_0_compat; lra).
      field. split; lra.
    + rewrite getDeterminantRadius_rescale by lra.
      rewrite Rmax_right by lra. field. lra.
  - apply Rgtb_false in Hgt. split; [reflexivity |]. split; [reflexivity |].
    rewrite Rmax_left by lra. reflexivity.
Qed.

(** X18.  Enforcing the minimum twice is enforcing it once: on the
    aperture it returns, with the record it leaves, [enforceMinimum]
    changes neither. *)
Theorem enforceMinimum_idempotent (ctrl : KronFluxControl) (exposure : Exposure)
    (R_K_psf : R) (aperture aperture' : KronAperture) (s s' : SourceRecord.t) :
  0 < getDeterminantRadius (getAxes aperture) ->
  enforceMinimum ctrl exposure R_K_psf aperture s = (s', Ok aperture') ->
  enforceMinimum ctrl exposure R_K_psf aperture' s' = (s', Ok aperture').
Proof.
  intros Hrad. unfold enforceMinimum, bind, set, ret, throw.
  destruct (enforceMinimumRadius ctrl); [| intros H; injection H as <- <-; reflexivity].
  set (rad := getDeterminantRadius (getAxes aperture)) in *.
  destruct (Rgtb (minimumRadius ctrl) 0) eqn:Hmin.
  - apply Rgtb_true in Hmin.
    destruct (Rltb rad (minimumRadius ctrl)) eqn:Hlt.
    + apply Rltb_true in Hlt.
      rewrite (proj2 (Rneqb_true _ _)) by lra.
      intros H; injection H as <- <-.
      assert (Hnew : getDeterminantRadius (getAxes (scaleAxes aperture (minimumRadius ctrl / rad)))
                     = minimumRadius ctrl).
      { apply (getDeterminantRadius_rescale (getAxes aperture)); fold rad; lra. }
      rewrite Hnew. rewrite (proj2 (Rltb_false _ _)) by lra.
      now rewrite Rneqb_refl.
    + rewrite Rneqb_refl. intros H; injection H as <- <-.
      fold rad. rewrite Hlt. now rewrite Rneqb_refl.
  - destruct (getPsf exposure); [| discriminate].
    destruct (Rltb rad R_K_psf) eqn:Hlt.
    + apply Rltb_true in Hlt.
      rewrite (proj2 (Rneqb_true _ _)) by lra.
      intros H; injection H as <- <-.
      assert (Hnew : getDeterminantRadius (getAxes (scaleAxes aperture (R_K_psf / rad)))
                     = R_K_psf).
      { apply (getDeterminantRadius_rescale (getAxes aperture)); fold rad; lra. }
      rewrite Hnew. rewrite (proj2 (Rltb_false _ _)) by lra.
      now rewrite Rneqb_refl.
    + rewrite Rneqb_refl. intros H; injection H as <- <-.
      fold rad. rewrite Hlt. now rewrite Rneqb_refl.
Qed.

End FurtherApply.

(** ** The window of a pass and the convolution *)

(** X19.  Without smoothing the moment functor is applied to the part of
    the image under the bounding box of the trial footprint, and its check
    of the footprint against that window is a check against the image: for
    a footprint and an image that are not empty, the footprint fits the
    window exactly when its bounding box lies within the bounding box of
    the image. *)
Theorem momentWindow_fits_iff_inside
    (convolve : MaskedImage -> SeparableKernel -> bool -> bool -> result MaskedImage)
    (image : MaskedImage) (kernel : SeparableKernel) (doNormalize doCopyEdge : bool)
    (foot : Footprint) (center : Point2D) (ab theta : R) :
  isEmpty (getBBox foot) = false -> isEmpty (imageBBox image) = false ->
  exists window,
    momentWindow convolve image false kernel doNormalize doCopyEdge foot = Ok window /\
    (FootprintFindMoment.fits window (FootprintFindMoment.make window center ab theta) foot
     = true
     <->
     (getMinX (imageBBox image) <= getMinX (getBBox foot) /\
      getMinY (imageBBox image) <= getMinY (getBBox foot) /\
      getMaxX (getBBox foot) <= getMaxX (imageBBox image) /\
      getMaxY (getBBox foot) <= getMaxY (imageBBox image))%Z).
Proof.
  intros Hfoot Himage. eexists. split; [reflexivity |].
  unfold FootprintFindMoment.fits, FootprintFindMoment.make, subImageView, clip,
    getX0, getY0, getImageWidth, getImageHeight.
  cbn [negb imageBBox FootprintFindMoment._imageX0 FootprintFindMoment._imageY0
       FootprintFindMoment.setSums].
  rewrite Hfoot, Himage.
  destruct (getBBox foot) as [fx fy fw fh]. destruct (imageBBox image) as [ix iy iw ih].
  unfold isEmpty, getMaxX, getMaxY, boxOfCorners, emptyBox in *.
  cbn [getMinX getMinY getWidth getHeight] in *.
  apply orb_false_iff in Hfoot, Himage.
  destruct Hfoot as [Hfw Hfh], Himage as [Hiw Hih].
  apply Z.leb_gt in Hfw, Hfh, Hiw, Hih.
  rewrite negb_true_iff, !orb_false_iff, !Z.geb_leb.
  destruct ((Z.min (fx + fw - 1) (ix + iw - 1) <? Z.max fx ix)%Z
            || (Z.min (fy + fh - 1) (iy + ih - 1) <? Z.max fy iy)%Z) eqn:Hout;
    cbn [getMinX getMinY getWidth getHeight].
  - apply orb_true_iff in Hout. rewrite !Z.ltb_lt in Hout.
    rewrite !Z.ltb_ge, !Z.leb_gt. lia.
  - apply orb_false_iff in Hout. rewrite !Z.ltb_ge in Hout.
    rewrite !Z.ltb_ge, !Z.leb_gt. lia.
Qed.

(** X20.  Without smoothing the solver never calls the convolution: it
    gives the same outcome whatever the convolution would do. *)
Theorem determine_ignores_convolve
    (Footprint_ofEllipse : Ellipse -> Box2I -> Footprint)
    (convolve convolve' : MaskedImage -> SeparableKernel -> bool -> bool -> result MaskedImage)
    (image : MaskedImage) (axes : Axes) (center : Point2D) (ctrl : KronFluxControl)
    (radiusForRadius : option R) :
  smoothingSigma ctrl <= 0 ->
  determine Footprint_ofEllipse convolve image axes center ctrl radiusForRadius
  = determine Footprint_ofEllipse convolve' image axes center ctrl radiusForRadius.
Proof.
  intros Hs. unfold determine. rewrite (proj2 (Rgtb_false _ _) Hs).
  assert (Hloop : forall n i ax r0 rfr,
    determine_loop Footprint_ofEllipse convolve image center ctrl false (mkKernel 1 1 100)
                   true false n i ax r0 rfr
    = determine_loop Footprint_ofEllipse convolve' image center ctrl false (mkKernel 1 1 100)
                     true false n i ax r0 rfr).
  { induction n as [| n IH]; intros i ax r0 rfr; cbn [determine_loop]; [reflexivity |].
    assert (Hbody : determine_body Footprint_ofEllipse convolve image center ctrl false
                      (mkKernel 1 1 100) true false i ax r0
                    = determine_body Footprint_ofEllipse convolve' image center ctrl false
                        (mkKernel 1 1 100) true false i ax r0) by reflexivity.
    rewrite Hbody.
    destruct (determine_body _ _ _ _ _ _ _ _ _ _ _ _) as [[ax' | e | ax' r] x];
      try reflexivity. apply IH. }
  rewrite Hloop. reflexivity.
Qed.

(** ** Forced photometry and the PSF factor *)

(** [int(0.5*n)] for a count [n] is the quotient of [n] by two. *)
Lemma truncZ_half (n : Z) : (0 <= n)%Z -> truncZ (0.5 * IZR n) = (n / 2)%Z.
Proof.
  intros Hn. unfold truncZ.
  assert (H0 : 0 <= IZR n) by (apply IZR_le in Hn; exact Hn).
  destruct (Rle_dec 0 (0.5 * IZR n)) as [_ | H]; [| exfalso; apply H; lra].
  symmetry. apply Int_part_spec.
  pose proof (Z_div_mod_eq_full n 2) as Hdiv.
  pose proof (Z.mod_pos_bound n 2 ltac:(lia)) as Hmod.
  assert (Hlo : (2 * (n / 2) <= n)%Z) by lia.
  assert (Hhi : (n < 2 * (n / 2) + 2)%Z) by lia.
  apply IZR_le in Hlo. apply IZR_lt in Hhi.
  rewrite plus_IZR, mult_IZR in Hhi. rewrite mult_IZR in Hlo.
  lra.
Qed.

Section FurtherForced.

Variable Axes_transform : Axes -> LinearTransform -> Axes.
Variable Footprint_ofEllipse : Ellipse -> Box2I -> Footprint.
Variable calculateSincApertureFlux : MaskedImage -> Ellipse -> result (R * R).
Variable computeImage : Psf -> Point2D -> result MaskedImage.

Local Abbreviation photometer_ := (photometer Footprint_ofEllipse calculateSincApertureFlux).
Local Abbreviation _applyForced_ :=
  (_applyForced Axes_transform Footprint_ofEllipse calculateSincApertureFlux).
Local Abbreviation getPsfFactor_ :=
  (getPsfFactor Footprint_ofEllipse calculateSincApertureFlux computeImage).

(** X21.  [_applyForced] measures in the aperture of the reference and
    writes nothing else: it never touches the bad-shape, small-radius and
    fallback flags nor the radius for radius.  When it returns, the failure
    flag is clear, flux and error are recorded, the recorded radius is the
    determinant radius of that aperture and not below the machine epsilon,
    and the PSF radius is written only if the exposure has a PSF.  When it
    throws, the failure flag is set and no value has been written. *)
Theorem applyForced_contract (ctrl : KronFluxControl) (source : SourceRecord.t)
    (exposure : Exposure) (center : Point2D) (reference : SourceRecord.t)
    (refToMeas : AffineTransform) (radius : R) :
  let aperture := KronAperture_ofReference Axes_transform reference refToMeas radius in
  let out := _applyForced_ ctrl source exposure center reference refToMeas radius in
  let final := fst out in
  (SourceRecord.badShape final = SourceRecord.badShape source /\
   SourceRecord.smallRadius final = SourceRecord.smallRadius source /\
   SourceRecord.usedMinimumRadius final = SourceRecord.usedMinimumRadius source /\
   SourceRecord.usedPsfRadius final = SourceRecord.usedPsfRadius source /\
   SourceRecord.radiusForRadius final = SourceRecord.radiusForRadius source) /\
  (snd out = Ok tt ->
   SourceRecord.flag final = false /\
   (exists flux fluxErr,
      SourceRecord.meas final = Some flux /\ SourceRecord.err final = Some fluxErr) /\
   SourceRecord.radius final = Some (getDeterminantRadius (getAxes aperture)) /\
   epsilon <= getDeterminantRadius (getAxes aperture) /\
   SourceRecord.psfRadius final
   = match getPsf exposure with
     | Some psf => Some (calculatePsfKronRadius psf center (smoothingSigma ctrl))
     | None => SourceRecord.psfRadius source
     end) /\
  (forall e, snd out = Throw e ->
   SourceRecord.flag final = true /\
   SourceRecord.meas final = SourceRecord.meas source /\
   SourceRecord.err final = SourceRecord.err source /\
   SourceRecord.radius final = SourceRecord.radius source /\
   SourceRecord.psfRadius final = SourceRecord.psfRadius source).
Proof.
  intros aperture out final. subst final out.
  unfold _applyForced, _applyAperture. fold aperture.
  destruct (Rltb (getDeterminantRadius (getAxes aperture)) epsilon) eqn:Hrad.
  - cbn [fst snd]. split; [repeat split |]. split; [discriminate |].
    intros e _. repeat split.
  - apply Rltb_false in Hrad. unfold measure.
    destruct (photometer_ _ _ _) as [r | e0].
    + cbn [fst snd]. split; [destruct (getPsf exposure); repeat split |].
      split; [| discriminate].
      intros _. split; [destruct (getPsf exposure); reflexivity |].
      split; [exists (fst r), (snd r); destruct (getPsf exposure); split; reflexivity |].
      split; [destruct (getPsf exposure); reflexivity |].
      split; [exact Hrad |].
      destruct (getPsf exposure); reflexivity.
    + destruct (ExcKind_eqb (kind e0) LengthError); cbn [fst snd];
        (split; [repeat split |]); (split; [discriminate |]);
        intros e _; repeat split.
Qed.

(** X22.  The aperture of a forced measurement is the aperture of the
    reference source, rescaled to the radius of the reference and carried
    to the frame of the measurement by [transform].  Where the transform
    is the identity and maps every ellipse to itself, it is about the
    centroid of the reference, with the orientation and the axis ratio of
    its shape and the radius of the reference as its determinant radius. *)
Theorem forced_aperture (reference : SourceRecord.t) (refToMeas : AffineTransform)
    (radius : R) :
  let shape := SourceRecord.getShape reference in
  let rescaled :=
    scaleAxes (KronAperture_ofSource reference) (radius / getDeterminantRadius shape) in
  KronAperture_ofReference Axes_transform reference refToMeas radius
  = transform Axes_transform rescaled refToMeas /\
  ((forall axes, Axes_transform axes identityLinear = axes) ->
   0 < getA shape -> 0 < getB shape -> 0 <= radius ->
   let aperture := KronAperture_ofReference Axes_transform reference identityAffine radius in
   aperture = rescaled /\
   getApertureCenter aperture = getCentroid reference /\
   getTheta (getAxes aperture) = getTheta shape /\
   getB (getAxes aperture) * getA shape = getB shape * getA (getAxes aperture) /\
   getDeterminantRadius (getAxes aperture) = radius).
Proof.
  intros shape rescaled. split; [reflexivity |].
  intros Hid Ha Hb Hr aperture.
  assert (Hdet : 0 < getDeterminantRadius shape)
    by (unfold getDeterminantRadius; apply sqrt_lt_R0; nra).
  assert (Hap : aperture = rescaled).
  { subst aperture rescaled. unfold KronAperture_ofReference, _getKronAxes.
    cbn [getLinear identityAffine]. rewrite Hid.
    unfold scaleAxes, KronAperture_ofSource, applyAffine, getCentroid.
    cbn [getLinear identityAffine identityLinear mXX mXY mYX mYY getTranslationX
         getTranslationY getX getY _center _axes].
    f_equal. f_equal; ring. }
  split; [exact Hap |]. rewrite Hap. subst rescaled.
  unfold scaleAxes, KronAperture_ofSource, getApertureCenter, getAxes, getCentroid.
  cbn [_center _axes]. fold shape.
  split; [reflexivity |]. split; [reflexivity |].
  split; [cbn [scale getA getB]; ring |].
  apply getDeterminantRadius_rescale; lra.
Qed.

(** X23.  [getPsfFactor] is one without a PSF.  When [computeImage]
    throws, it throws an exception of the base class (the copy made by
    [throw e;] at the static type of the handler's reference) that carries
    the messages of that exception and the position after them.
    Otherwise it photometers the image of the PSF, padded by five pixels
    of zero intensity on every side, in a circle of radius [R_K] about the
    pixel [((w + 9) / 2, (h + 9) / 2)] of the padded image, [w] by [h]
    being the size of the image of the PSF.  When [R_K] exceeds
    [maxSincRadius] it returns the sum of the intensities over the
    footprint of the circle if the bounding box of the footprint lies
    within the padded image, and throws the [LengthError] of the traversal
    if not; when [R_K] does not exceed it, it returns the flux of the sinc
    photometry, and throws what [photometer] makes of its exception. *)
Theorem getPsfFactor_cases (center : Point2D) (R_K maxSincRadius : R) :
  getPsfFactor_ None center R_K maxSincRadius = Ok 1 /\
  forall psf,
    match computeImage psf center with
    | Throw e =>
      getPsfFactor_ (Some psf) center R_K maxSincRadius
      = Throw {| kind := BaseException;
                 what := what e ++ ["Computing PSF at (%.3f, %.3f)"%string] |}
    | Ok psfImageNoPad =>
      let w := getImageWidth psfImageNoPad in
      let h := getImageHeight psfImageNoPad in
      let stamp := paddedStamp 5 psfImageNoPad in
      let aperture := stampAperture stamp R_K in
      let foot := Footprint_ofEllipse aperture (imageBBox stamp) in
      imageBBox stamp = mkBox2I 0 0 (w + 10) (h + 10) /\
      getCore aperture = mkAxes R_K R_K 0 /\
      ((0 <= w)%Z -> (0 <= h)%Z ->
       getCenter aperture = mkPoint2D (IZR ((w + 9) / 2)) (IZR ((h + 9) / 2))) /\
      (R_K > maxSincRadius ->
       (contains (imageBBox stamp) (getBBox foot) = true ->
        getPsfFactor_ (Some psf) center R_K maxSincRadius
        = Ok (pixelSum (imageAt stamp) (getPixels foot))) /\
       (contains (imageBBox stamp) (getBBox foot) = false ->
        exists e,
          getPsfFactor_ (Some psf) center R_K maxSincRadius = Throw e /\
          kind e = LengthError)) /\
      (R_K <= maxSincRadius ->
       (forall flux fluxErr,
          calculateSincApertureFlux stamp aperture = Ok (flux, fluxErr) ->
          getPsfFactor_ (Some psf) center R_K maxSincRadius = Ok flux) /\
       (forall e,
          calculateSincApertureFlux stamp aperture = Throw e ->
          exists e',
            getPsfFactor_ (Some psf) center R_K maxSincRadius = Throw e' /\
            kind e' = kind e))
    end.
Proof.
  split; [reflexivity |]. intros psf. unfold getPsfFactor.
  destruct (computeImage psf center) as [img | e]; [| reflexivity].
  set (stamp := paddedStamp 5 img). set (aperture := stampAperture stamp R_K).
  set (w := getImageWidth img). set (h := getImageHeight img).
  set (foot := Footprint_ofEllipse aperture (imageBBox stamp)).
  split; [reflexivity |].
  split; [reflexivity |].
  split.
  - intros Hw Hh. subst aperture. unfold stampAperture. cbn [getCenter].
    assert (Ew : (getImageWidth stamp - 1 = w + 9)%Z)
      by (subst stamp w; unfold paddedStamp, getImageWidth; cbn [imageBBox getWidth]; lia).
    assert (Eh : (getImageHeight stamp - 1 = h + 9)%Z)
      by (subst stamp h; unfold paddedStamp, getImageHeight; cbn [imageBBox getHeight]; lia).
    rewrite Ew, Eh, !truncZ_half by lia. reflexivity.
  - unfold photometer. fold foot.
    assert (Hb : getB (getCore aperture) = R_K) by reflexivity. rewrite Hb.
    split.
    + intros Hgt. rewrite (proj2 (Rgtb_true _ _) Hgt).
      destruct (FootprintFlux_apply_cases stamp FootprintFlux.make foot)
        as [[Hin Happ] | [Hout Happ]]; rewrite Happ.
      * split; [intros _; reflexivity | intros H; congruence].
      * split; [intros H; congruence |]. intros _. eexists. split; reflexivity.
    + intros Hle. rewrite (proj2 (Rgtb_false _ _) Hle). split.
      * intros flux fluxErr Hsinc. rewrite Hsinc. reflexivity.
      * intros e Hsinc. rewrite Hsinc.
        destruct (ExcKind_eqb (kind e) LengthError); eexists; split; reflexivity.
Qed.

End FurtherForced.

(** ** Further runs on the strip *)

(** The two bright pixels alone, about the middle of the strip: the mean
    radius is within the largest radius of the footprint. *)
Lemma moment_mean_bounded_witness :
  let foot := mkFootprint (mkBox2I 0 0 5 1) [(0, 0)%Z; (4, 0)%Z] in
  exists f,
    FootprintFindMoment.apply (strip twoPeaks)
      (FootprintFindMoment.make (strip twoPeaks) middle 1 0) foot = Ok f /\
    0 < FootprintFindMoment.getIr f <= 2.
Proof.
  intros foot.
  destruct (FootprintFindMoment_apply_cases (strip twoPeaks) middle 1 0 foot)
    as [[Hfit _] | [_ Happ]]; [discriminate Hfit |].
  eexists. split; [exact Happ |].
  apply (moment_mean_bounded (strip twoPeaks) middle 1 0 foot _ 2).
  - intros p [<- | [<- | []]]; cbn [fst snd strip imageAt]; unfold twoPeaks; simpl; lra.
  - intros p [<- | [<- | []]]; rewrite radiusAt_spec; cbn [fst snd middle getX getY];
      rewrite rowRadius; unfold Rabs; destruct (Rcase_abs _); lra.
  - exact Happ.
  - unfold FootprintFindMoment.getGood.
    cbn [FootprintFindMoment._sum FootprintFindMoment._sumR FootprintFindMoment.setSums].
    assert (HsumI : pixelSum (imageAt (strip twoPeaks)) (getPixels foot) = 2).
    { unfold pixelSum. simpl. unfold twoPeaks. simpl. lra. }
    assert (HsumR : pixelSum (fun x y => spec_ellipticalRadius (getX middle) (getY middle) 1 0 x y
                                         * imageAt (strip twoPeaks) x y) (getPixels foot) = 4).
    { unfold pixelSum. simpl. unfold twoPeaks. simpl.
      rewrite (rowRadius 1 0), (rowRadius 1 4);
        unfold Rabs; repeat destruct (Rcase_abs _); lra. }
    rewrite HsumI, HsumR.
    rewrite (proj2 (Rgtb_true 2 0)), (proj2 (Rgtb_true 4 0)) by lra. reflexivity.
Defined.

(** No pass on the dark strip: the unit shape comes back. *)
Lemma determine_no_pass_witness :
  determine rowFootprint plainConvolve (strip dark) unitAxes middle idleCtrl None
  = (Ok (mkKronAperture middle unitAxes), None).
Proof. apply determine_no_pass. simpl. lia. Defined.

(** The dark strip: the solver throws the bad integral. *)
Lemma determine_throws_badKron_only_witness :
  exists e,
    fst (determine rowFootprint plainConvolve (strip dark) unitAxes middle plainCtrl None)
    = Throw e /\
    e = LSST_EXCEPT BadKronException "Bad integral defining Kron radius".
Proof.
  exists (LSST_EXCEPT BadKronException "Bad integral defining Kron radius").
  assert (H : fst (determine rowFootprint plainConvolve (strip dark) unitAxes middle
                             plainCtrl None)
              = Throw (LSST_EXCEPT BadKronException "Bad integral defining Kron radius")).
  { rewrite (dark_determine plainConvolve plainCtrl) by reflexivity. reflexivity. }
  split; [exact H |].
  apply (determine_throws_badKron_only rowFootprint plainConvolve (strip dark) unitAxes middle
           plainCtrl None); [simpl; lra | exact H].
Defined.

(** The strip with two bright pixels: the circle of radius four returned
    from the unit circle. *)
Lemma determine_keeps_shape_witness :
  let aperture := mkKronAperture middle (mkAxes 4 4 0) in
  getApertureCenter aperture = middle /\
  0 < getA (getAxes aperture) /\ 0 < getB (getAxes aperture) /\
  getTheta (getAxes aperture) = getTheta unitAxes /\
  getB (getAxes aperture) / getA (getAxes aperture) = getB unitAxes / getA unitAxes /\
  (1 <= nSigmaForRadius plainCtrl ->
   getDeterminantRadius unitAxes <= getDeterminantRadius (getAxes aperture)).
Proof.
  intros aperture.
  apply (determine_keeps_shape rowFootprint plainConvolve (strip twoPeaks) unitAxes middle
           plainCtrl None (Some 4) aperture);
    [simpl; lra | simpl; lra | simpl; lra | apply twoPeaks_determine; reflexivity].
Defined.

Lemma determine_radiusForRadius_witness :
  exists r,
    snd (determine rowFootprint plainConvolve (strip twoPeaks) unitAxes middle plainCtrl None)
    = Some r /\
    nSigmaForRadius plainCtrl * getDeterminantRadius unitAxes <= r.
Proof.
  apply determine_radiusForRadius; [simpl; lia | simpl; lra | simpl; lra | simpl; lra].
Defined.

(** The strip three times as bright. *)
Lemma determine_scale_invariant_witness :
  determine rowFootprint plainConvolve (scaleIntensity 3 (strip twoPeaks)) unitAxes middle
            plainCtrl None
  = determine rowFootprint plainConvolve (strip twoPeaks) unitAxes middle plainCtrl None.
Proof. apply determine_scale_invariant; [simpl; lra | lra]. Defined.

Lemma epsilon_pos : 0 < epsilon.
Proof. unfold epsilon. apply Rinv_0_lt_compat, pow_lt. lra. Qed.

(** An aperture with no extent. *)
Lemma applyAperture_failure_witness :
  let aperture := mkKronAperture middle (mkAxes 0 0 0) in
  let source := sourceAtMiddle false in
  let out := _applyAperture rowFootprint edgeSinc plainCtrl source
                            (mkExposure (strip dark) None) aperture in
  exists e,
    snd out = Throw e /\
    SourceRecord.meas (fst (fst out)) = SourceRecord.meas source /\
    SourceRecord.err (fst (fst out)) = SourceRecord.err source /\
    SourceRecord.radius (fst (fst out)) = SourceRecord.radius source.
Proof.
  intros aperture source out.
  assert (Hrad : getDeterminantRadius (getAxes aperture) < epsilon).
  { unfold getDeterminantRadius, aperture; cbn [getAxes _axes getA getB].
    rewrite Rmult_0_l, sqrt_0. apply epsilon_pos. }
  assert (Hout : snd out
                 = Throw (LSST_EXCEPT UnderflowError "Kron radius is < epsilon for source %ld")).
  { unfold out, _applyAperture. rewrite (proj2 (Rltb_true _ _) Hrad). reflexivity. }
  eexists. split; [exact Hout |].
  destruct (applyAperture_failure rowFootprint edgeSinc plainCtrl source
              (mkExposure (strip dark) None) aperture _ Hout) as (Hm & He & Hr & _).
  split; [exact Hm |]. split; [exact He | exact Hr].
Defined.

(** The dark strip under a PSF without extent: nothing to fall back to. *)
Lemma apply_throw_leaves_values_witness :
  let final := fst (_apply rowFootprint plainConvolve edgeSinc plainCtrl (sourceAtMiddle false)
                           (mkExposure (strip dark) (Some flatPsf)) middle) in
  SourceRecord.flag final = true /\
  SourceRecord.meas final = SourceRecord.meas (sourceAtMiddle false) /\
  SourceRecord.err final = SourceRecord.err (sourceAtMiddle false) /\
  SourceRecord.radius final = SourceRecord.radius (sourceAtMiddle false) /\
  SourceRecord.radiusForRadius final = SourceRecord.radiusForRadius (sourceAtMiddle false) /\
  SourceRecord.psfRadius final = SourceRecord.psfRadius (sourceAtMiddle false).
Proof.
  intros final.
  apply (apply_throw_leaves_values rowFootprint plainConvolve edgeSinc plainCtrl
           (sourceAtMiddle false) (mkExposure (strip dark) (Some flatPsf)) middle
           (sliced
              (LSST_EXCEPT_ADD
                 (LSST_EXCEPT BadKronException "Bad integral defining Kron radius")
                 "Bad Kron aperture, no minimum radius specified, and no PSF"))).
  rewrite dark_apply_flatPsf. reflexivity.
Defined.

(** A flagged shape and no PSF. *)
Lemma apply_bad_shape_no_psf_witness :
  _apply rowFootprint plainConvolve edgeSinc plainCtrl (sourceAtMiddle true)
         (mkExposure (strip dark) None) middle
  = (SourceRecord.mk 1 2 0 unitAxes true unitAxes
       true None None None None false false false false false None false,
     Throw (LSST_EXCEPT RuntimeError "Bad shape and no PSF")).
Proof.
  exact (apply_bad_shape_no_psf rowFootprint plainConvolve edgeSinc plainCtrl
           (sourceAtMiddle true) (mkExposure (strip dark) None) middle eq_refl eq_refl).
Defined.

(** The strip with two bright pixels, measured without a PSF. *)
Lemma apply_success_record_witness :
  let final := fst (_apply rowFootprint plainConvolve edgeSinc quarterCtrl
                           (sourceAtMiddle false) (mkExposure (strip twoPeaks) None) middle) in
  (exists r, SourceRecord.radius final = Some r /\ epsilon <= r) /\
  SourceRecord.psfRadius final = Some (-1).
Proof.
  intros final.
  destruct twoPeaks_apply as (flux & fluxErr & Hrun).
  destruct (apply_success_record rowFootprint plainConvolve edgeSinc quarterCtrl
              (sourceAtMiddle false) (mkExposure (strip twoPeaks) None) middle)
    as (Hr & Hp & _); [rewrite Hrun; reflexivity |].
  split; [exact Hr | exact Hp].
Defined.

(** A floor enforced but not given, and no PSF. *)
Lemma apply_needs_floor_or_psf_witness :
  exists e,
    snd (_apply rowFootprint plainConvolve edgeSinc noFloorCtrl (sourceAtMiddle false)
                (mkExposure (strip dark) None) middle) = Throw e /\
    SourceRecord.flag
      (fst (_apply rowFootprint plainConvolve edgeSinc noFloorCtrl (sourceAtMiddle false)
                   (mkExposure (strip dark) None) middle)) = true.
Proof.
  apply apply_needs_floor_or_psf; [reflexivity | simpl; lra | reflexivity].
Defined.

(** The dark strip without a PSF. *)
Lemma apply_fallback_exhausted_witness :
  _apply rowFootprint plainConvolve edgeSinc plainCtrl (sourceAtMiddle false)
         (mkExposure (strip dark) None) middle
  = (SourceRecord.mk 1 2 0 unitAxes false unitAxes
       true None None None None false true false false false None false,
     Throw {| kind := BaseException;
              what := ["Bad integral defining Kron radius"%string;
                       "Bad Kron aperture, no minimum radius specified, and no PSF"%string] |}).
Proof.
  apply (apply_fallback_exhausted rowFootprint plainConvolve edgeSinc plainCtrl
           (sourceAtMiddle false) (mkExposure (strip dark) None) middle
           (LSST_EXCEPT BadKronException "Bad integral defining Kron radius") (Some 2));
    [reflexivity | reflexivity | reflexivity | simpl; lra | | discriminate].
  change (determine rowFootprint plainConvolve (strip dark) unitAxes middle plainCtrl None
          = (Throw (LSST_EXCEPT BadKronException "Bad integral defining Kron radius"), Some 2)).
  apply dark_determine; reflexivity.
Defined.

(** A unit footprint about a unit shape, for a growth factor of two. *)
Lemma widenByFootprint_radius_witness :
  let widened := widenByFootprint footprintCtrl (sourceAtMiddle false) unitAxes in
  getTheta widened = getTheta unitAxes /\
  getB widened / getA widened = getB unitAxes / getA unitAxes /\
  getDeterminantRadius widened * 2
  = Rmax (getDeterminantRadius unitAxes * 2) (sqrt 2 * getDeterminantRadius unitAxes).
Proof.
  apply (widenByFootprint_radius footprintCtrl (sourceAtMiddle false) unitAxes); simpl; lra.
Defined.

(** The unit aperture raised to a minimum of three, and raised again. *)
Lemma enforceMinimum_idempotent_witness :
  let aperture := mkKronAperture middle unitAxes in
  let raised := scaleAxes aperture (3 / getDeterminantRadius unitAxes) in
  let flagged := SourceRecord.set_smallRadius true
                   (SourceRecord.set_usedMinimumRadius true (sourceAtMiddle false)) in
  enforceMinimum floorCtrl (mkExposure (strip dark) None) (-1) raised flagged
  = (flagged, Ok raised).
Proof.
  intros aperture raised flagged.
  apply (enforceMinimum_idempotent floorCtrl (mkExposure (strip dark) None) (-1)
           aperture raised (sourceAtMiddle false) flagged).
  - change (0 < getDeterminantRadius unitAxes). rewrite getDeterminantRadius_unitAxes. lra.
  - unfold enforceMinimum, bind, set, ret.
    cbn [enforceMinimumRadius floorCtrl minimumRadius].
    rewrite (proj2 (Rgtb_true 3 0)) by lra.
    change (getDeterminantRadius (getAxes aperture)) with (getDeterminantRadius unitAxes).
    rewrite getDeterminantRadius_unitAxes.
    rewrite (proj2 (Rltb_true 1 3)) by lra. cbn [fst snd].
    rewrite (proj2 (Rneqb_true 3 1)) by lra.
    unfold raised. rewrite getDeterminantRadius_unitAxes. reflexivity.
Defined.

(** The whole strip as a footprint. *)
Lemma momentWindow_fits_iff_inside_witness :
  let foot := mkFootprint (mkBox2I 0 0 5 1)
                [(0, 0)%Z; (1, 0)%Z; (2, 0)%Z; (3, 0)%Z; (4, 0)%Z] in
  exists window,
    momentWindow plainConvolve (strip twoPeaks) false (mkKernel 1 1 100) true false foot
    = Ok window /\
    (FootprintFindMoment.fits window (FootprintFindMoment.make window middle 1 0) foot = true
     <->
     (getMinX (imageBBox (strip twoPeaks)) <= getMinX (getBBox foot) /\
      getMinY (imageBBox (strip twoPeaks)) <= getMinY (getBBox foot) /\
      getMaxX (getBBox foot) <= getMaxX (imageBBox (strip twoPeaks)) /\
      getMaxY (getBBox foot) <= getMaxY (imageBBox (strip twoPeaks)))%Z).
Proof.
  intros foot.
  exact (momentWindow_fits_iff_inside plainConvolve (strip twoPeaks) (mkKernel 1 1 100)
           true false foot middle 1 0 eq_refl eq_refl).
Defined.

(** A convolution that would fail, never called. *)
Lemma determine_ignores_convolve_witness :
  determine rowFootprint plainConvolve (strip twoPeaks) unitAxes middle plainCtrl None
  = determine rowFootprint edgeConvolve (strip twoPeaks) unitAxes middle plainCtrl None.
Proof. apply determine_ignores_convolve. simpl; lra. Defined.

(** The reference at the middle of the strip, measured in its own frame
    with a radius of three. *)
Lemma forced_aperture_witness :
  let aperture := KronAperture_ofReference keepAxes (sourceAtMiddle false) identityAffine 3 in
  getApertureCenter aperture = middle /\
  getDeterminantRadius (getAxes aperture) = 3.
Proof.
  intros aperture.
  destruct (forced_aperture keepAxes (sourceAtMiddle false) identityAffine 3) as [_ H].
  destruct H as (_ & Hc & _ & _ & Hr);
    [reflexivity | simpl; lra | simpl; lra | lra |].
  split; [exact Hc | exact Hr].
Defined.
